(** * Managed auto-scaler for Aurora readers: the two Lambda handlers

    A shallow embedding of [lambda_builds/autoscale_up.py] and
    [lambda_builds/downscale.py].  The AWS services the handlers talk to
    (RDS, CloudWatch, EC2, EventBridge Scheduler, SNS) are a record of
    oracles, [World]; the one piece of service state that the handlers
    change and read back, the state of the periodic schedule, is threaded
    through a state-and-exception monad together with a trace of the calls
    that were made.

    Conventions of the model:
    - a Python exception is a value of [exn]; [ClientError] is botocore's,
      [Exception] stands for every other subclass of Python's Exception;
    - CloudWatch datapoints and the CPU threshold are Python floats, that
      is IEEE 754 binary64 numbers; their sum, quotient and comparison are
      those of the standard library's specification of floating-point
      arithmetic, rounding included;
    - creation times are integers (a timestamp);
    - log lines at WARNING and ERROR level are traced, INFO lines are not;
    - readings of the clock (execution times, the metric window) are left
      out. *)

From Stdlib Require Import ZArith SpecFloat String List Lia.
From stdpp Require Import base list strings gmap sorting.

#[local] Set Warnings "-clear-no-such-hyp".

Local Open Scope string_scope.
Local Open Scope list_scope.

(** ** Python values shared by both handlers *)

Inductive exn : Type :=
  | ClientError (code operation message : string)
  | Exception (message : string).

(** [str(e)]; for a ClientError, botocore's message format. *)
Definition str (e : exn) : string :=
  match e with
  | ClientError code operation message =>
      "An error occurred (" +:+ code +:+ ") when calling the " +:+ operation
        +:+ " operation: " +:+ message
  | Exception message => message
  end.

Definition isinstance_ClientError (e : exn) : bool :=
  match e with ClientError _ _ _ => true | Exception _ => false end.

Definition isinstance_Exception (e : exn) : bool := true.

Definition error_code (e : exn) : option string :=
  match e with ClientError code _ _ => Some code | Exception _ => None end.

(** [sub in s] on strings. *)
Definition contains (sub s : string) : bool :=
  match index 0 sub s with Some _ => true | None => false end.

Inductive outcome (A : Type) : Type :=
  | Return (a : A)
  | Raise (e : exn).
Arguments Return {A} a.
Arguments Raise {A} e.

#[global] Instance outcome_ret : MRet outcome := @Return.
#[global] Instance outcome_bind : MBind outcome := λ A B f m,
  match m with Return a => f a | Raise e => Raise e end.

(** [sorted(l, key=key)]: Python's sort is stable, as is this insertion
    sort, which places an element before the first one whose key is not
    smaller. *)
Fixpoint insert_by {A : Type} (key : A → Z) (x : A) (l : list A) : list A :=
  match l with
  | [] => [x]
  | y :: l' => if (key x <=? key y)%Z then x :: y :: l' else y :: insert_by key x l'
  end.

Definition sorted {A : Type} (key : A → Z) (l : list A) : list A :=
  foldr (insert_by key) [] l.

(** A Python [float]: a binary64 number, in the canonical form in which
    the operations below return their results. *)
Definition float : Type := spec_float.

Definition prec : Z := 53.
Definition emax : Z := 1024.

(** [float(n)] of an int, which is also the conversion of an int operand
    of a float operation; [a + b], [a / b] for a divisor that is not zero,
    and [a >= b], which is false when an operand is not a number. *)
Definition float_of_int (n : Z) : float := binary_normalize prec emax n 0 false.
Definition float_add (a b : float) : float := SFadd prec emax a b.
Definition float_div (a b : float) : float := SFdiv prec emax a b.
Definition float_ge (a b : float) : bool := SFleb b a.

(** [sum(l)] of floats: the additions are made from left to right,
    starting from the int [0], each of them rounded (the plain summation
    of CPython up to 3.11; from 3.12 on [sum] compensates the rounding
    errors of the additions); and [len(l)]. *)
Definition sum (l : list float) : float := fold_left float_add l (float_of_int 0).
Definition len {A : Type} (l : list A) : Z := Z.of_nat (length l).

(** A dict that is iterated, in insertion order. *)
Definition dict (V : Type) : Type := list (string * V).

Fixpoint dict_get {V : Type} (d : dict V) (k : string) : option V :=
  match d with
  | [] => None
  | (k', v) :: d' => if String.eqb k' k then Some v else dict_get d' k
  end.

Fixpoint dict_set {V : Type} (d : dict V) (k : string) (v : V) : dict V :=
  match d with
  | [] => [(k, v)]
  | (k', v') :: d' =>
      if String.eqb k' k then (k', v) :: d' else (k', v') :: dict_set d' k v
  end.

Definition dict_keys {V : Type} (d : dict V) : list string := d.*1.

Definition dict_contains {V : Type} (d : dict V) (k : string) : bool :=
  match dict_get d k with Some _ => true | None => false end.

(** [{k: v for k in ks}] *)
Definition dict_fromkeys {V : Type} (ks : list string) (v : V) : dict V :=
  foldl (λ d k, dict_set d k v) [] ks.

(** ** The AWS side *)

(** An entry of [describe_db_instances()['DBInstances']], with the keys the
    handlers read.  Keys read with [.get] or tested with [in] are optional. *)
Record DBInstance : Type := {
  DBInstanceIdentifier : string;
  DBInstanceStatus : string;
  InstanceCreateTime : option Z;
  DBClusterIdentifier : option string;
  AvailabilityZone : option string;
  IsClusterWriter : option bool
}.

(** An entry of a cluster's ['DBClusterMembers']. *)
Record DBClusterMember : Type := {
  member_DBInstanceIdentifier : string;
  member_IsClusterWriter : bool
}.

(** An entry of [get_metric_data(...)['MetricDataResults']]: ['Id'] is
    ["m" + str(i)], of which the index [i] is kept. *)
Record MetricDataResult : Type := {
  Id : nat;
  Values : list float
}.

Inductive Level : Type := WARNING | ERROR.

Inductive Event : Type :=
  | Log (level : Level) (message : string)
  | Publish (subject : string)
  | Reconcile (instances : list DBInstance)
  | GetSchedule
  | UpdateSchedule (state : string)
  | DeleteDBInstance (identifier : string)
  | CreateCapacityReservation (instance_type availability_zone : string)
  | CancelCapacityReservation (reservation_id : string)
  | CreateDBInstance (identifier instance_class availability_zone : string).

Record World : Type := {
  (* RDS *)
  describe_db_clusters : outcome (list (list DBClusterMember));
  describe_db_instances : outcome (list DBInstance);
  describe_db_instance : string → outcome (list string);
  list_tags_for_resource : string → outcome (list (string * string));
  delete_db_instance : string → outcome unit;
  create_db_instance : string → string → string → outcome (option string);
  (* CloudWatch *)
  get_metric_data : list string → outcome (list MetricDataResult);
  (* EC2 *)
  create_capacity_reservation : string → string → outcome string;
  cancel_capacity_reservation : string → outcome unit;
  (* SNS *)
  publish : string → outcome unit;
  (* EventBridge Scheduler *)
  get_schedule_fault : option exn;
  update_schedule_fault : option exn;
  (* time.strftime and uuid.uuid4, by the number of calls traced so far *)
  timestamp_and_uuid : nat → string
}.

(** ** The monad of a handler run

    [schedule] is the ['State'] of the schedule
    [aurora-cpu-monitor-every-minute] ([None]: there is no such
    schedule); [trace] lists the calls made so far, oldest first;
    [instances] is the local variable of that name of the scale-down
    handler, which its [finally] block reads. *)

Record State : Type := {
  schedule : option string;
  trace : list Event;
  instances : list DBInstance
}.

Definition M (A : Type) : Type := State → outcome A * State.

#[global] Instance M_ret : MRet M := λ A a s, (Return a, s).
#[global] Instance M_bind : MBind M := λ A B f m s,
  match m s with
  | (Return a, s') => f a s'
  | (Raise e, s') => (Raise e, s')
  end.

Definition raise {A : Type} (e : exn) : M A := λ s, (Raise e, s).

(** The answer of a service that keeps no state of its own. *)
Definition call {A : Type} (answer : outcome A) : M A := λ s, (answer, s).

Definition emit (ev : Event) : M unit := λ s,
  (Return tt,
   {| schedule := schedule s; trace := trace s ++ [ev]; instances := instances s |}).

Definition log (level : Level) (message : string) : M unit :=
  emit (Log level message).

Definition set_schedule (state : string) : M unit := λ s,
  (Return tt,
   {| schedule := Some state; trace := trace s; instances := instances s |}).

Definition set_instances (l : list DBInstance) : M unit := λ s,
  (Return tt, {| schedule := schedule s; trace := trace s; instances := l |}).

Definition get_instances : M (list DBInstance) := λ s, (Return (instances s), s).

(** [try: body / except <catches> as e: handler e] *)
Definition try_except {A : Type}
    (body : M A) (catches : exn → bool) (handler : exn → M A) : M A := λ s,
  match body s with
  | (Return a, s') => (Return a, s')
  | (Raise e, s') => if catches e then handler e s' else (Raise e, s')
  end.

(** [try: body / finally: final], where [final] holds no [return]. *)
Definition try_finally {A : Type} (body : M A) (final : M unit) : M A := λ s,
  let '(r, s') := body s in
  match final s' with
  | (Return _, s'') => (r, s'')
  | (Raise e, s'') => (Raise e, s'')
  end.

(** A loop whose body may [return] from the enclosing function:
    [Some v] is that return, [None] lets the loop go on. *)
Fixpoint for_each {A R : Type} (l : list A) (body : A → M (option R)) : M (option R) :=
  match l with
  | [] => mret None
  | x :: l' =>
      r ← body x;
      match r with
      | Some v => mret (Some v)
      | None => for_each l' body
      end
  end.

Definition EVENTBRIDGE_SCHEDULE_NAME : string := "aurora-cpu-monitor-every-minute".

Definition ResourceNotFoundException : exn :=
  ClientError "ResourceNotFoundException" "GetSchedule"
    ("Schedule " +:+ EVENTBRIDGE_SCHEDULE_NAME +:+ " does not exist.").

Definition isinstance_ResourceNotFoundException (e : exn) : bool :=
  bool_decide (error_code e = Some "ResourceNotFoundException").

(** [get_schedule(Name=..., GroupName="default")['State']] *)
Definition get_schedule (w : World) : M string :=
  emit GetSchedule;;
  match get_schedule_fault w with
  | Some e => raise e
  | None =>
      λ s, match schedule s with
           | Some state => (Return state, s)
           | None => (Raise ResourceNotFoundException, s)
           end
  end.

(** [update_schedule(..., State=state)], the other fields as they were. *)
Definition update_schedule (w : World) (state : string) : M unit :=
  emit (UpdateSchedule state);;
  match update_schedule_fault w with
  | Some e => raise e
  | None =>
      λ s, match schedule s with
           | Some _ => set_schedule state s
           | None => (Raise ResourceNotFoundException, s)
           end
  end.

Definition fmt (o : option string) : string := default "None" o.

(** ** downscale.py *)

Module Downscale.

Record Config : Type := {
  DB_CLUSTER_ID : option string;
  SNS_TOPIC_ARN : option string;
  CPU_THRESHOLD : float;
  CPU_LOOKBACK_MINUTES : Z;
  CLOUDWATCH_PERIOD : Z;
  ENABLE_SNS : bool
}.

Record Response : Type := {
  statusCode : nat;
  body : string
}.

Definition REQUIRED_TAGS_FOR_DELETION : list (string * string) :=
  [("ManagedBy", "aurora-autoscaler"); ("AutoScaler", "lambda-managed")].

(** [{tag['Key']: tag['Value'] for tag in tag_list}] *)
Definition tags_dict (tag_list : list (string * string)) : gmap string string :=
  foldl (λ d tag, <[tag.1 := tag.2]> d) ∅ tag_list.

Section handler.
Context (cfg : Config) (w : World).

(** The verifier changes nothing and catches all it raises, so that
    it is a function of the account; its log lines are not traced.  An
    entry of ['DBInstances'] is kept as its ['DBInstanceArn']. *)
Definition is_lambda_managed_instance (instance_identifier : string) : bool :=
  let attempt : outcome bool :=
    instance_response ← describe_db_instance w instance_identifier;
    match instance_response with
    | [] => Return false
    | instance_arn :: _ =>
        tags_response ← list_tags_for_resource w instance_arn;
        let instance_tags := tags_dict tags_response in
        let missing_tags :=
          filter (λ required, instance_tags !! required.1 ≠ Some required.2)
                 REQUIRED_TAGS_FOR_DELETION in
        match missing_tags with
        | _ :: _ => Return false
        | [] => Return true
        end
    end in
  match attempt with
  | Return answer => answer
  | Raise _ => false
  end.

Definition notify (subject : string) : M unit :=
  if negb (ENABLE_SNS cfg) || bool_decide (SNS_TOPIC_ARN cfg = None)
     || bool_decide (SNS_TOPIC_ARN cfg = Some EmptyString)
  then mret tt
  else
    try_except
      (emit (Publish subject);; call (publish w subject))
      isinstance_Exception
      (λ e, log ERROR ("Failed to send SNS notification: " +:+ str e)).

(** The [Reconcile] event marks the entry with its argument.  The outer
    [try] of the function is left out: [is_lambda_managed_instance] and
    [notify] catch what they raise, and the inner [try] catches the
    scheduler's exceptions, so that nothing reaches it. *)
Definition check_and_disable_eventbridge (instances : list DBInstance) : M unit :=
  emit (Reconcile instances);;
  let lambda_instances :=
    filter (λ inst,
              String.prefix "lambda-aurora-reader" (DBInstanceIdentifier inst) = true
              ∧ DBInstanceStatus inst ≠ "deleting") instances in
  let tagged_lambda_instances :=
    filter (λ inst, is_lambda_managed_instance (DBInstanceIdentifier inst) = true)
           lambda_instances in
  match tagged_lambda_instances with
  | _ :: _ => mret tt
  | [] =>
      let schedule_name := EVENTBRIDGE_SCHEDULE_NAME in
      try_except
        (current_state ← get_schedule w;
         if String.eqb current_state "DISABLED" then mret tt
         else
           update_schedule w "DISABLED";;
           notify "Aurora Auto-Scaler: Schedule Disabled")
        isinstance_Exception
        (λ e,
           if isinstance_ResourceNotFoundException e
           then log WARNING ("EventBridge schedule '" +:+ schedule_name +:+
                             "' not found. It may have been deleted manually.")
           else
             log ERROR ("Failed to disable EventBridge schedule '" +:+ schedule_name
                        +:+ "': " +:+ str e);;
             notify "Aurora Auto-Scaler: Schedule Management Error")
  end.

(** Step 3: the loop over ['MetricDataResults'], which gathers the
    datapoints of every result that has some. *)
Fixpoint collect_cpu_values (readers : list string) (results : list MetricDataResult)
    (reader_cpu_values : list float) : outcome (list float) :=
  match results with
  | [] => Return reader_cpu_values
  | result :: results' =>
      match Values result with
      | [] => collect_cpu_values readers results' reader_cpu_values
      | _ :: _ =>
          match readers !! Id result with
          | None => Raise (Exception "list index out of range")
          | Some reader_id =>
              collect_cpu_values readers results' (reader_cpu_values ++ Values result)
          end
      end
  end.

(** Step 5: the filter that gives [lambda_readers]. *)
Definition lambda_readers_of (instances : list DBInstance) : list DBInstance :=
  filter (λ inst,
            String.prefix "lambda-aurora-reader" (DBInstanceIdentifier inst) = true
            ∧ DBInstanceStatus inst = "available"
            ∧ is_Some (InstanceCreateTime inst)) instances.

(** Step 6: [sorted(lambda_readers, key=lambda x: x['InstanceCreateTime'])[-1]] *)
Definition latest_reader_of (lambda_readers : list DBInstance) : option DBInstance :=
  last (sorted (λ x, default 0%Z (InstanceCreateTime x)) lambda_readers).

Definition response (code : nat) (text : string) : Response :=
  {| statusCode := code; body := text |}.

(** The [try] block of [lambda_handler] with its [except Exception]
    clause.  An inner [try] whose [except] clause returns from the handler
    yields [inl] of what is returned, and [inr] of the values that the
    following steps use otherwise.  Log messages are kept up to the
    numbers they interpolate. *)
Definition lambda_handler_try : M Response :=
  try_except
    ((* Step 1: identify reader instances *)
     step1 ← try_except
       (cluster_response ← call (describe_db_clusters w);
        match cluster_response with
        | [] => raise (Exception ("Cluster " +:+ fmt (DB_CLUSTER_ID cfg) +:+ " not found"))
        | cluster :: _ =>
            mret (inr (member_DBInstanceIdentifier <$>
                         filter (λ m, member_IsClusterWriter m = false) cluster))
        end)
       isinstance_Exception
       (λ e,
          let error_msg := "Failed to fetch cluster information: " +:+ str e in
          log ERROR error_msg;;
          notify "Aurora Auto-Scaler: Cluster Error";;
          mret (inl (response 500 error_msg)));
     match step1 with
     | inl returned => mret returned
     | inr [] =>
         notify "Aurora Auto-Scaler: Skipped";;
         check_and_disable_eventbridge [];;
         mret (response 200 "No readers to evaluate")
     | inr ((_ :: _) as readers) =>
     (* Step 2: fetch CPU metrics in batch *)
     step2 ← try_except
       (metric_data ← call (get_metric_data w readers);
        mret (inr metric_data))
       isinstance_Exception
       (λ e,
          let error_msg := "Failed to fetch CPU metrics: " +:+ str e in
          log ERROR error_msg;;
          notify "Aurora Auto-Scaler: Metrics Error";;
          mret (inl (response 500 error_msg)));
     match step2 with
     | inl returned => mret returned
     | inr metric_data_results =>
     (* Step 3: process CPU metrics *)
     reader_cpu_values ← call (collect_cpu_values readers metric_data_results []);
     match reader_cpu_values with
     | [] =>
         log WARNING ("No valid CPU datapoints found for reader instances in cluster "
                      +:+ fmt (DB_CLUSTER_ID cfg));;
         notify "Aurora Auto-Scaler: No Data";;
         check_and_disable_eventbridge [];;
         mret (response 200 "No CPU data available")
     | _ :: _ =>
     (* Step 4: evaluate scaling decision *)
     let avg_cpu := float_div (sum reader_cpu_values)
                              (float_of_int (len reader_cpu_values)) in
     if float_ge avg_cpu (CPU_THRESHOLD cfg) then
       notify "Aurora Auto-Scaler: No Action";;
       check_and_disable_eventbridge [];;
       mret (response 200 "CPU above threshold, no action needed")
     else
     (* Step 5: identify Lambda-created readers for removal *)
     step5 ← try_except
       (listing ← call (describe_db_instances w);
        set_instances listing;;
        mret (inr (lambda_readers_of listing)))
       isinstance_Exception
       (λ e,
          let error_msg := "Failed to fetch RDS instances: " +:+ str e in
          log ERROR error_msg;;
          notify "Aurora Auto-Scaler: Instance Fetch Error";;
          mret (inl (response 500 error_msg)));
     match step5 with
     | inl returned => mret returned
     | inr [] =>
         notify "Aurora Auto-Scaler: No Lambda Readers";;
         instances ← get_instances;
         check_and_disable_eventbridge instances;;
         mret (response 200 "No lambda readers to remove")
     | inr ((_ :: _) as lambda_readers) =>
     (* Step 6: delete the most recent tagged Lambda reader *)
     latest_reader ← call (match latest_reader_of lambda_readers with
                           | Some inst => Return inst
                           | None => Raise (Exception "list index out of range")
                           end);
     let latest_id := DBInstanceIdentifier latest_reader in
     if negb (is_lambda_managed_instance latest_id) then
       log WARNING ("SECURITY PROTECTION: Instance " +:+ latest_id +:+
                    " does not have required tags for deletion.");;
       notify "Aurora Auto-Scaler: Security Protection";;
       instances ← get_instances;
       check_and_disable_eventbridge instances;;
       mret (response 403 "Instance deletion blocked - missing required tags")
     else
       step6 ← try_except
         (emit (DeleteDBInstance latest_id);;
          call (delete_db_instance w latest_id);;
          mret (inr tt))
         isinstance_Exception
         (λ e,
            let error_msg :=
              "Failed to delete instance " +:+ latest_id +:+ ": " +:+ str e in
            log ERROR error_msg;;
            notify "Aurora Auto-Scaler: Deletion Error";;
            mret (inl (response 500 error_msg)));
       match step6 with
       | inl returned => mret returned
       | inr _ =>
           notify "Aurora Auto-Scaler: Successful Deletion";;
           mret (response 200 ("Successfully deleted " +:+ latest_id))
       end
     end end end end)
    isinstance_Exception
    (λ e,
       let error_msg := "Unexpected error in lambda_handler: " +:+ str e in
       log ERROR error_msg;;
       notify "Aurora Auto-Scaler: Critical Error";;
       mret (response 500 error_msg)).

Definition lambda_handler : M Response :=
  set_instances [];;
  try_finally
    lambda_handler_try
    (instances ← get_instances; check_and_disable_eventbridge instances).

End handler.

(** One invocation: the handler from a fresh trace. *)
Definition invoke (cfg : Config) (w : World) (state : option string) : outcome Response * State :=
  lambda_handler cfg w {| schedule := state; trace := []; instances := [] |}.

End Downscale.

(** ** autoscale_up.py *)

Module AutoscaleUp.

Record Config : Type := {
  DB_CLUSTER_ID : option string;
  SNS_TOPIC_ARN : option string;
  PREFERRED_INSTANCE_TYPE : string;
  INSTANCE_TYPES_PRIORITY : list string;
  AVAILABILITY_ZONES : list string;
  FALLBACK_STRATEGY : string;
  ENABLE_SNS : bool
}.

(** The dict that the handler returns: its ["statusCode"] and the fields
    of its ["body"], but for the execution time, which like the other
    readings of the clock is not modelled. *)
Inductive Response : Type :=
  | success (instance_type availability_zone : string) (db_identifier : option string)
  | failure (message : string) (attempted_types attempted_azs : list string)
  | error (message : string).

Definition statusCode (r : Response) : nat :=
  match r with
  | success _ _ _ => 200
  | failure _ _ _ => 503
  | error _ => 500
  end.

Definition LAMBDA_MANAGED_TAGS : list (string * string) :=
  [("ManagedBy", "aurora-autoscaler"); ("AutoScaler", "lambda-managed");
   ("CreatedBy", "aurora-autoscale-up-lambda"); ("Purpose", "auto-scaling-reader")].

Section handler.
Context (cfg : Config) (w : World).

Definition notify (subject : string) : M unit :=
  if negb (ENABLE_SNS cfg) || bool_decide (SNS_TOPIC_ARN cfg = None)
     || bool_decide (SNS_TOPIC_ARN cfg = Some EmptyString)
  then mret tt
  else
    try_except
      (emit (Publish subject);; call (publish w subject))
      isinstance_Exception
      (λ e, log ERROR ("Failed to send SNS notification: " +:+ str e)).

Definition generate_unique_db_identifier : M string := λ s,
  (Return ("lambda-aurora-reader-" +:+ timestamp_and_uuid w (length (trace s))), s).

(** The body of the loop over ["DBInstances"] in
    [get_aurora_readers_per_az]. *)
Definition count_reader (readers_per_az : dict nat) (db : DBInstance) : dict nat :=
  if bool_decide (DBClusterIdentifier db = DB_CLUSTER_ID cfg) then
    let az := AvailabilityZone db in
    let status := DBInstanceStatus db in
    let is_writer := default false (IsClusterWriter db) in
    if negb is_writer
       && negb (bool_decide (status ∈ ["deleting"; "insufficient activity"]))
       && match az with Some zone => dict_contains readers_per_az zone | None => false end
    then
      match az with
      | Some zone =>
          dict_set readers_per_az zone (default 0 (dict_get readers_per_az zone) + 1)
      | None => readers_per_az
      end
    else readers_per_az
  else readers_per_az.

Definition get_aurora_readers_per_az : M (dict nat) :=
  try_except
    (response ← call (describe_db_instances w);
     let readers_per_az := dict_fromkeys (AVAILABILITY_ZONES cfg) 0 in
     mret (foldl count_reader readers_per_az response))
    isinstance_Exception
    (λ e, log ERROR ("Error getting Aurora readers: " +:+ str e);; raise e).

Definition enable_eventbridge_rule : M unit :=
  try_except
    (state ← get_schedule w;
     if negb (String.eqb state "ENABLED") then
       update_schedule w "ENABLED";;
       notify "EventBridge Scheduler Enabled"
     else mret tt)
    isinstance_Exception
    (λ e, log ERROR ("Failed to enable EventBridge Scheduler: " +:+ str e)).

Definition check_capacity (instance_type availability_zone : string) : M bool :=
  try_except
    (emit (CreateCapacityReservation instance_type availability_zone);;
     reservation_id ← call (create_capacity_reservation w instance_type availability_zone);
     emit (CancelCapacityReservation reservation_id);;
     call (cancel_capacity_reservation w reservation_id);;
     mret true)
    isinstance_ClientError
    (λ e,
       if contains "InsufficientInstanceCapacity" (str e) then mret false
       else
         log ERROR ("ODCR error for " +:+ instance_type +:+ " in " +:+ availability_zone
                    +:+ ": " +:+ str e);;
         mret false).

(** The tags passed to [create_db_instance] are constants of the module
    and are left out of the traced call.  The response, a dict that is
    never empty, is kept as its ['DBInstance']['DBInstanceIdentifier']. *)
Definition create_reader_instance (instance_type availability_zone : string)
    : M (option (option string)) :=
  db_identifier ← generate_unique_db_identifier;
  try_except
    (emit (CreateDBInstance db_identifier ("db." +:+ instance_type) availability_zone);;
     created ← call (create_db_instance w db_identifier ("db." +:+ instance_type)
                       availability_zone);
     notify "Aurora Reader Created with Secure Tagging";;
     enable_eventbridge_rule;;
     mret (Some created))
    isinstance_Exception
    (λ e,
       log ERROR ("Failed to create reader instance " +:+ db_identifier +:+ ": " +:+ str e);;
       notify "Aurora Reader Creation Failed";;
       mret None).

(** The body shared by the three candidate loops of [lambda_handler]. *)
Definition try_candidate (instance_type az : string) : M (option Response) :=
  available ← check_capacity instance_type az;
  if available : bool then
    result ← create_reader_instance instance_type az;
    match result with
    | Some created => mret (Some (success instance_type az created))
    | None => mret None
    end
  else mret None.

(** [sorted(readers_per_az, key=readers_per_az.get)] *)
Definition sorted_azs_of (readers_per_az : dict nat) : list string :=
  sorted (λ az, Z.of_nat (default 0 (dict_get readers_per_az az)))
         (dict_keys readers_per_az).

(** Steps 2 to 5 of [lambda_handler]. *)
Definition place_reader (readers_per_az : dict nat) : M Response :=
  let sorted_azs := sorted_azs_of readers_per_az in
  preferred ← for_each sorted_azs (λ az, try_candidate (PREFERRED_INSTANCE_TYPE cfg) az);
  match preferred with
  | Some returned => mret returned
  | None =>
      fallback ←
        (if String.eqb (FALLBACK_STRATEGY cfg) "instance-priority" then
           for_each (INSTANCE_TYPES_PRIORITY cfg) (λ instance_type,
             for_each sorted_azs (λ az, try_candidate instance_type az))
         else
           for_each sorted_azs (λ az,
             for_each (INSTANCE_TYPES_PRIORITY cfg) (λ instance_type,
               try_candidate instance_type az)));
      match fallback with
      | Some returned => mret returned
      | None =>
          let error_msg := "No capacity found for any instance type in any AZ" in
          log ERROR "=== Aurora AutoScaler Scale-Up Failed ===";;
          log ERROR ("Error: " +:+ error_msg);;
          log ERROR "Execution time: ";;
          notify "Aurora Scaling Failed";;
          mret (failure error_msg
                  (PREFERRED_INSTANCE_TYPE cfg :: INSTANCE_TYPES_PRIORITY cfg)
                  (AVAILABILITY_ZONES cfg))
      end
  end.

Definition lambda_handler : M Response :=
  try_except
    (readers_per_az ← get_aurora_readers_per_az;
     place_reader readers_per_az)
    isinstance_Exception
    (λ e,
       let error_msg := "Unexpected error in Aurora AutoScaler: " +:+ str e in
       log ERROR "=== Aurora AutoScaler Scale-Up Error ===";;
       log ERROR ("Error: " +:+ error_msg);;
       log ERROR "Execution time before error: ";;
       notify "Aurora AutoScaler Critical Error";;
       mret (error error_msg)).

End handler.

(** One invocation: the handler from a fresh trace. *)
Definition invoke (cfg : Config) (w : World) (state : option string) : outcome Response * State :=
  lambda_handler cfg w {| schedule := state; trace := []; instances := [] |}.

End AutoscaleUp.

(** * Observations on a run *)

Definition add_events (s : State) (evs : list Event) : State :=
  {| schedule := schedule s; trace := trace s ++ evs; instances := instances s |}.

(** The snapshots with which scheduler reconciliation was entered. *)
Definition reconcile_calls (t : list Event) : list (list DBInstance) :=
  omap (λ ev, match ev with Reconcile snapshot => Some snapshot | _ => None end) t.

(** The instances whose deletion was requested. *)
Definition deletions (t : list Event) : list string :=
  omap (λ ev, match ev with DeleteDBInstance identifier => Some identifier | _ => None end) t.

(** The (class, zone) pairs handed to the capacity probe. *)
Definition probes (t : list Event) : list (string * string) :=
  omap (λ ev, match ev with
              | CreateCapacityReservation instance_type zone => Some (instance_type, zone)
              | _ => None
              end) t.

(** The instances of a snapshot that reconciliation counts as owned:
    naming prefix, not being deleted, required tags verified. *)
Definition verified_owned (w : World) (snapshot : list DBInstance) : list DBInstance :=
  filter (λ inst,
            String.prefix "lambda-aurora-reader" (DBInstanceIdentifier inst) = true
            ∧ DBInstanceStatus inst ≠ "deleting"
            ∧ Downscale.is_lambda_managed_instance w (DBInstanceIdentifier inst) = true)
         snapshot.

(** The reader members of a cluster, as step 1 of the scale-down handler
    selects them. *)
Definition reader_members (cluster : list DBClusterMember) : list string :=
  member_DBInstanceIdentifier <$> filter (λ m, member_IsClusterWriter m = false) cluster.

(** The flat union of all raw samples of a telemetry answer; the
    arithmetic mean of samples as Python computes it, [sum(l) / len(l)];
    and the mean of the per-instance means. *)
Definition flat_union (results : list MetricDataResult) : list float :=
  mjoin (Values <$> results).

Definition mean (samples : list float) : float :=
  float_div (sum samples) (float_of_int (len samples)).

Definition mean_of_means (results : list MetricDataResult) : float :=
  mean (mean <$> filter (λ samples, samples ≠ []) (Values <$> results)).

(** Every result that carries samples is the answer to one of the queries
    ["m0"], ["m1"], ... that were sent, one per reader. *)
Definition answers_queries (readers : list string) (results : list MetricDataResult) : Prop :=
  Forall (λ result, Values result ≠ [] → Id result < length readers) results.

(** The three exits of the scale-down handler that come before it lists
    the fleet. *)
Inductive exits_before_listing (cfg : Downscale.Config) (w : World) : Prop :=
  | no_reader_members cluster others :
      describe_db_clusters w = Return (cluster :: others) →
      reader_members cluster = [] →
      exits_before_listing cfg w
  | no_cpu_samples cluster others results :
      describe_db_clusters w = Return (cluster :: others) →
      reader_members cluster ≠ [] →
      get_metric_data w (reader_members cluster) = Return results →
      flat_union results = [] →
      exits_before_listing cfg w
  | average_at_or_above_threshold cluster others results :
      describe_db_clusters w = Return (cluster :: others) →
      reader_members cluster ≠ [] →
      get_metric_data w (reader_members cluster) = Return results →
      answers_queries (reader_members cluster) results →
      flat_union results ≠ [] →
      float_ge (mean (flat_union results)) (Downscale.CPU_THRESHOLD cfg) = true →
      exits_before_listing cfg w.

(** The candidate sequence of the placement planner, in the words of its
    description: the preferred class against every zone first; then, under
    ["instance-priority"], each fallback class in configured order against
    every zone, and otherwise each zone against every fallback class. *)
Definition placement_plan (strategy preferred : string) (fallbacks zones : list string)
    : list (string * string) :=
  (pair preferred <$> zones) ++
  (if String.eqb strategy "instance-priority"
   then fallbacks ≫= λ instance_type, pair instance_type <$> zones
   else zones ≫= λ zone, (λ instance_type, (instance_type, zone)) <$> fallbacks).

(** The trial reservation of a class in a zone is refused with a
    ClientError; it is so whatever is asked. *)
Definition refused (w : World) (instance_type zone : string) : Prop :=
  ∃ e, create_capacity_reservation w instance_type zone = Raise e
       ∧ isinstance_ClientError e = true.

Definition no_capacity (w : World) : Prop :=
  ∀ instance_type zone, refused w instance_type zone.

(** The text of the probe's ERROR log entry. *)
Definition odcr_error_message (instance_type availability_zone : string) (e : exn) : string :=
  "ODCR error for " +:+ instance_type +:+ " in " +:+ availability_zone +:+ ": " +:+ str e.

(** ** The scheduler calls as functions of the schedule state *)

Module DownscaleRun.
Section run.
Context (cfg : Downscale.Config) (w : World).

(** What [notify] traces. *)
Definition notify_events (subject : string) : list Event :=
  if negb (Downscale.ENABLE_SNS cfg) || bool_decide (Downscale.SNS_TOPIC_ARN cfg = None)
     || bool_decide (Downscale.SNS_TOPIC_ARN cfg = Some EmptyString)
  then []
  else Publish subject ::
       match publish w subject with
       | Return _ => []
       | Raise e => [Log ERROR ("Failed to send SNS notification: " +:+ str e)]
       end.

(** The [except] clauses of the disabling branch. *)
Definition disable_failed_events (e : exn) : list Event :=
  if isinstance_ResourceNotFoundException e
  then [Log WARNING ("EventBridge schedule '" +:+ EVENTBRIDGE_SCHEDULE_NAME +:+
                     "' not found. It may have been deleted manually.")]
  else Log ERROR ("Failed to disable EventBridge schedule '" +:+ EVENTBRIDGE_SCHEDULE_NAME
                  +:+ "': " +:+ str e)
       :: notify_events "Aurora Auto-Scaler: Schedule Management Error".

(** The disabling branch, as the schedule state it leaves and the events
    it traces. *)
Definition disable_run (state : option string) : option string * list Event :=
  match get_schedule_fault w with
  | Some e => (state, GetSchedule :: disable_failed_events e)
  | None =>
      match state with
      | None => (None, GetSchedule :: disable_failed_events ResourceNotFoundException)
      | Some current_state =>
          if String.eqb current_state "DISABLED" then (state, [GetSchedule])
          else
            match update_schedule_fault w with
            | Some e =>
                (state, GetSchedule :: UpdateSchedule "DISABLED" :: disable_failed_events e)
            | None =>
                (Some "DISABLED",
                 GetSchedule :: UpdateSchedule "DISABLED"
                   :: notify_events "Aurora Auto-Scaler: Schedule Disabled")
            end
      end
  end.

(** [check_and_disable_eventbridge], likewise, after its entry. *)
Definition reconcile_run (snapshot : list DBInstance) (state : option string)
    : option string * list Event :=
  match verified_owned w snapshot with
  | _ :: _ => (state, [])
  | [] => disable_run state
  end.

End run.
End DownscaleRun.

Module AutoscaleUpRun.
Section run.
Context (cfg : AutoscaleUp.Config) (w : World).

(** What [notify] traces. *)
Definition notify_events (subject : string) : list Event :=
  if negb (AutoscaleUp.ENABLE_SNS cfg) || bool_decide (AutoscaleUp.SNS_TOPIC_ARN cfg = None)
     || bool_decide (AutoscaleUp.SNS_TOPIC_ARN cfg = Some EmptyString)
  then []
  else Publish subject ::
       match publish w subject with
       | Return _ => []
       | Raise e => [Log ERROR ("Failed to send SNS notification: " +:+ str e)]
       end.

(** The [except] clause of [enable_eventbridge_rule]. *)
Definition enable_failed_events (e : exn) : list Event :=
  [Log ERROR ("Failed to enable EventBridge Scheduler: " +:+ str e)].

(** [enable_eventbridge_rule], as the schedule state it leaves and the
    events it traces. *)
Definition enable_run (state : option string) : option string * list Event :=
  match get_schedule_fault w with
  | Some e => (state, GetSchedule :: enable_failed_events e)
  | None =>
      match state with
      | None => (None, GetSchedule :: enable_failed_events ResourceNotFoundException)
      | Some current_state =>
          if String.eqb current_state "ENABLED" then (state, [GetSchedule])
          else
            match update_schedule_fault w with
            | Some e =>
                (state, GetSchedule :: UpdateSchedule "ENABLED" :: enable_failed_events e)
            | None =>
                (Some "ENABLED",
                 GetSchedule :: UpdateSchedule "ENABLED"
                   :: notify_events "EventBridge Scheduler Enabled")
            end
      end
  end.

End run.
End AutoscaleUpRun.

(** ** The candidate loops *)

Definition is_success (r : AutoscaleUp.Response) : Prop :=
  ∃ instance_type zone db_identifier,
    r = AutoscaleUp.success instance_type zone db_identifier.

(** A loop or loop body probes along [plan]: what it has probed when it
    stops is an initial part of [plan], all of it when it lets the
    enclosing loop go on, which it does when [declined] holds; what it
    makes the handler return is a success. *)
Definition follows (w : World) (m : M (option AutoscaleUp.Response))
    (plan : list (string * string)) (declined : Prop) : Prop :=
  ∀ s, ∃ o s' evs,
    m s = (o, s')
    ∧ trace s' = trace s ++ evs
    ∧ probes evs `prefix_of` plan
    ∧ (o = Return None → probes evs = plan)
    ∧ (∀ returned, o = Return (Some returned) → is_success returned)
    ∧ (declined → o = Return None).

(** What [get_aurora_readers_per_az] counts for a zone. *)
Definition counted (cfg : AutoscaleUp.Config) (zone : string) (db : DBInstance) : Prop :=
  DBClusterIdentifier db = AutoscaleUp.DB_CLUSTER_ID cfg
  ∧ default false (IsClusterWriter db) = false
  ∧ (DBInstanceStatus db ∉ ["deleting"; "insufficient activity"])
  ∧ AvailabilityZone db = Some zone.

#[local] Instance counted_dec cfg zone db : Decision (counted cfg zone db).
Proof. unfold counted. apply _. Defined.

(** The order in which [sorted] arranges a list. *)
Definition key_le {A : Type} (key : A → Z) (a b : A) : Prop := (key a ≤ key b)%Z.

(** * Scenarios *)

Module Scenario.

Definition instance (identifier status : string) (created : option Z)
    (zone : string) (writer : bool) : DBInstance :=
  {| DBInstanceIdentifier := identifier;
     DBInstanceStatus := status;
     InstanceCreateTime := created;
     DBClusterIdentifier := Some "aurora-cluster";
     AvailabilityZone := Some zone;
     IsClusterWriter := Some writer |}.

Definition member (identifier : string) (writer : bool) : DBClusterMember :=
  {| member_DBInstanceIdentifier := identifier; member_IsClusterWriter := writer |}.

Definition insufficient : exn :=
  ClientError "InsufficientInstanceCapacity" "CreateCapacityReservation"
    "Insufficient capacity.".

(** An account with one cluster of the given members, the given fleet,
    telemetry and answer to trial reservations, in which every instance of
    the fleet carries the tags that the scale-up handler attaches, and in
    which every other call succeeds. *)
Definition aws (members : list DBClusterMember) (fleet : list DBInstance)
    (datapoints : list MetricDataResult) (reserve : string → string → outcome string)
    : World :=
  {| describe_db_clusters := Return [members];
     describe_db_instances := Return fleet;
     describe_db_instance := λ identifier,
       if bool_decide (identifier ∈ DBInstanceIdentifier <$> fleet)
       then Return ["arn:aws:rds:eu-central-1:123456789012:db:" +:+ identifier]
       else Raise (ClientError "DBInstanceNotFound" "DescribeDBInstances" identifier);
     list_tags_for_resource := λ _, Return AutoscaleUp.LAMBDA_MANAGED_TAGS;
     delete_db_instance := λ _, Return tt;
     create_db_instance := λ identifier _ _, Return (Some identifier);
     get_metric_data := λ _, Return datapoints;
     create_capacity_reservation := reserve;
     cancel_capacity_reservation := λ _, Return tt;
     publish := λ _, Return tt;
     get_schedule_fault := None;
     update_schedule_fault := None;
     timestamp_and_uuid := λ _, "20250801-120000-0a1b2c" |}.

Definition down : Downscale.Config :=
  {| Downscale.DB_CLUSTER_ID := Some "aurora-cluster";
     Downscale.SNS_TOPIC_ARN := None;
     Downscale.CPU_THRESHOLD := float_of_int 10;
     Downscale.CPU_LOOKBACK_MINUTES := 5;
     Downscale.CLOUDWATCH_PERIOD := 60;
     Downscale.ENABLE_SNS := false |}.

Definition up (zones fallbacks : list string) : AutoscaleUp.Config :=
  {| AutoscaleUp.DB_CLUSTER_ID := Some "aurora-cluster";
     AutoscaleUp.SNS_TOPIC_ARN := None;
     AutoscaleUp.PREFERRED_INSTANCE_TYPE := "r6i.32xlarge";
     AutoscaleUp.INSTANCE_TYPES_PRIORITY := fallbacks;
     AutoscaleUp.AVAILABILITY_ZONES := zones;
     AutoscaleUp.FALLBACK_STRATEGY := "instance-priority";
     AutoscaleUp.ENABLE_SNS := false |}.

Definition fresh (state : string) : State :=
  {| schedule := Some state; trace := []; instances := [] |}.

Definition nowhere : string → string → outcome string := λ _ _, Raise insufficient.

(** A reader that the autoscaler created has been promoted to writer and
    is the most recently created member; the pool idles at 2.5%. *)
Definition promoted_writer : string := "lambda-aurora-reader-20250801-120000-a1b2c3".
Definition older_reader : string := "lambda-aurora-reader-20250701-120000-d4e5f6".

Definition writer_is_latest : World :=
  aws [member promoted_writer true; member older_reader false]
      [instance promoted_writer "available" (Some 20250801120000%Z) "a" true;
       instance older_reader "available" (Some 20250701120000%Z) "b" false]
      [ {| Id := 0; Values := [float_of_int 2; float_of_int 3] |} ]
      nowhere.

(** A cluster that has a writer and no reader. *)
Definition no_readers : World :=
  aws [member "aurora-writer" true]
      [instance "aurora-writer" "available" (Some 20250101000000%Z) "a" true]
      [] nowhere.

(** One reader that the autoscaler created and owns, busy at 50%. *)
Definition busy_owned_reader : World :=
  aws [member "aurora-writer" true; member older_reader false]
      [instance "aurora-writer" "available" (Some 20250101000000%Z) "a" true;
       instance older_reader "available" (Some 20250701120000%Z) "b" false]
      [ {| Id := 0; Values := [float_of_int 50] |} ]
      nowhere.

(** A telemetry answer with uneven sample counts: one sample of 30 for the
    first reader, three samples of 0 for the second. *)
Definition uneven_results : list MetricDataResult :=
  [ {| Id := 0; Values := [float_of_int 30] |};
    {| Id := 1; Values := [float_of_int 0; float_of_int 0; float_of_int 0] |} ].

Definition uneven_pool : World :=
  aws [member "aurora-writer" true; member "reader-1" false; member "reader-2" false]
      [instance "aurora-writer" "available" (Some 20250101000000%Z) "a" true;
       instance "reader-1" "available" (Some 20250102000000%Z) "b" false;
       instance "reader-2" "available" (Some 20250103000000%Z) "c" false]
      uneven_results nowhere.

(** Zones a, b, c with 2, 0 and 1 readers, and no capacity anywhere. *)
Definition two_none_one : World :=
  aws [member "aurora-writer" true]
      [instance "aurora-writer" "available" (Some 20250101000000%Z) "a" true;
       instance "reader-1" "available" (Some 20250102000000%Z) "a" false;
       instance "reader-2" "available" (Some 20250103000000%Z) "a" false;
       instance "reader-3" "available" (Some 20250104000000%Z) "c" false]
      [] nowhere.

(** One reader, in zone a, in status insufficient-capacity. *)
Definition starved_reader : World :=
  aws [member "aurora-writer" true; member "reader-1" false]
      [instance "aurora-writer" "available" (Some 20250101000000%Z) "a" true;
       instance "reader-1" "insufficient-capacity" (Some 20250102000000%Z) "a" false]
      [] nowhere.

(** The EC2 endpoint cannot be reached: botocore raises an
    EndpointConnectionError, which is not a ClientError. *)
Definition unreachable_ec2 : World :=
  aws [member "aurora-writer" true]
      [instance "aurora-writer" "available" (Some 20250101000000%Z) "a" true]
      []
      (λ _ _, Raise (Exception "Could not connect to the endpoint URL")).

End Scenario.

(** * Further observations *)

(** The pool is idle: the handler gathers samples, and its test
    [avg_cpu >= CPU_THRESHOLD] on their average fails. *)
Definition below_threshold (cfg : Downscale.Config) (w : World) : Prop :=
  ∃ cluster others results values,
    describe_db_clusters w = Return (cluster :: others)
    ∧ get_metric_data w (reader_members cluster) = Return results
    ∧ Downscale.collect_cpu_values (reader_members cluster) results [] = Return values
    ∧ values ≠ []
    ∧ float_ge (mean values) (Downscale.CPU_THRESHOLD cfg) = false.

(** The handler reaches step 6 with [listing] as the fleet and [latest] as
    the instance that it selects. *)
Definition candidate (cfg : Downscale.Config) (w : World)
    (listing : list DBInstance) (latest : DBInstance) : Prop :=
  below_threshold cfg w
  ∧ describe_db_instances w = Return listing
  ∧ Downscale.latest_reader_of (Downscale.lambda_readers_of listing) = Some latest.

(** ** Further scenarios *)

Module Cases.

(** An account like [Scenario.aws], with the telemetry answer, the tags
    per resource, and the answers to reservations and creations given. *)
Definition account (members : list DBClusterMember) (fleet : list DBInstance)
    (metrics : outcome (list MetricDataResult))
    (tags : string → outcome (list (string * string)))
    (reserve : string → string → outcome string)
    (create : string → string → string → outcome (option string)) : World :=
  {| describe_db_clusters := Return [members];
     describe_db_instances := Return fleet;
     describe_db_instance := λ identifier,
       if bool_decide (identifier ∈ DBInstanceIdentifier <$> fleet)
       then Return ["arn:" +:+ identifier]
       else Raise (ClientError "DBInstanceNotFound" "DescribeDBInstances" identifier);
     list_tags_for_resource := tags;
     delete_db_instance := λ _, Return tt;
     create_db_instance := create;
     get_metric_data := λ _, metrics;
     create_capacity_reservation := reserve;
     cancel_capacity_reservation := λ _, Return tt;
     publish := λ _, Return tt;
     get_schedule_fault := None;
     update_schedule_fault := None;
     timestamp_and_uuid := λ _, "20250801-120000-0a1b2c" |}.

Definition newer_reader : string := "lambda-aurora-reader-20250715-090000-0f9e8d".

Definition members : list DBClusterMember :=
  [Scenario.member "aurora-writer" true;
   Scenario.member Scenario.older_reader false;
   Scenario.member newer_reader false].

Definition fleet : list DBInstance :=
  [Scenario.instance "aurora-writer" "available" (Some 20250101000000%Z) "a" true;
   Scenario.instance Scenario.older_reader "available" (Some 20250701120000%Z) "b" false;
   Scenario.instance newer_reader "available" (Some 20250715090000%Z) "c" false].

Definition idle : outcome (list MetricDataResult) :=
  Return [ {| Id := 0; Values := [float_of_int 2; float_of_int 3] |}; {| Id := 1; Values := [float_of_int 1] |} ].

Definition all_tagged : string → outcome (list (string * string)) :=
  λ _, Return AutoscaleUp.LAMBDA_MANAGED_TAGS.

Definition created : string → string → string → outcome (option string) :=
  λ identifier _ _, Return (Some identifier).

(** Two readers of the autoscaler, both tagged, in an idle pool. *)
Definition idle_pool : World :=
  account members fleet idle all_tagged Scenario.nowhere created.

(** The same, but the newer reader has lost its tags. *)
Definition newest_untagged : World :=
  account members fleet idle
    (λ arn, if String.eqb arn ("arn:" +:+ newer_reader) then Return []
            else Return AutoscaleUp.LAMBDA_MANAGED_TAGS)
    Scenario.nowhere created.

(** CloudWatch is throttling. *)
Definition metrics_down : World :=
  account members fleet
    (Raise (ClientError "Throttling" "GetMetricData" "Rate exceeded"))
    all_tagged Scenario.nowhere created.

(** A telemetry result whose id names no reader. *)
Definition stray_metric_id : World :=
  account members fleet (Return [ {| Id := 7; Values := [float_of_int 1] |} ])
    all_tagged Scenario.nowhere created.

(** The floats [0.1], [0.2] and [0.3]. *)
Definition tenth : float := float_div (float_of_int 1) (float_of_int 10).
Definition fifth : float := float_div (float_of_int 2) (float_of_int 10).
Definition three_tenths : float := float_div (float_of_int 3) (float_of_int 10).

Definition threshold (value : float) : Downscale.Config :=
  {| Downscale.DB_CLUSTER_ID := Some "aurora-cluster";
     Downscale.SNS_TOPIC_ARN := None;
     Downscale.CPU_THRESHOLD := value;
     Downscale.CPU_LOOKBACK_MINUTES := 5;
     Downscale.CLOUDWATCH_PERIOD := 60;
     Downscale.ENABLE_SNS := false |}.

(** Ten samples of [0.1], five per reader: their sum is
    [0.9999999999999999] and their average [0.09999999999999999], which
    is below [0.1]. *)
Definition ten_tenths : outcome (list MetricDataResult) :=
  Return [ {| Id := 0; Values := replicate 5 tenth |};
           {| Id := 1; Values := replicate 5 tenth |} ].

Definition on_the_threshold : World :=
  account members fleet ten_tenths all_tagged Scenario.nowhere created.

(** The same, but the newer reader has lost its tags. *)
Definition on_the_threshold_untagged : World :=
  account members fleet ten_tenths
    (λ arn, if String.eqb arn ("arn:" +:+ newer_reader) then Return []
            else Return AutoscaleUp.LAMBDA_MANAGED_TAGS)
    Scenario.nowhere created.

(** Samples [0.1], [0.2], [0.3]: their sum is [0.6000000000000001] and
    their average [0.20000000000000004], which is above [0.2]. *)
Definition around_fifth : World :=
  account members fleet
    (Return [ {| Id := 0; Values := [tenth; fifth; three_tenths] |} ])
    all_tagged Scenario.nowhere created.

(** Capacity in zones b and c only, and no subnet for the cluster in
    zone b, so that RDS rejects the creation there. *)
Definition room_in_c : World :=
  account members fleet idle all_tagged
    (λ _ zone, if bool_decide (zone ∈ ["b"; "c"]) then Return "cr-0123456789abcdef0"
               else Raise Scenario.insufficient)
    (λ identifier _ zone,
       if String.eqb zone "b"
       then Raise (ClientError "InvalidSubnet" "CreateDBInstance" "No subnet in zone b.")
       else Return (Some identifier)).

(** The fleet cannot be listed. *)
Definition listing_down : World :=
  {| describe_db_clusters := describe_db_clusters idle_pool;
     describe_db_instances :=
       Raise (ClientError "AccessDenied" "DescribeDBInstances" "Not authorized.");
     describe_db_instance := describe_db_instance idle_pool;
     list_tags_for_resource := list_tags_for_resource idle_pool;
     delete_db_instance := delete_db_instance idle_pool;
     create_db_instance := create_db_instance idle_pool;
     get_metric_data := get_metric_data idle_pool;
     create_capacity_reservation := create_capacity_reservation idle_pool;
     cancel_capacity_reservation := cancel_capacity_reservation idle_pool;
     publish := publish idle_pool;
     get_schedule_fault := None;
     update_schedule_fault := None;
     timestamp_and_uuid := timestamp_and_uuid idle_pool |}.

(** Reservations are granted, but their release is denied. *)
Definition release_denied : World :=
  {| describe_db_clusters := describe_db_clusters idle_pool;
     describe_db_instances := describe_db_instances idle_pool;
     describe_db_instance := describe_db_instance idle_pool;
     list_tags_for_resource := list_tags_for_resource idle_pool;
     delete_db_instance := delete_db_instance idle_pool;
     create_db_instance := create_db_instance idle_pool;
     get_metric_data := get_metric_data idle_pool;
     create_capacity_reservation := λ _ _, Return "cr-0123456789abcdef0";
     cancel_capacity_reservation := λ _,
       Raise (ClientError "UnauthorizedOperation" "CancelCapacityReservation"
                "Not authorized.");
     publish := publish idle_pool;
     get_schedule_fault := None;
     update_schedule_fault := None;
     timestamp_and_uuid := timestamp_and_uuid idle_pool |}.

(** Zones a, b, c and two fallback classes, tried zone by zone. *)
Definition by_zone : AutoscaleUp.Config :=
  {| AutoscaleUp.DB_CLUSTER_ID := Some "aurora-cluster";
     AutoscaleUp.SNS_TOPIC_ARN := None;
     AutoscaleUp.PREFERRED_INSTANCE_TYPE := "r6i.32xlarge";
     AutoscaleUp.INSTANCE_TYPES_PRIORITY := ["r6i.16xlarge"; "r5.8xlarge"];
     AutoscaleUp.AVAILABILITY_ZONES := ["a"; "b"; "c"];
     AutoscaleUp.FALLBACK_STRATEGY := "az-priority";
     AutoscaleUp.ENABLE_SNS := false |}.

End Cases.

(** The tags that [create_reader_instance] passes to [create_db_instance]:
    the constant [LAMBDA_MANAGED_TAGS] and four descriptive tags, of which
    the first carries the time of creation and the last [DB_CLUSTER_ID]. *)
Definition reader_tags (created_at instance_type availability_zone cluster_identifier : string)
    : list (string * string) :=
  AutoscaleUp.LAMBDA_MANAGED_TAGS ++
  [("CreatedAt", created_at); ("InstanceType", instance_type);
   ("AvailabilityZone", availability_zone); ("ClusterIdentifier", cluster_identifier)].

(** ** The configured lists *)

(** The character [","]. *)
Definition comma : Ascii.ascii := Ascii.ascii_of_nat 44.

(** [value.split(sep)] for a separator of one character. *)
Fixpoint split (sep : Ascii.ascii) (value : string) : list string :=
  match value with
  | EmptyString => [EmptyString]
  | String c rest =>
      if Ascii.eqb c sep then EmptyString :: split sep rest
      else match split sep rest with
           | [] => [String c EmptyString]
           | head :: tail => String c head :: tail
           end
  end.

(** [sep.join(parts)] *)
Fixpoint join (sep : Ascii.ascii) (parts : list string) : string :=
  match parts with
  | [] => EmptyString
  | [part] => part
  | part :: rest => part +:+ String sep (join sep rest)
  end.

Fixpoint occurrences (c : Ascii.ascii) (value : string) : nat :=
  match value with
  | EmptyString => 0
  | String c' rest => (if Ascii.eqb c' c then 1 else 0) + occurrences c rest
  end.

(** [os.getenv('INSTANCE_TYPES_PRIORITY', ...).split(',')] and
    [os.getenv('AVAILABILITY_ZONES', ...).split(',')], of the value of the
    variable, [None] when it is not set. *)
Definition INSTANCE_TYPES_PRIORITY_of (value : option string) : list string :=
  split comma (default "r7i.48xlarge,r6id.32xlarge" value).

Definition AVAILABILITY_ZONES_of (value : option string) : list string :=
  split comma (default "eu-central-1a,eu-central-1b,eu-central-1c" value).

(** ** Attempts of the scale-up handler *)

(** An event that provisions nothing and leaves the scheduler alone: it is
    no call of the scheduler, and if it asks for an instance, the request
    is one that RDS answers with an exception. *)
Definition quiet_event (w : World) (ev : Event) : Prop :=
  match ev with
  | GetSchedule | UpdateSchedule _ => False
  | CreateDBInstance identifier instance_class zone =>
      ∃ e, create_db_instance w identifier instance_class zone = Raise e
  | _ => True
  end.

(** From [s] to [s'] nothing was provisioned. *)
Definition declines (w : World) (s s' : State) : Prop :=
  schedule s' = schedule s
  ∧ ∃ evs, trace s' = trace s ++ evs ∧ Forall (quiet_event w) evs.

(** From [s] to [s'] a reader was provisioned, and [r] reports it: after
    events that provision nothing, the capacity probe for the reported
    class and zone went through, RDS accepted the creation of an instance
    of that class in that zone, and the run ended with the notification
    and [enable_eventbridge_rule]. *)
Definition places (cfg : AutoscaleUp.Config) (w : World) (s s' : State)
    (r : AutoscaleUp.Response) : Prop :=
  ∃ instance_type zone created identifier reservation_id before,
    r = AutoscaleUp.success instance_type zone created
    ∧ create_capacity_reservation w instance_type zone = Return reservation_id
    ∧ cancel_capacity_reservation w reservation_id = Return tt
    ∧ create_db_instance w identifier ("db." +:+ instance_type) zone = Return created
    ∧ Forall (quiet_event w) before
    ∧ trace s' =
        trace s ++ before
        ++ CreateDBInstance identifier ("db." +:+ instance_type) zone
           :: AutoscaleUpRun.notify_events cfg w "Aurora Reader Created with Secure Tagging"
           ++ (AutoscaleUpRun.enable_run cfg w (schedule s)).2
    ∧ schedule s' = (AutoscaleUpRun.enable_run cfg w (schedule s)).1.

(** A loop or loop body of the handler either provisions a reader and
    makes the handler return, or provisions nothing. *)
Definition attempt (cfg : AutoscaleUp.Config) (w : World)
    (m : M (option AutoscaleUp.Response)) : Prop :=
  ∀ s, match m s with
       | (Return (Some r), s') => places cfg w s s' r
       | (_, s') => declines w s s'
       end.

(** ** What a run may do *)

(** The schedule after a run is the schedule before it, or a schedule
    that existed and is now in state [target]. *)
Definition toward (target : string) (before after : option string) : Prop :=
  after = before ∨ is_Some before ∧ after = Some target.

(** A run from [s] to [s'] has added events that all satisfy [allowed],
    and has moved the schedule, if at all, to [target]. *)
Definition extends (allowed : Event → Prop) (target : string) (s s' : State) : Prop :=
  (∃ evs, trace s' = trace s ++ evs ∧ Forall allowed evs)
  ∧ toward target (schedule s) (schedule s').

Definition keeps {A : Type} (allowed : Event → Prop) (target : string) (m : M A) : Prop :=
  ∀ s, extends allowed target s (m s).2.

(** The calls of the scale-up handler: no deletion, no reconciliation, no
    update of the schedule but to enable it, and instances created under
    the naming prefix with a class that starts with "db.". *)
Definition scale_up_event (ev : Event) : Prop :=
  match ev with
  | DeleteDBInstance _ | Reconcile _ => False
  | UpdateSchedule state => state = "ENABLED"
  | CreateDBInstance identifier instance_class _ =>
      String.prefix "lambda-aurora-reader" identifier = true
      ∧ String.prefix "db." instance_class = true
  | _ => True
  end.

(** The calls of the scale-down handler: no reservation, no creation, and
    no update of the schedule but to disable it. *)
Definition scale_down_event (ev : Event) : Prop :=
  match ev with
  | CreateCapacityReservation _ _ | CancelCapacityReservation _
  | CreateDBInstance _ _ _ => False
  | UpdateSchedule state => state = "DISABLED"
  | _ => True
  end.

(** * Properties *)

(** ** The stable sort *)

Section sorted.
Context {A : Type} (key : A → Z).

Lemma insert_by_perm (x : A) (l : list A) : insert_by key x l ≡ₚ x :: l.
Proof.
  induction l as [|y l IH]; simpl; [done|].
  destruct (key x <=? key y)%Z; [done|].
  rewrite IH. apply Permutation_swap.
Qed.

Lemma sorted_perm (l : list A) : sorted key l ≡ₚ l.
Proof.
  induction l as [|x l IH]; simpl; [done|].
  fold (sorted key l). by rewrite insert_by_perm, IH.
Qed.

Lemma sorted_length (l : list A) : length (sorted key l) = length l.
Proof. by rewrite sorted_perm. Qed.

Lemma insert_by_ascending (x : A) (l : list A) :
  StronglySorted (key_le key) l → StronglySorted (key_le key) (insert_by key x l).
Proof.
  induction 1 as [|y l Hl IH Hy]; simpl.
  - repeat constructor.
  - destruct (Z.leb_spec (key x) (key y)) as [Hxy|Hxy].
    + constructor; [by constructor|].
      constructor; [done|].
      eapply Forall_impl; [exact Hy|]. unfold key_le. intros; simpl in *; lia.
    + constructor; [done|].
      rewrite insert_by_perm. constructor; [unfold key_le; lia | done].
Qed.

Lemma sorted_ascending (l : list A) : StronglySorted (key_le key) (sorted key l).
Proof.
  induction l as [|x l IH]; simpl; [constructor|].
  by apply insert_by_ascending.
Qed.

(** Stability: the elements of any one key keep their order. *)
Lemma insert_by_filter_key (k : Z) (x : A) (l : list A) :
  filter (λ a, key a = k) (insert_by key x l) = filter (λ a, key a = k) (x :: l).
Proof.
  induction l as [|y l IH]; simpl; [done|].
  destruct (Z.leb_spec (key x) (key y)) as [Hxy|Hxy]; [done|].
  rewrite filter_cons, IH, !filter_cons.
  destruct (decide (key y = k)), (decide (key x = k)); try done; lia.
Qed.

Lemma sorted_stable (k : Z) (l : list A) :
  filter (λ a, key a = k) (sorted key l) = filter (λ a, key a = k) l.
Proof.
  induction l as [|x l IH]; simpl; [done|].
  fold (sorted key l). rewrite insert_by_filter_key, !filter_cons, IH. done.
Qed.

Lemma sorted_nil_inv (l : list A) : sorted key l = [] → l = [].
Proof.
  intros H. apply Permutation_nil_r. by rewrite <- H, sorted_perm.
Qed.

End sorted.

(** ** The ownership verifier *)

Lemma filter_nil_Forall {A : Type} (P : A → Prop) `{!∀ x, Decision (P x)} (l : list A) :
  filter P l = [] ↔ Forall (λ x, ¬ P x) l.
Proof.
  induction l as [|x l IH]; [by rewrite filter_nil|].
  rewrite filter_cons, Forall_cons. destruct (decide (P x)); [|tauto].
  split; [done|]. by intros [? _].
Qed.

Lemma required_tags_match (tag_list : list (string * string)) :
  filter (λ required, Downscale.tags_dict tag_list !! required.1 ≠ Some required.2)
         Downscale.REQUIRED_TAGS_FOR_DELETION = []
  ↔ ∀ key value, (key, value) ∈ Downscale.REQUIRED_TAGS_FOR_DELETION →
                 Downscale.tags_dict tag_list !! key = Some value.
Proof.
  rewrite filter_nil_Forall, Forall_forall. split.
  - intros H key value Hin. specialize (H _ Hin). simpl in H.
    destruct (decide (Downscale.tags_dict tag_list !! key = Some value)); [done|].
    by destruct H.
  - intros H [key value] Hin Hne. by apply Hne, H.
Qed.

Lemma is_lambda_managed_instance_true (w : World) (id : string) :
  Downscale.is_lambda_managed_instance w id = true ↔
    ∃ arn others tag_list,
      describe_db_instance w id = Return (arn :: others)
      ∧ list_tags_for_resource w arn = Return tag_list
      ∧ ∀ key value, (key, value) ∈ Downscale.REQUIRED_TAGS_FOR_DELETION →
                     Downscale.tags_dict tag_list !! key = Some value.
Proof.
  unfold Downscale.is_lambda_managed_instance.
  destruct (describe_db_instance w id) as [[|arn others]|e] eqn:Hd; simpl.
  - split; [done|]. by intros (? & ? & ? & ? & _).
  - destruct (list_tags_for_resource w arn) as [tag_list|e] eqn:Ht; simpl.
    + pose proof (required_tags_match tag_list) as Hreq.
      destruct (filter _ Downscale.REQUIRED_TAGS_FOR_DELETION) as [|missing ?] eqn:Hf.
      * split; [|done]. intros _. exists arn, others, tag_list.
        split_and!; try done. by apply Hreq.
      * split; [done|]. intros (arn' & ? & tl & [= <- <-] & Htl & Hall).
        rewrite Ht in Htl. injection Htl as <-.
        apply Hreq in Hall. done.
    + split; [done|]. intros (arn' & ? & tl & [= <- <-] & Htl & _). congruence.
  - split; [done|]. by intros (? & ? & ? & ? & _).
Qed.

(** [C3] The verifier answers [true] exactly when the instance is found,
    its tags can be listed, and every required key carries the required
    value; a missing instance, a lookup error at either call, and any one
    required tag that is absent or differs all give [false]. *)
Theorem C3_is_lambda_managed_instance_fail_closed (w : World) (id : string) :
  (Downscale.is_lambda_managed_instance w id = true ↔
     ∃ arn others tag_list,
       describe_db_instance w id = Return (arn :: others)
       ∧ list_tags_for_resource w arn = Return tag_list
       ∧ ∀ key value, (key, value) ∈ Downscale.REQUIRED_TAGS_FOR_DELETION →
                      Downscale.tags_dict tag_list !! key = Some value)
  ∧ (describe_db_instance w id = Return [] →
     Downscale.is_lambda_managed_instance w id = false)
  ∧ (∀ e, describe_db_instance w id = Raise e →
          Downscale.is_lambda_managed_instance w id = false)
  ∧ (∀ arn others e,
       describe_db_instance w id = Return (arn :: others) →
       list_tags_for_resource w arn = Raise e →
       Downscale.is_lambda_managed_instance w id = false)
  ∧ (∀ arn others tag_list key value,
       describe_db_instance w id = Return (arn :: others) →
       list_tags_for_resource w arn = Return tag_list →
       (key, value) ∈ Downscale.REQUIRED_TAGS_FOR_DELETION →
       Downscale.tags_dict tag_list !! key ≠ Some value →
       Downscale.is_lambda_managed_instance w id = false).
Proof.
  split; [apply is_lambda_managed_instance_true|].
  split_and!; intros; apply not_true_is_false;
    rewrite is_lambda_managed_instance_true;
    intros (arn' & others' & tl & Hd & Ht & Hall); try congruence.
  assert (arn' = arn ∧ tl = tag_list) as [-> ->] by (split; congruence).
  naive_solver.
Qed.

(** ** Running the pieces of the scale-down handler *)

Ltac run :=
  cbv beta iota zeta delta
    [mbind mret M_bind M_ret try_except try_finally call emit log raise
     set_schedule set_instances get_instances get_schedule update_schedule
     isinstance_Exception add_events negb];
  cbn [schedule trace instances fst snd].

Ltac same_trace := rewrite <- ?app_assoc; cbn [app]; reflexivity.

Lemma ResourceNotFoundException_caught :
  isinstance_ResourceNotFoundException ResourceNotFoundException = true.
Proof. reflexivity. Qed.

Lemma add_events_nil (s : State) : add_events s [] = s.
Proof. destruct s. unfold add_events; simpl. by rewrite app_nil_r. Qed.

Lemma add_events_app (s : State) (evs1 evs2 : list Event) :
  add_events (add_events s evs1) evs2 = add_events s (evs1 ++ evs2).
Proof. unfold add_events; simpl. by rewrite app_assoc. Qed.

Lemma reconcile_calls_app (t1 t2 : list Event) :
  reconcile_calls (t1 ++ t2) = reconcile_calls t1 ++ reconcile_calls t2.
Proof. apply omap_app. Qed.

Lemma deletions_app (t1 t2 : list Event) :
  deletions (t1 ++ t2) = deletions t1 ++ deletions t2.
Proof. apply omap_app. Qed.

Lemma reconcile_calls_cons (ev : Event) (t : list Event) :
  reconcile_calls (ev :: t) =
    match ev with
    | Reconcile snapshot => snapshot :: reconcile_calls t
    | _ => reconcile_calls t
    end.
Proof. by destruct ev. Qed.

Lemma deletions_cons (ev : Event) (t : list Event) :
  deletions (ev :: t) =
    match ev with
    | DeleteDBInstance identifier => identifier :: deletions t
    | _ => deletions t
    end.
Proof. by destruct ev. Qed.

Section downscale_run.
Context (cfg : Downscale.Config) (w : World).

Local Abbreviation notify_events := (DownscaleRun.notify_events cfg w).
Local Abbreviation reconcile_run := (DownscaleRun.reconcile_run cfg w).

Lemma notify_run (subject : string) (s : State) :
  Downscale.notify cfg w subject s = (Return tt, add_events s (notify_events subject)).
Proof.
  unfold Downscale.notify, DownscaleRun.notify_events.
  destruct (_ || _); [by rewrite add_events_nil|].
  run. destruct (publish w subject) as [[]|e]; run; [done|]. same_trace.
Qed.

Lemma notify_events_reconcile (subject : string) :
  reconcile_calls (notify_events subject) = [].
Proof.
  unfold DownscaleRun.notify_events. destruct (_ || _); [done|].
  by destruct (publish w subject).
Qed.

Lemma notify_events_deletions (subject : string) :
  deletions (notify_events subject) = [].
Proof.
  unfold DownscaleRun.notify_events. destruct (_ || _); [done|].
  by destruct (publish w subject).
Qed.

Lemma tagged_lambda_instances_owned (snapshot : list DBInstance) :
  filter (λ inst, Downscale.is_lambda_managed_instance w (DBInstanceIdentifier inst) = true)
    (filter (λ inst,
               String.prefix "lambda-aurora-reader" (DBInstanceIdentifier inst) = true
               ∧ DBInstanceStatus inst ≠ "deleting") snapshot)
  = verified_owned w snapshot.
Proof.
  unfold verified_owned. rewrite list_filter_filter.
  apply list_filter_iff. intros inst. tauto.
Qed.

Lemma check_and_disable_eventbridge_run (snapshot : list DBInstance) (s : State) :
  Downscale.check_and_disable_eventbridge cfg w snapshot s =
    (Return tt,
     {| schedule := (reconcile_run snapshot (schedule s)).1;
        trace := trace s ++ Reconcile snapshot :: (reconcile_run snapshot (schedule s)).2;
        instances := instances s |}).
Proof.
  unfold Downscale.check_and_disable_eventbridge, DownscaleRun.reconcile_run.
  rewrite tagged_lambda_instances_owned.
  destruct (verified_owned w snapshot) as [|owned ?]; [|by run].
  unfold DownscaleRun.disable_run, DownscaleRun.disable_failed_events. destruct s as [state t insts]. run.
  destruct (get_schedule_fault w) as [e|].
  { run. destruct (isinstance_ResourceNotFoundException e); run.
    - same_trace.
    - rewrite notify_run. run. same_trace. }
  destruct state as [current_state|]; run;
    [|rewrite ResourceNotFoundException_caught; run; same_trace].
  destruct (String.eqb current_state "DISABLED"); run; [same_trace|].
  destruct (update_schedule_fault w) as [e|]; run.
  - destruct (isinstance_ResourceNotFoundException e); run.
    + same_trace.
    + rewrite notify_run. run. same_trace.
  - rewrite notify_run. run. same_trace.
Qed.

Lemma reconcile_run_reconcile (snapshot : list DBInstance) (state : option string) :
  reconcile_calls (reconcile_run snapshot state).2 = [].
Proof.
  unfold DownscaleRun.reconcile_run, DownscaleRun.disable_run, DownscaleRun.disable_failed_events.
  repeat case_match; simpl; rewrite ?notify_events_reconcile; done.
Qed.

Lemma reconcile_run_deletions (snapshot : list DBInstance) (state : option string) :
  deletions (reconcile_run snapshot state).2 = [].
Proof.
  unfold DownscaleRun.reconcile_run, DownscaleRun.disable_run, DownscaleRun.disable_failed_events.
  repeat case_match; simpl; rewrite ?notify_events_deletions; done.
Qed.

End downscale_run.

(** ** The scale-down handler *)

Import DownscaleRun.

Ltac steps :=
  repeat (progress run
          || rewrite notify_run
          || rewrite check_and_disable_eventbridge_run).

Ltac calls :=
  cbn [app];
  repeat (rewrite reconcile_calls_app || rewrite deletions_app
          || rewrite reconcile_calls_cons || rewrite deletions_cons
          || rewrite notify_events_reconcile || rewrite notify_events_deletions
          || rewrite reconcile_run_reconcile || rewrite reconcile_run_deletions);
  cbn [app length].

Ltac exit_path :=
  eexists _, _; split; [reflexivity|];
  cbn [Downscale.statusCode Downscale.body Downscale.response trace schedule];
  calls.

Ltac settle := split_and!; intros; first [done | lia | congruence].

(** [C2] Every invocation returns a response, and scheduler
    reconciliation has then run once or twice: once when the exit is an
    error result (500) or a requested deletion (200), twice on the no-op
    (200, nothing deleted) and blocked (403) exits, where the handler
    calls it before returning and the [finally] block calls it again. *)
Theorem C2_reconciliation_runs_once_or_twice
    (cfg : Downscale.Config) (w : World) (state : option string) :
  ∃ response s',
    Downscale.invoke cfg w state = (Return response, s')
    ∧ let n := length (reconcile_calls (trace s')) in
      (1 ≤ n ≤ 2)%nat
      ∧ (Downscale.statusCode response = 500 → n = 1)
      ∧ (Downscale.statusCode response = 403 → n = 2)
      ∧ (Downscale.statusCode response = 200 → deletions (trace s') ≠ [] → n = 1)
      ∧ (Downscale.statusCode response = 200 → deletions (trace s') = [] → n = 2).
Proof.
  unfold Downscale.invoke, Downscale.lambda_handler, Downscale.lambda_handler_try.
  steps.
  destruct (describe_db_clusters w) as [[|cluster ?]|e]; steps;
    [exit_path; settle | | exit_path; settle].
  destruct (_ <$> filter _ cluster) as [|reader readers]; steps;
    [exit_path; settle|].
  destruct (get_metric_data w _) as [results|e]; steps;
    [|exit_path; settle].
  destruct (Downscale.collect_cpu_values _ _ _) as [[|value values]|e]; steps;
    [exit_path; settle | | exit_path; settle].
  destruct (float_ge _ _); steps; [exit_path; settle|].
  destruct (describe_db_instances w) as [listing|e]; steps;
    [|exit_path; settle].
  destruct (Downscale.lambda_readers_of listing) as [|candidate candidates]; steps;
    [exit_path; settle|].
  destruct (Downscale.latest_reader_of _) as [latest_reader|]; steps;
    [|exit_path; settle].
  destruct (Downscale.is_lambda_managed_instance w _); steps;
    [|exit_path; settle].
  destruct (delete_db_instance w _) as [[]|e]; steps; exit_path; settle.
Qed.

(** ** The pool average *)

Lemma collect_cpu_values_flat (readers : list string) (results : list MetricDataResult)
    (reader_cpu_values : list float) :
  answers_queries readers results →
  Downscale.collect_cpu_values readers results reader_cpu_values
  = Return (reader_cpu_values ++ flat_union results).
Proof.
  unfold answers_queries, flat_union.
  intros Hall. revert reader_cpu_values.
  induction Hall as [|result results Hid _ IH]; intros acc; simpl.
  - by rewrite app_nil_r.
  - destruct (Values result) as [|value values] eqn:Hv; [apply IH|].
    destruct (lookup_lt_is_Some_2 readers (Id result)) as [reader_id ->]; [by apply Hid|].
    rewrite IH. by rewrite <- app_assoc.
Qed.

Lemma no_samples_answers_queries (readers : list string) (results : list MetricDataResult) :
  flat_union results = [] → answers_queries readers results.
Proof.
  unfold flat_union, answers_queries. induction results as [|result results IH]; simpl.
  - constructor.
  - intros [Hv Hrest]%app_eq_nil. constructor; [done | by apply IH].
Qed.

Lemma samples_readers (readers : list string) (results : list MetricDataResult) :
  answers_queries readers results → flat_union results ≠ [] → readers ≠ [].
Proof.
  unfold flat_union, answers_queries. induction 1 as [|result results Hid _ IH]; simpl; [done|].
  destruct (Values result) as [|value values]; [done|].
  intros _ ->. simpl in Hid. by specialize (Hid ltac:(done)); lia.
Qed.

Lemma uneven_results_means :
  mean (flat_union Scenario.uneven_results) = float_div (float_of_int 15) (float_of_int 2)
  ∧ mean_of_means Scenario.uneven_results = float_of_int 15.
Proof. split; vm_compute; reflexivity. Qed.

(** The average is a rounded one: ten samples of [0.1] average to less
    than [0.1], and the samples [0.1], [0.2], [0.3] to more than [0.2]. *)
Lemma mean_is_rounded :
  float_ge (mean (replicate 10 Cases.tenth)) Cases.tenth = false
  ∧ float_ge Cases.tenth (mean (replicate 10 Cases.tenth)) = true
  ∧ float_ge (mean [Cases.tenth; Cases.fifth; Cases.three_tenths]) Cases.fifth = true
  ∧ float_ge Cases.fifth (mean [Cases.tenth; Cases.fifth; Cases.three_tenths]) = false.
Proof. split_and!; vm_compute; reflexivity. Qed.

Ltac other_body :=
  split; [intros Hbody; exfalso; revert Hbody; simpl; discriminate|].

(** [C6] When the telemetry answer carries samples, the values that the
    handler averages are the flat union of all raw samples, and the
    handler takes the "above threshold" exit exactly when its test [>=]
    holds between the arithmetic mean of that flat union, computed as
    Python computes [sum(l) / len(l)] on floats, and the threshold; on an
    answer with uneven sample counts this mean, 7.5, differs from the
    mean of the per-instance means, 15. *)
Theorem C6_pool_average_is_flat_mean
    (cfg : Downscale.Config) (w : World) (state : option string)
    (cluster : list DBClusterMember) (others : list (list DBClusterMember))
    (results : list MetricDataResult) :
  describe_db_clusters w = Return (cluster :: others) →
  get_metric_data w (reader_members cluster) = Return results →
  answers_queries (reader_members cluster) results →
  flat_union results ≠ [] →
  Downscale.collect_cpu_values (reader_members cluster) results [] = Return (flat_union results)
  ∧ (∃ response s',
       Downscale.invoke cfg w state = (Return response, s')
       ∧ (Downscale.body response = "CPU above threshold, no action needed"
          ↔ float_ge (mean (flat_union results)) (Downscale.CPU_THRESHOLD cfg) = true))
  ∧ mean (flat_union Scenario.uneven_results) = float_div (float_of_int 15) (float_of_int 2)
  ∧ mean_of_means Scenario.uneven_results = float_of_int 15
  ∧ mean_of_means Scenario.uneven_results ≠ mean (flat_union Scenario.uneven_results).
Proof.
  intros Hcluster Hmetrics Hids Hsamples.
  pose proof (collect_cpu_values_flat _ _ [] Hids) as Hcollect. simpl in Hcollect.
  pose proof (samples_readers _ _ Hids Hsamples) as Hreaders.
  split; [done|]. split; [|by destruct uneven_results_means as [-> ->]].
  unfold Downscale.invoke, Downscale.lambda_handler, Downscale.lambda_handler_try.
  steps. rewrite Hcluster. steps.
  unfold reader_members in *.
  destruct (_ <$> filter _ cluster) as [|reader readers]; [done|]. steps.
  rewrite Hmetrics. steps. rewrite Hcollect. steps.
  destruct (flat_union results) as [|value values] eqn:Hflat; [done|]. steps.
  fold (mean (value :: values)).
  destruct (float_ge _ _) eqn:Hle; steps.
  { by exit_path. }
  destruct (describe_db_instances w) as [listing|e]; steps;
    [|exit_path; by other_body].
  destruct (Downscale.lambda_readers_of listing) as [|candidate candidates]; steps;
    [exit_path; by other_body|].
  destruct (Downscale.latest_reader_of _) as [latest_reader|]; steps;
    [|exit_path; by other_body].
  destruct (Downscale.is_lambda_managed_instance w _); steps;
    [|exit_path; by other_body].
  destruct (delete_db_instance w _) as [[]|e]; steps; exit_path; by other_body.
Qed.

(** ** Reconciliation from an empty snapshot *)

Section disable.
Context (cfg : Downscale.Config) (w : World).

Lemma reconcile_run_nil (state : option string) :
  reconcile_run cfg w [] state = disable_run cfg w state.
Proof. done. Qed.

Lemma disable_run_queries (state : option string) :
  GetSchedule ∈ (disable_run cfg w state).2.
Proof. unfold disable_run. repeat case_match; simpl; set_solver. Qed.

Lemma disable_run_works (state : option string) :
  get_schedule_fault w = None → update_schedule_fault w = None → is_Some state →
  (disable_run cfg w state).1 = Some "DISABLED".
Proof.
  intros Hget Hupdate [current_state ->]. unfold disable_run. rewrite Hget, Hupdate.
  destruct (String.eqb_spec current_state "DISABLED"); simpl; congruence.
Qed.

Lemma disable_run_idempotent (state : option string) :
  (disable_run cfg w (disable_run cfg w state).1).1 = (disable_run cfg w state).1.
Proof.
  unfold disable_run.
  destruct (get_schedule_fault w); [done|].
  destruct state as [current_state|]; [|done].
  destruct (String.eqb current_state "DISABLED") eqn:Heq; simpl; [by rewrite Heq|].
  destruct (update_schedule_fault w) eqn:Hupdate; simpl; by rewrite ?Heq, ?Hupdate.
Qed.

End disable.

(** [C10] When the scale-down handler exits before it has listed the
    fleet (no reader members, no CPU samples, or an average, as the
    handler computes it on floats, for which its test [>=] against the
    threshold holds), it returns a no-op result, every reconciliation of the
    run was entered with the empty snapshot, the schedule was queried in
    order to disable it, and with a schedule that exists and a scheduler
    that answers the schedule ends up disabled, whatever the fleet
    holds. *)
Theorem C10_early_exit_reconciles_empty_snapshot
    (cfg : Downscale.Config) (w : World) (state : option string) :
  exits_before_listing cfg w →
  ∃ response s',
    Downscale.invoke cfg w state = (Return response, s')
    ∧ Downscale.statusCode response = 200
    ∧ reconcile_calls (trace s') = [[]; []]
    ∧ GetSchedule ∈ trace s'
    ∧ (get_schedule_fault w = None → update_schedule_fault w = None → is_Some state →
       schedule s' = Some "DISABLED").
Proof.
  pose proof (disable_run_queries cfg w state) as Hquery.
  assert (get_schedule_fault w = None → update_schedule_fault w = None → is_Some state →
          (disable_run cfg w (disable_run cfg w state).1).1 = Some "DISABLED") as Hworks.
  { intros. rewrite disable_run_idempotent. by apply disable_run_works. }
  unfold Downscale.invoke, Downscale.lambda_handler, Downscale.lambda_handler_try.
  intros [cluster others Hcluster Hreaders
         |cluster others results Hcluster Hreaders Hmetrics Hnone
         |cluster others results Hcluster Hreaders Hmetrics Hids Hsamples Hle];
    unfold reader_members in *; steps; rewrite Hcluster; steps.
  - rewrite Hreaders. steps. exit_path. rewrite !reconcile_run_nil.
    split_and!; try done. set_solver.
  - destruct (_ <$> filter _ cluster) as [|reader readers]; [done|]. steps.
    rewrite Hmetrics. steps.
    rewrite (collect_cpu_values_flat _ _ []), Hnone
      by by apply no_samples_answers_queries.
    cbn [app]. steps. exit_path. rewrite !reconcile_run_nil.
    split_and!; try done. set_solver.
  - destruct (_ <$> filter _ cluster) as [|reader readers]; [done|]. steps.
    rewrite Hmetrics. steps.
    rewrite (collect_cpu_values_flat _ _ []) by done. cbn [app].
    destruct (flat_union results) as [|value values]; [done|]. steps.
    unfold mean in Hle. rewrite Hle. steps.
    exit_path. rewrite !reconcile_run_nil.
    split_and!; try done. set_solver.
Qed.

(** ** Running the pieces of the scale-up handler *)

Section scaleup_run.
Context (cfg : AutoscaleUp.Config) (w : World).

Local Abbreviation notify_events := (AutoscaleUpRun.notify_events cfg w).
Local Abbreviation enable_run := (AutoscaleUpRun.enable_run cfg w).

Lemma scaleup_notify_run (subject : string) (s : State) :
  AutoscaleUp.notify cfg w subject s = (Return tt, add_events s (notify_events subject)).
Proof.
  unfold AutoscaleUp.notify, AutoscaleUpRun.notify_events.
  destruct (_ || _); [by rewrite add_events_nil|].
  run. destruct (publish w subject) as [[]|e]; run; [done|]. same_trace.
Qed.

Lemma enable_eventbridge_rule_run (s : State) :
  AutoscaleUp.enable_eventbridge_rule cfg w s =
    (Return tt,
     {| schedule := (enable_run (schedule s)).1;
        trace := trace s ++ (enable_run (schedule s)).2;
        instances := instances s |}).
Proof.
  unfold AutoscaleUp.enable_eventbridge_rule, AutoscaleUpRun.enable_run,
    AutoscaleUpRun.enable_failed_events.
  destruct s as [state t insts]. run.
  destruct (get_schedule_fault w) as [e|]; run; [same_trace|].
  destruct state as [current_state|]; run; [|same_trace].
  destruct (String.eqb current_state "ENABLED"); run; [done|].
  destruct (update_schedule_fault w) as [e|]; run; [same_trace|].
  rewrite scaleup_notify_run. run. same_trace.
Qed.

Lemma enable_run_idempotent (state : option string) :
  (enable_run (enable_run state).1).1 = (enable_run state).1.
Proof.
  unfold AutoscaleUpRun.enable_run.
  destruct (get_schedule_fault w); [done|].
  destruct state as [current_state|]; [|done].
  destruct (String.eqb current_state "ENABLED") eqn:Heq; simpl; [by rewrite Heq|].
  destruct (update_schedule_fault w) eqn:Hupdate; simpl; by rewrite ?Heq, ?Hupdate.
Qed.

Lemma scaleup_notify_events_updates (subject state : string) :
  UpdateSchedule state ∉ notify_events subject.
Proof.
  unfold AutoscaleUpRun.notify_events. destruct (_ || _); [set_solver|].
  destruct (publish w subject); set_solver.
Qed.

Lemma enable_run_settled (state : option string) (target : string) :
  get_schedule_fault w = None → update_schedule_fault w = None →
  UpdateSchedule target ∉ (enable_run (enable_run state).1).2.
Proof.
  intros Hget Hupdate. unfold AutoscaleUpRun.enable_run. rewrite Hget, Hupdate.
  destruct state as [current_state|]; simpl; [|set_solver].
  destruct (String.eqb current_state "ENABLED") eqn:Heq; simpl; [rewrite Heq|]; set_solver.
Qed.

End scaleup_run.

(** ** Scheduler reconciliation *)

Section reconciliation.
Context (cfg : Downscale.Config) (w : World).

Lemma downscale_notify_events_updates (subject state : string) :
  UpdateSchedule state ∉ DownscaleRun.notify_events cfg w subject.
Proof.
  unfold DownscaleRun.notify_events. destruct (_ || _); [set_solver|].
  destruct (publish w subject); set_solver.
Qed.

Lemma disable_run_settled (state : option string) (target : string) :
  get_schedule_fault w = None → update_schedule_fault w = None →
  UpdateSchedule target ∉ (disable_run cfg w (disable_run cfg w state).1).2.
Proof.
  intros Hget Hupdate. unfold disable_run, disable_failed_events.
  rewrite Hget, Hupdate.
  destruct state as [current_state|]; simpl; [|set_solver].
  destruct (String.eqb current_state "DISABLED") eqn:Heq; simpl; [rewrite Heq|]; set_solver.
Qed.

Lemma reconcile_run_idempotent (snapshot : list DBInstance) (state : option string) :
  (reconcile_run cfg w snapshot (reconcile_run cfg w snapshot state).1).1
  = (reconcile_run cfg w snapshot state).1.
Proof.
  unfold reconcile_run. destruct (verified_owned w snapshot); [|done].
  apply disable_run_idempotent.
Qed.

Lemma reconcile_run_settled (snapshot : list DBInstance) (state : option string)
    (target : string) :
  get_schedule_fault w = None → update_schedule_fault w = None →
  UpdateSchedule target ∉
    (reconcile_run cfg w snapshot (reconcile_run cfg w snapshot state).1).2.
Proof.
  intros. unfold reconcile_run. destruct (verified_owned w snapshot); [|set_solver].
  by apply disable_run_settled.
Qed.

Lemma reconcile_run_disables_only_unowned (snapshot : list DBInstance)
    (state : option string) (target : string) :
  UpdateSchedule target ∈ (reconcile_run cfg w snapshot state).2 →
  verified_owned w snapshot = [].
Proof.
  unfold reconcile_run. destruct (verified_owned w snapshot); [done|]. set_solver.
Qed.

Lemma reconcile_run_enabled (snapshot : list DBInstance) (current_state : string) :
  get_schedule_fault w = None → update_schedule_fault w = None →
  current_state ≠ "DISABLED" →
  (reconcile_run cfg w snapshot (Some current_state)).1 = Some "DISABLED"
  ↔ verified_owned w snapshot = [].
Proof.
  intros Hget Hupdate Hstate. unfold reconcile_run.
  destruct (verified_owned w snapshot) as [|owned ?]; simpl.
  - split; [done|]. intros _. by apply disable_run_works.
  - split; [|done]. congruence.
Qed.

End reconciliation.

(** [C9] Reconciliation requests the disabling update only when the
    snapshot holds no verified-owned instance; with a scheduler that
    answers and a schedule that is not yet disabled, the schedule is
    disabled after the call if and only if the snapshot holds none; and
    calling either the disabling reconciliation or the enabling rule a
    second time leaves the schedule state as the first call left it, with
    no further update requested when the scheduler answers. *)
Theorem C9_scheduler_reconciliation
    (cfg : Downscale.Config) (cfg_up : AutoscaleUp.Config) (w : World)
    (snapshot : list DBInstance) (s : State) :
  let after := (Downscale.check_and_disable_eventbridge cfg w snapshot s).2 in
  let again := (Downscale.check_and_disable_eventbridge cfg w snapshot after).2 in
  let enabled := (AutoscaleUp.enable_eventbridge_rule cfg_up w s).2 in
  let enabled_again := (AutoscaleUp.enable_eventbridge_rule cfg_up w enabled).2 in
  (UpdateSchedule "DISABLED" ∈ drop (length (trace s)) (trace after) →
   verified_owned w snapshot = [])
  ∧ (∀ current_state,
       get_schedule_fault w = None → update_schedule_fault w = None →
       schedule s = Some current_state → current_state ≠ "DISABLED" →
       (schedule after = Some "DISABLED" ↔ verified_owned w snapshot = []))
  ∧ schedule again = schedule after
  ∧ schedule enabled_again = schedule enabled
  ∧ (get_schedule_fault w = None → update_schedule_fault w = None →
     ∀ target,
       (UpdateSchedule target ∉ drop (length (trace after)) (trace again))
       ∧ (UpdateSchedule target ∉ drop (length (trace enabled)) (trace enabled_again))).
Proof.
  intros after again enabled enabled_again.
  subst again after enabled_again enabled.
  rewrite !check_and_disable_eventbridge_run, !enable_eventbridge_rule_run.
  cbn [fst snd schedule trace]. rewrite !drop_app_length.
  split_and!.
  - intros [?|Hin]%elem_of_cons; [done|].
    by apply (reconcile_run_disables_only_unowned cfg w snapshot (schedule s) "DISABLED").
  - intros current_state Hget Hupdate -> Hstate. by apply reconcile_run_enabled.
  - apply reconcile_run_idempotent.
  - apply enable_run_idempotent.
  - intros Hget Hupdate target. split.
    + intros [?|Hin]%elem_of_cons; [done|].
      by apply (reconcile_run_settled cfg w snapshot (schedule s) target).
    + by apply enable_run_settled.
Qed.

(** ** The capacity probe *)

Lemma try_except_returns {A : Type} (body : M A) (handler : exn → M A) (s : State) :
  (∀ e s1, ∃ a s', handler e s1 = (Return a, s')) →
  ∃ a s', try_except body isinstance_Exception handler s = (Return a, s').
Proof.
  intros Hhandler. unfold try_except.
  destruct (body s) as [[a|e] s1]; [by eexists _, _|]. apply Hhandler.
Qed.

Lemma handler_always_returns (cfg : AutoscaleUp.Config) (w : World) (s : State) :
  ∃ response s', AutoscaleUp.lambda_handler cfg w s = (Return response, s').
Proof.
  apply try_except_returns. intros e s1. run.
  rewrite scaleup_notify_run. by eexists _, _.
Qed.

(** [X20] The probe absorbs every ClientError and nothing else: it returns
    [true] when the trial reservation and its release succeed, [false]
    without an error entry on an insufficient-capacity ClientError, and
    [false] with one ERROR log entry on any other ClientError; an
    exception that is not a ClientError leaves the probe as it was raised,
    and is turned into a response by the handler, which never raises. *)
Theorem check_capacity_absorbs_client_errors
    (w : World) (instance_type availability_zone : string) (s : State) :
  let result := (AutoscaleUp.check_capacity w instance_type availability_zone s).1 in
  let traced := drop (length (trace s))
                  (trace (AutoscaleUp.check_capacity w instance_type availability_zone s).2) in
  (∀ reservation_id,
     create_capacity_reservation w instance_type availability_zone = Return reservation_id →
     cancel_capacity_reservation w reservation_id = Return tt →
     result = Return true
     ∧ traced = [CreateCapacityReservation instance_type availability_zone;
                 CancelCapacityReservation reservation_id])
  ∧ (∀ e,
       create_capacity_reservation w instance_type availability_zone = Raise e →
       isinstance_ClientError e = true →
       contains "InsufficientInstanceCapacity" (str e) = true →
       result = Return false
       ∧ traced = [CreateCapacityReservation instance_type availability_zone])
  ∧ (∀ e,
       create_capacity_reservation w instance_type availability_zone = Raise e →
       isinstance_ClientError e = true →
       contains "InsufficientInstanceCapacity" (str e) = false →
       result = Return false
       ∧ traced = [CreateCapacityReservation instance_type availability_zone;
                   Log ERROR (odcr_error_message instance_type availability_zone e)])
  ∧ (∀ e,
       create_capacity_reservation w instance_type availability_zone = Raise e →
       isinstance_ClientError e = false →
       result = Raise e)
  ∧ (∀ e, result = Raise e → isinstance_ClientError e = false)
  ∧ (∀ cfg, ∃ response s', AutoscaleUp.lambda_handler cfg w s = (Return response, s')).
Proof.
  intros result traced. subst result traced.
  unfold AutoscaleUp.check_capacity, odcr_error_message. destruct s as [state t insts]. run.
  destruct (create_capacity_reservation w instance_type availability_zone)
    as [reservation_id|e] eqn:Hcreate; run.
  - split_and!; try done.
    + intros ? [= <-] Hcancel. rewrite Hcancel. run.
      rewrite <- app_assoc, drop_app_length. done.
    + intros e. destruct (cancel_capacity_reservation w reservation_id) as [[]|e']; run; [done|].
      destruct (isinstance_ClientError e') eqn:He'; [|by intros [= <-]].
      by destruct (contains _ _); run.
    + intros cfg. apply handler_always_returns.
  - split_and!; try done.
    + intros ? [= <-] Hclient Hcontains. rewrite Hclient, Hcontains. run.
      by rewrite drop_app_length.
    + intros ? [= <-] Hclient Hcontains. rewrite Hclient, Hcontains. run.
      by rewrite <- app_assoc, drop_app_length.
    + intros ? [= <-] Hclient. by rewrite Hclient.
    + intros e'. destruct (isinstance_ClientError e) eqn:He; [|by intros [= <-]].
      by destruct (contains _ _); run.
    + intros cfg. apply handler_always_returns.
Qed.

(** ** The candidate loops *)

Lemma probes_app (t1 t2 : list Event) : probes (t1 ++ t2) = probes t1 ++ probes t2.
Proof. apply omap_app. Qed.

Lemma probes_cons (ev : Event) (t : list Event) :
  probes (ev :: t) =
    match ev with
    | CreateCapacityReservation instance_type zone => (instance_type, zone) :: probes t
    | _ => probes t
    end.
Proof. by destruct ev. Qed.

Ltac no_probes :=
  repeat (rewrite probes_app || rewrite probes_cons); cbn [app]; try done.

Section candidates.
Context (cfg : AutoscaleUp.Config) (w : World).

Lemma notify_events_probes (subject : string) :
  probes (AutoscaleUpRun.notify_events cfg w subject) = [].
Proof.
  unfold AutoscaleUpRun.notify_events. destruct (_ || _); [done|].
  by destruct (publish w subject).
Qed.

Lemma enable_run_probes (state : option string) :
  probes (AutoscaleUpRun.enable_run cfg w state).2 = [].
Proof.
  unfold AutoscaleUpRun.enable_run. repeat case_match; simpl; by rewrite ?notify_events_probes.
Qed.

Lemma check_capacity_trace (instance_type zone : string) (s : State) :
  ∃ o evs,
    AutoscaleUp.check_capacity w instance_type zone s
    = (o, add_events s (CreateCapacityReservation instance_type zone :: evs))
    ∧ probes evs = []
    ∧ (refused w instance_type zone → o = Return false).
Proof.
  unfold AutoscaleUp.check_capacity, refused. destruct s as [state t insts]. run.
  destruct (create_capacity_reservation w instance_type zone) as [reservation_id|e] eqn:Hc; run.
  - assert ((∃ e, Return reservation_id = Raise e ∧ isinstance_ClientError e = true) →
            ∀ o : outcome bool, o = Return false) as Hno
      by (by intros (? & ? & _)).
    destruct (cancel_capacity_reservation w reservation_id) as [[]|e]; run.
    + eexists _, [_]. rewrite <- app_assoc. cbn [app]. split_and!; [done..|]. intros; by apply Hno.
    + destruct (isinstance_ClientError e); [destruct (contains _ _)|]; run;
        rewrite <- ?app_assoc; cbn [app].
      * eexists _, [_]. split_and!; [done..|]. intros; by apply Hno.
      * eexists _, [_; _]. split_and!; [done..|]. intros; by apply Hno.
      * eexists _, [_]. split_and!; [done..|]. intros; by apply Hno.
  - destruct (isinstance_ClientError e) eqn:He; [destruct (contains _ _)|]; run;
      rewrite <- ?app_assoc; cbn [app].
    + by eexists _, [].
    + by eexists _, [_].
    + eexists _, []. split_and!; [done..|].
      intros (? & [= <-] & ?). congruence.
Qed.

Lemma create_reader_instance_trace (instance_type zone : string) (s : State) :
  ∃ created s' evs,
    AutoscaleUp.create_reader_instance cfg w instance_type zone s = (Return created, s')
    ∧ trace s' = trace s ++ evs
    ∧ probes evs = [].
Proof.
  unfold AutoscaleUp.create_reader_instance, AutoscaleUp.generate_unique_db_identifier.
  destruct s as [state t insts]. run.
  destruct (create_db_instance w _ _ _) as [created|e]; run;
    rewrite ?scaleup_notify_run; run;
    rewrite ?enable_eventbridge_rule_run; run;
    rewrite <- ?app_assoc; cbn [app]; eexists _, _, _;
    (split; [reflexivity|]); cbn [trace]; (split; [reflexivity|]);
    no_probes; by rewrite ?notify_events_probes, ?enable_run_probes.
Qed.

End candidates.

Section plan.
Context (cfg : AutoscaleUp.Config) (w : World).

Local Abbreviation follows := (follows w).

Ltac absurd_decline Hno :=
  let Hnone := fresh in intros Hnone; specialize (Hno Hnone); done.

Ltac stopped Hno :=
  split_and!;
  try done; try (by apply prefix_app_r); try (by apply prefix_app);
  try absurd_decline Hno.

Lemma try_candidate_follows (instance_type zone : string) :
  follows (AutoscaleUp.try_candidate cfg w instance_type zone) [(instance_type, zone)]
          (refused w instance_type zone).
Proof.
  intros s. unfold AutoscaleUp.try_candidate. run.
  destruct (check_capacity_trace w instance_type zone s) as (o & evs & -> & Hevs & Hno).
  destruct o as [[|]|e].
  - destruct (create_reader_instance_trace cfg w instance_type zone
                (add_events s (CreateCapacityReservation instance_type zone :: evs)))
      as (created & s' & evs' & -> & Htrace & Hevs').
    assert (probes ((CreateCapacityReservation instance_type zone :: evs) ++ evs')
            = [(instance_type, zone)]) as Hprobes.
    { no_probes. by rewrite Hevs, Hevs'. }
    destruct created as [created|]; run; eexists _, _, _;
      (split; [reflexivity|]); rewrite Htrace; cbn [add_events trace];
      rewrite <- app_assoc; (split; [reflexivity|]); rewrite Hprobes;
      split_and!; try done; try absurd_decline Hno.
    intros ? [= <-]. by eexists _, _, _.
  - run. eexists _, _, _. split; [reflexivity|]. cbn [add_events trace].
    split; [reflexivity|]. no_probes. rewrite Hevs. done.
  - run. eexists _, _, _. split; [reflexivity|]. cbn [add_events trace].
    split; [reflexivity|]. no_probes. rewrite Hevs.
    split_and!; try done. absurd_decline Hno.
Qed.

Lemma for_each_follows {A : Type} (l : list A)
    (body : A → M (option AutoscaleUp.Response)) (plan : A → list (string * string))
    (declined : A → Prop) :
  (∀ x, follows (body x) (plan x) (declined x)) →
  follows (for_each l body) (l ≫= plan) (Forall declined l).
Proof.
  intros Hbody. induction l as [|x l IH]; intros s; simpl.
  - exists (Return None), s, []. run. rewrite app_nil_r. done.
  - run.
    destruct (Hbody x s) as (o & s1 & evs1 & -> & Htrace1 & Hprefix1 & Hall1 & Hgood1 & Hno1).
    assert (Forall declined (x :: l) → o = Return None) as Hno1'
      by (intros [? _]%Forall_cons; auto).
    destruct o as [[v|]|e].
    + exists (Return (Some v)), s1, evs1. stopped Hno1'.
    + destruct (IH s1) as (o & s2 & evs2 & -> & Htrace2 & Hprefix2 & Hall2 & Hgood2 & Hno2).
      exists o, s2, (evs1 ++ evs2). rewrite Htrace2, Htrace1, <- app_assoc, probes_app.
      rewrite (Hall1 eq_refl). split_and!; try done; try (by apply prefix_app).
      * intros Ho. by rewrite (Hall2 Ho).
      * intros [_ ?]%Forall_cons. auto.
    + exists (Raise e), s1, evs1. stopped Hno1'.
Qed.

Lemma fmap_as_bind {A : Type} (f : A → string * string) (l : list A) :
  f <$> l = l ≫= λ x, [f x].
Proof. induction l as [|x l IH]; [done|]. by rewrite fmap_cons, bind_cons, IH. Qed.

Lemma fallback_follows (zones : list string) :
  follows
    (if String.eqb (AutoscaleUp.FALLBACK_STRATEGY cfg) "instance-priority" then
       for_each (AutoscaleUp.INSTANCE_TYPES_PRIORITY cfg) (λ instance_type,
         for_each zones (λ az, AutoscaleUp.try_candidate cfg w instance_type az))
     else
       for_each zones (λ az,
         for_each (AutoscaleUp.INSTANCE_TYPES_PRIORITY cfg) (λ instance_type,
           AutoscaleUp.try_candidate cfg w instance_type az)))
    (if String.eqb (AutoscaleUp.FALLBACK_STRATEGY cfg) "instance-priority"
     then AutoscaleUp.INSTANCE_TYPES_PRIORITY cfg ≫= λ instance_type, pair instance_type <$> zones
     else zones ≫= λ zone,
            (λ instance_type, (instance_type, zone)) <$> AutoscaleUp.INSTANCE_TYPES_PRIORITY cfg)
    (no_capacity w).
Proof.
  assert (∀ (m : M (option AutoscaleUp.Response)) plan (P Q : Prop),
            (Q → P) → follows m plan P → follows m plan Q) as Hweaken.
  { intros m plan P Q HQP Hm s.
    destruct (Hm s) as (o & s' & evs & ? & ? & ? & ? & ? & ?).
    exists o, s', evs. split_and!; auto. }
  destruct (String.eqb _ _).
  - eapply Hweaken; [|apply for_each_follows; intros instance_type; cbv beta;
                      rewrite fmap_as_bind; apply for_each_follows;
                      intros zone; apply try_candidate_follows].
    intros Hno. apply Forall_forall. intros instance_type _.
    apply Forall_forall. intros zone _. apply Hno.
  - eapply Hweaken; [|apply for_each_follows; intros zone; cbv beta;
                      rewrite fmap_as_bind; apply for_each_follows;
                      intros instance_type; apply try_candidate_follows].
    intros Hno. apply Forall_forall. intros zone _.
    apply Forall_forall. intros instance_type _. apply Hno.
Qed.

(** Steps 2 to 5 probe along the placement plan: the preferred class
    with every zone is probed whenever it is refused everywhere, and a
    failure is reported only after the whole plan. *)
Lemma place_reader_follows (readers_per_az : dict nat) (s : State) :
  let zones := AutoscaleUp.sorted_azs_of readers_per_az in
  let preferred := AutoscaleUp.PREFERRED_INSTANCE_TYPE cfg in
  let plan := placement_plan (AutoscaleUp.FALLBACK_STRATEGY cfg) preferred
                (AutoscaleUp.INSTANCE_TYPES_PRIORITY cfg) zones in
  ∃ o s' evs,
    AutoscaleUp.place_reader cfg w readers_per_az s = (o, s')
    ∧ trace s' = trace s ++ evs
    ∧ probes evs `prefix_of` plan
    ∧ (Forall (refused w preferred) zones → (pair preferred <$> zones) `prefix_of` probes evs)
    ∧ (∀ message types azs, o = Return (AutoscaleUp.failure message types azs) →
       probes evs = plan)
    ∧ (no_capacity w → ∃ message types azs, o = Return (AutoscaleUp.failure message types azs)).
Proof.
  intros zones preferred plan. subst plan. unfold AutoscaleUp.place_reader, placement_plan.
  fold zones. fold preferred. run.
  destruct (for_each_follows zones
              (λ az, AutoscaleUp.try_candidate cfg w preferred az)
              (λ az, [(preferred, az)]) (refused w preferred)
              (λ az, try_candidate_follows _ az) s)
    as (o1 & s1 & evs1 & -> & Htrace1 & Hprefix1 & Hall1 & Hgood1 & Hno1).
  rewrite <- fmap_as_bind in Hprefix1, Hall1.
  assert (no_capacity w → o1 = Return None) as Hno1'.
  { intros Hno. apply Hno1, Forall_forall. intros zone _. apply Hno. }
  destruct o1 as [[returned|]|e]; run.
  - exists (Return returned), s1, evs1. stopped Hno1'.
    + absurd_decline Hno1.
    + intros ? ? ? [= ->]. by destruct (Hgood1 _ eq_refl) as (? & ? & ? & ?).
  - destruct (fallback_follows zones s1)
      as (o2 & s2 & evs2 & -> & Htrace2 & Hprefix2 & Hall2 & Hgood2 & Hno2).
    destruct o2 as [[returned|]|e]; run.
    + exists (Return returned), s2, (evs1 ++ evs2).
      rewrite Htrace2, Htrace1, <- app_assoc, probes_app, (Hall1 eq_refl).
      stopped Hno2.
      * intros _. by apply prefix_app_r.
      * intros ? ? ? [= ->]. by destruct (Hgood2 _ eq_refl) as (? & ? & ? & ?).
    + rewrite scaleup_notify_run. run.
      eexists _, _, _. split; [reflexivity|]. cbn [trace].
      rewrite Htrace2, Htrace1, <- !app_assoc. split; [reflexivity|].
      no_probes. rewrite notify_events_probes, app_nil_r, (Hall1 eq_refl), (Hall2 eq_refl).
      split_and!; try done.
      * intros _. by apply prefix_app_r.
      * intros _. by eexists _, _, _.
    + exists (Raise e), s2, (evs1 ++ evs2).
      rewrite Htrace2, Htrace1, <- app_assoc, probes_app, (Hall1 eq_refl).
      stopped Hno2. intros _. by apply prefix_app_r.
  - exists (Raise e), s1, evs1. stopped Hno1'. absurd_decline Hno1.
Qed.

End plan.

(** ** The zone distribution *)

Section dict.
Context {V : Type}.

Lemma dict_keys_set (d : dict V) (k : string) (v : V) :
  dict_keys (dict_set d k v)
  = if dict_contains d k then dict_keys d else dict_keys d ++ [k].
Proof.
  unfold dict_keys, dict_contains.
  induction d as [|[k' v'] d IH]; csimpl; [done|].
  destruct (String.eqb k' k); csimpl; [done|].
  rewrite IH. by destruct (dict_get d k).
Qed.

Lemma dict_contains_keys (d : dict V) (k : string) :
  dict_contains d k = true ↔ k ∈ dict_keys d.
Proof.
  unfold dict_keys, dict_contains.
  induction d as [|[k' v'] d IH]; csimpl; [by rewrite elem_of_nil|].
  rewrite elem_of_cons. destruct (String.eqb_spec k' k) as [->|Hne]; [naive_solver|].
  rewrite <- IH. naive_solver.
Qed.

Lemma dict_get_set (d : dict V) (k k' : string) (v : V) :
  dict_get (dict_set d k v) k' = if String.eqb k k' then Some v else dict_get d k'.
Proof.
  induction d as [|[k0 v0] d IH]; simpl; [done|].
  destruct (String.eqb_spec k0 k) as [->|Hne]; simpl.
  - by destruct (String.eqb k k').
  - destruct (String.eqb_spec k0 k') as [->|Hne'].
    + by destruct (String.eqb_spec k k'); [congruence|].
    + apply IH.
Qed.

Lemma dict_fromkeys_keys (ks : list string) (v : V) :
  NoDup ks → dict_keys (dict_fromkeys ks v) = ks.
Proof.
  unfold dict_fromkeys.
  enough (∀ d : dict V, NoDup (dict_keys d ++ ks) →
            dict_keys (foldl (λ d k, dict_set d k v) d ks) = dict_keys d ++ ks) as Hgen
    by (intros; by apply (Hgen [])).
  induction ks as [|k ks IH]; intros d Hnodup; simpl; [by rewrite app_nil_r|].
  assert (dict_keys (dict_set d k v) = dict_keys d ++ [k]) as Hkeys.
  { rewrite dict_keys_set. destruct (dict_contains d k) eqn:Hin; [|done].
    apply dict_contains_keys in Hin. apply NoDup_app in Hnodup as (_ & Hfresh & _).
    destruct (Hfresh k Hin). set_solver. }
  rewrite IH, Hkeys, <- app_assoc; [done|].
  by rewrite Hkeys, <- app_assoc.
Qed.

Lemma dict_fromkeys_get (ks : list string) (v : V) (k : string) :
  dict_get (dict_fromkeys ks v) k = if decide (k ∈ ks) then Some v else None.
Proof.
  unfold dict_fromkeys.
  enough (∀ d : dict V,
            dict_get (foldl (λ d k, dict_set d k v) d ks) k
            = if decide (k ∈ ks) then Some v else dict_get d k) as Hgen by apply (Hgen []).
  induction ks as [|k' ks IH]; intros d; simpl.
  - destruct (decide (k ∈ [])) as [Hin|]; [by apply elem_of_nil in Hin|done].
  - rewrite IH, dict_get_set.
    destruct (decide (k ∈ ks)), (decide (k ∈ k' :: ks)) as [Hin|Hout], (String.eqb_spec k' k);
      try done; set_solver.
Qed.

End dict.

Section distribution.
Context (cfg : AutoscaleUp.Config).

Lemma count_reader_keys (d : dict nat) (db : DBInstance) :
  dict_keys (AutoscaleUp.count_reader cfg d db) = dict_keys d.
Proof.
  unfold AutoscaleUp.count_reader.
  destruct (bool_decide _); [|done].
  destruct (negb _); [|done]. destruct (negb _); [|done].
  destruct (AvailabilityZone db) as [zone|]; [|done]. simpl.
  destruct (dict_contains d zone) eqn:Hin; [|done].
  by rewrite dict_keys_set, Hin.
Qed.

Lemma readers_per_az_keys (fleet : list DBInstance) (d : dict nat) :
  dict_keys (foldl (AutoscaleUp.count_reader cfg) d fleet) = dict_keys d.
Proof.
  revert d. induction fleet as [|db fleet IH]; intros d; simpl; [done|].
  by rewrite IH, count_reader_keys.
Qed.

Lemma get_aurora_readers_per_az_run (w : World) (fleet : list DBInstance) (s : State) :
  describe_db_instances w = Return fleet →
  AutoscaleUp.get_aurora_readers_per_az cfg w s
  = (Return (foldl (AutoscaleUp.count_reader cfg)
               (dict_fromkeys (AutoscaleUp.AVAILABILITY_ZONES cfg) 0) fleet), s).
Proof. intros Hfleet. unfold AutoscaleUp.get_aurora_readers_per_az. run. by rewrite Hfleet. Qed.

End distribution.

(** ** The placement plan, by position *)

Lemma plan_lookup_preferred (strategy preferred : string) (fallbacks zones : list string)
    (k : nat) (zone : string) :
  zones !! k = Some zone →
  placement_plan strategy preferred fallbacks zones !! k = Some (preferred, zone).
Proof.
  intros Hk. unfold placement_plan.
  rewrite lookup_app_l by (rewrite length_fmap; by eapply lookup_lt_Some).
  by rewrite list_lookup_fmap, Hk.
Qed.

Lemma by_class_lookup (fallbacks zones : list string) (i k : nat) (class zone : string) :
  fallbacks !! i = Some class → zones !! k = Some zone →
  (fallbacks ≫= λ instance_type, pair instance_type <$> zones) !! (length zones * i + k)
  = Some (class, zone).
Proof.
  revert i. induction fallbacks as [|c fallbacks IH]; intros i Hi Hk; [done|].
  rewrite bind_cons. destruct i as [|i]; simpl in Hi.
  - injection Hi as ->. rewrite Nat.mul_0_r, Nat.add_0_l.
    rewrite lookup_app_l by (rewrite length_fmap; by eapply lookup_lt_Some).
    by rewrite list_lookup_fmap, Hk.
  - rewrite lookup_app_r by (rewrite length_fmap; lia).
    rewrite length_fmap.
    replace (length zones * S i + k - length zones) with (length zones * i + k) by lia.
    by apply IH.
Qed.

Lemma plan_lookup_fallback (preferred : string) (fallbacks zones : list string)
    (i k : nat) (class zone : string) :
  fallbacks !! i = Some class → zones !! k = Some zone →
  placement_plan "instance-priority" preferred fallbacks zones
    !! (length zones * (1 + i) + k) = Some (class, zone).
Proof.
  intros Hi Hk. unfold placement_plan. simpl String.eqb. cbv iota.
  rewrite lookup_app_r by (rewrite length_fmap; lia).
  rewrite length_fmap.
  replace (length zones * (1 + i) + k - length zones) with (length zones * i + k) by lia.
  by apply by_class_lookup.
Qed.

Lemma StronglySorted_weaken {A : Type} (R R' : A → A → Prop) (l : list A) :
  (∀ a b, R a b → R' a b) → StronglySorted R l → StronglySorted R' l.
Proof.
  intros HR. induction 1 as [|x l _ IH Hx]; constructor; [done|].
  eapply Forall_impl; [exact Hx|]. intros; by apply HR.
Qed.

(** ** The scale-up candidate sequence *)

Lemma lambda_handler_follows (cfg : AutoscaleUp.Config) (w : World) (s : State)
    (fleet : list DBInstance) :
  describe_db_instances w = Return fleet →
  let readers_per_az :=
    foldl (AutoscaleUp.count_reader cfg)
          (dict_fromkeys (AutoscaleUp.AVAILABILITY_ZONES cfg) 0) fleet in
  let zones := AutoscaleUp.sorted_azs_of readers_per_az in
  let preferred := AutoscaleUp.PREFERRED_INSTANCE_TYPE cfg in
  let plan := placement_plan (AutoscaleUp.FALLBACK_STRATEGY cfg) preferred
                (AutoscaleUp.INSTANCE_TYPES_PRIORITY cfg) zones in
  ∃ response s' evs,
    AutoscaleUp.lambda_handler cfg w s = (Return response, s')
    ∧ trace s' = trace s ++ evs
    ∧ probes evs `prefix_of` plan
    ∧ (Forall (refused w preferred) zones → (pair preferred <$> zones) `prefix_of` probes evs)
    ∧ (AutoscaleUp.statusCode response = 503 → probes evs = plan)
    ∧ (no_capacity w → probes evs = plan).
Proof.
  intros Hfleet readers_per_az zones preferred plan. unfold AutoscaleUp.lambda_handler. run.
  rewrite (get_aurora_readers_per_az_run cfg w fleet s Hfleet).
  destruct (place_reader_follows cfg w readers_per_az s)
    as (o & s' & evs & Hrun & Htrace & Hprefix & Hpreferred & Hfailure & Hno).
  fold readers_per_az. rewrite Hrun. destruct o as [response|e]; run.
  - exists response, s', evs. split_and!; try done.
    + destruct response; try done. intros _. by eapply Hfailure.
    + intros Hnone. destruct (Hno Hnone) as (? & ? & ? & [= ->]). by eapply Hfailure.
  - rewrite scaleup_notify_run. run.
    eexists _, _, _. split; [reflexivity|]. cbn [trace].
    rewrite Htrace, <- !app_assoc. split; [reflexivity|].
    no_probes. rewrite notify_events_probes, app_nil_r.
    split_and!; try done. intros Hnone. by destruct (Hno Hnone) as (? & ? & ? & ?).
Qed.

(** [C4] The zones are tried in ascending order of reader count, zones of
    equal count in the order of the configuration; the handler probes
    along the placement plan, all of it when it reports that there is no
    capacity; in the plan the preferred class with every zone comes first,
    and under ["instance-priority"] every candidate of a fallback class
    comes before every candidate of a fallback class configured later. *)
Theorem C4_candidate_order
    (cfg : AutoscaleUp.Config) (w : World) (s : State) (fleet : list DBInstance) :
  describe_db_instances w = Return fleet →
  let readers_per_az :=
    foldl (AutoscaleUp.count_reader cfg)
          (dict_fromkeys (AutoscaleUp.AVAILABILITY_ZONES cfg) 0) fleet in
  let count := λ az, default 0 (dict_get readers_per_az az) in
  let zones := AutoscaleUp.sorted_azs_of readers_per_az in
  let fallbacks := AutoscaleUp.INSTANCE_TYPES_PRIORITY cfg in
  let plan := placement_plan (AutoscaleUp.FALLBACK_STRATEGY cfg)
                (AutoscaleUp.PREFERRED_INSTANCE_TYPE cfg) fallbacks zones in
  let ran := AutoscaleUp.lambda_handler cfg w s in
  let tried := probes (drop (length (trace s)) (trace ran.2)) in
  zones ≡ₚ dict_keys readers_per_az
  ∧ (NoDup (AutoscaleUp.AVAILABILITY_ZONES cfg) →
     dict_keys readers_per_az = AutoscaleUp.AVAILABILITY_ZONES cfg)
  ∧ StronglySorted (λ a b, (count a ≤ count b)%nat) zones
  ∧ (∀ n, filter (λ az, count az = n) zones
          = filter (λ az, count az = n) (dict_keys readers_per_az))
  ∧ tried `prefix_of` plan
  ∧ (∀ response, ran.1 = Return response →
       AutoscaleUp.statusCode response = 503 → tried = plan)
  ∧ (no_capacity w → tried = plan)
  ∧ (∀ k zone, zones !! k = Some zone →
       plan !! k = Some (AutoscaleUp.PREFERRED_INSTANCE_TYPE cfg, zone))
  ∧ (AutoscaleUp.FALLBACK_STRATEGY cfg = "instance-priority" →
     ∀ i j class_a class_b ka kb zone_a zone_b,
       (i < j)%nat →
       fallbacks !! i = Some class_a → fallbacks !! j = Some class_b →
       zones !! ka = Some zone_a → zones !! kb = Some zone_b →
       plan !! (length zones * (1 + i) + ka) = Some (class_a, zone_a)
       ∧ plan !! (length zones * (1 + j) + kb) = Some (class_b, zone_b)
       ∧ (length zones ≤ length zones * (1 + i) + ka < length zones * (1 + j) + kb)%nat).
Proof.
  intros Hfleet readers_per_az count zones fallbacks plan ran tried.
  destruct (lambda_handler_follows cfg w s fleet Hfleet)
    as (response & s' & evs & Hrun & Htrace & Hprefix & _ & Hfailure & Hno).
  assert (tried = probes evs) as ->.
  { subst tried ran. rewrite Hrun. cbn [snd]. by rewrite Htrace, drop_app_length. }
  split_and!.
  - apply sorted_perm.
  - intros Hnodup. subst readers_per_az.
    by rewrite readers_per_az_keys, dict_fromkeys_keys.
  - eapply StronglySorted_weaken; [|apply sorted_ascending].
    unfold key_le, count. intros; lia.
  - intros n.
    assert (filter (λ az, Z.of_nat (count az) = Z.of_nat n) zones
            = filter (λ az, Z.of_nat (count az) = Z.of_nat n) (dict_keys readers_per_az))
      as Hstable by apply (sorted_stable (λ az, Z.of_nat (count az))).
    rewrite (list_filter_iff (λ az, count az = n) (λ az, Z.of_nat (count az) = Z.of_nat n))
      by (intros; lia).
    rewrite Hstable. apply list_filter_iff. intros; lia.
  - done.
  - intros response' Hresponse. subst ran. rewrite Hrun in Hresponse.
    injection Hresponse as <-. done.
  - done.
  - intros k zone. apply plan_lookup_preferred.
  - intros Hstrategy i j class_a class_b ka kb zone_a zone_b Hij Hi Hj Hka Hkb.
    subst plan. rewrite Hstrategy.
    split_and!; try by apply plan_lookup_fallback.
    + lia.
    + apply lookup_lt_Some in Hka. nia.
Qed.


(** ** The scale-down candidate *)

Lemma last_ascending {A : Type} (key : A → Z) (l : list A) (x : A) :
  StronglySorted (key_le key) l → last l = Some x →
  ∀ y, y ∈ l → (key y ≤ key x)%Z.
Proof.
  induction 1 as [|z l Hl IH Hz]; [done|].
  intros Hlast y Hy. destruct l as [|z' l'].
  - injection Hlast as <-. apply list_elem_of_singleton in Hy as ->. lia.
  - change (last (z' :: l') = Some x) in Hlast.
    apply elem_of_cons in Hy as [->|Hy]; [|by apply IH].
    rewrite Forall_forall in Hz. apply Hz. by eapply last_Some_elem_of.
Qed.

(** The candidate is a member of [lambda_readers] of the latest creation
    time: nothing in the selection looks at the writer flag. *)
Lemma latest_reader_of_latest (lambda_readers : list DBInstance) (latest : DBInstance) :
  Downscale.latest_reader_of lambda_readers = Some latest →
  latest ∈ lambda_readers
  ∧ ∀ inst, inst ∈ lambda_readers →
      (default 0 (InstanceCreateTime inst) ≤ default 0 (InstanceCreateTime latest))%Z.
Proof.
  unfold Downscale.latest_reader_of. intros Hlast. split.
  - apply last_Some_elem_of in Hlast. by rewrite sorted_perm in Hlast.
  - intros inst Hin. eapply (last_ascending _ _ _ (sorted_ascending _ _) Hlast).
    by rewrite sorted_perm.
Qed.

(** [C1] In the scenario [writer_is_latest] the cluster's writer carries
    the naming prefix and the required tags, is available and is the most
    recently created member; the pool average is below the threshold, and
    the handler requests the deletion of that writer. *)
Theorem C1_promoted_writer_is_deleted :
  describe_db_clusters Scenario.writer_is_latest
  = Return [[Scenario.member Scenario.promoted_writer true;
             Scenario.member Scenario.older_reader false]]
  ∧ (Downscale.invoke Scenario.down Scenario.writer_is_latest (Some "ENABLED")).1
    = Return (Downscale.response 200 ("Successfully deleted " +:+ Scenario.promoted_writer))
  ∧ deletions (trace (Downscale.invoke Scenario.down Scenario.writer_is_latest
                        (Some "ENABLED")).2)
    = [Scenario.promoted_writer].
Proof. split_and!; vm_compute; reflexivity. Qed.

(** ** The reader count per zone *)

Lemma count_reader_get (cfg : AutoscaleUp.Config) (d : dict nat) (db : DBInstance)
    (zone : string) :
  dict_contains d zone = true →
  default 0 (dict_get (AutoscaleUp.count_reader cfg d db) zone)
  = default 0 (dict_get d zone) + (if decide (counted cfg zone db) then 1 else 0).
Proof.
  intros Hzone. unfold AutoscaleUp.count_reader, counted.
  destruct (decide _) as [(Hcluster & Hwriter & Hstatus & Haz)|Hnot].
  - rewrite bool_decide_eq_true_2, Hwriter, Haz, Hzone by done.
    rewrite (bool_decide_eq_false_2 _ Hstatus). simpl.
    by rewrite dict_get_set, String.eqb_refl.
  - destruct (bool_decide_reflect (DBClusterIdentifier db = AutoscaleUp.DB_CLUSTER_ID cfg));
      [|lia].
    destruct (default false (IsClusterWriter db)) eqn:Hwriter; simpl; [lia|].
    destruct (bool_decide_reflect
                (DBInstanceStatus db ∈ ["deleting"; "insufficient activity"]));
      simpl; [lia|].
    destruct (AvailabilityZone db) as [zone'|] eqn:Haz; [|lia].
    destruct (dict_contains d zone'); [|lia].
    rewrite dict_get_set. destruct (String.eqb_spec zone' zone) as [->|]; [|lia].
    by destruct Hnot.
Qed.

Lemma readers_per_az_counts (cfg : AutoscaleUp.Config) (fleet : list DBInstance)
    (d : dict nat) (zone : string) :
  dict_contains d zone = true →
  default 0 (dict_get (foldl (AutoscaleUp.count_reader cfg) d fleet) zone)
  = default 0 (dict_get d zone) + length (filter (counted cfg zone) fleet).
Proof.
  revert d. induction fleet as [|db fleet IH]; intros d Hzone; simpl; [lia|].
  rewrite IH, count_reader_get, filter_cons by
    (rewrite ?dict_contains_keys, ?count_reader_keys; by apply dict_contains_keys).
  destruct (decide (counted cfg zone db)); simpl; lia.
Qed.

(** [C7] In the scenario [starved_reader] the one reader of the cluster,
    in zone a, has status insufficient-capacity, and the analyzer counts
    it: the status that it excludes is spelled "insufficient activity". *)
Theorem C7_insufficient_capacity_is_counted :
  (AutoscaleUp.get_aurora_readers_per_az (Scenario.up ["a"; "b"; "c"] [])
     Scenario.starved_reader (Scenario.fresh "ENABLED")).1
  = Return [("a", 1); ("b", 0); ("c", 0)].
Proof. vm_compute. reflexivity. Qed.

(** ** The scenarios *)

(** [C2] With no reader in the cluster the handler reconciles before it
    returns and again in its [finally] block: twice, not once. *)
Lemma C2_no_readers_reconciles_twice :
  length (reconcile_calls
            (trace (Downscale.invoke Scenario.down Scenario.no_readers (Some "ENABLED")).2))
  ≠ 1.
Proof. vm_compute. discriminate. Qed.


(** [C8] When the EC2 endpoint cannot be reached the probe gives no
    answer: the exception, which is not a ClientError, leaves it, and
    nothing is logged.  The handler then gives up with the internal-error
    result after this one probe, of the preferred class in the first
    zone: no other zone and no fallback class is tried. *)
Theorem C8_probe_raises_when_ec2_is_unreachable :
  let e := Exception "Could not connect to the endpoint URL" in
  let cfg := Scenario.up ["a"; "b"; "c"] ["X"; "Y"] in
  AutoscaleUp.check_capacity Scenario.unreachable_ec2 "r6i.32xlarge" "a"
    (Scenario.fresh "ENABLED")
  = (Raise e,
     add_events (Scenario.fresh "ENABLED") [CreateCapacityReservation "r6i.32xlarge" "a"])
  ∧ (¬ ∃ answer : bool,
         (AutoscaleUp.check_capacity Scenario.unreachable_ec2 "r6i.32xlarge" "a"
            (Scenario.fresh "ENABLED")).1 = Return answer)
  ∧ ∃ s',
      AutoscaleUp.invoke cfg Scenario.unreachable_ec2 (Some "ENABLED")
      = (Return (AutoscaleUp.error ("Unexpected error in Aurora AutoScaler: " +:+ str e)), s')
      ∧ probes (trace s') = [("r6i.32xlarge", "a")]
      ∧ length (placement_plan (AutoscaleUp.FALLBACK_STRATEGY cfg)
                  (AutoscaleUp.PREFERRED_INSTANCE_TYPE cfg)
                  (AutoscaleUp.INSTANCE_TYPES_PRIORITY cfg) ["a"; "b"; "c"]) = 9.
Proof.
  intros e cfg. split; [vm_compute; reflexivity|]. split.
  - intros [answer Hanswer]. vm_compute in Hanswer. discriminate.
  - eexists. split; [vm_compute; reflexivity|]. split; vm_compute; reflexivity.
Qed.

(** The theorems at work on the scenarios. *)

Lemma C2_deletion_reconciles_once :
  ∃ response s',
    Downscale.invoke Scenario.down Scenario.writer_is_latest (Some "ENABLED")
    = (Return response, s')
    ∧ length (reconcile_calls (trace s')) = 1.
Proof.
  destruct (C2_reconciliation_runs_once_or_twice Scenario.down Scenario.writer_is_latest
              (Some "ENABLED")) as (response & s' & Hrun & _ & _ & _ & Hdeleted & _).
  exists response, s'. split; [exact Hrun|].
  vm_compute in Hrun. injection Hrun as <- <-.
  apply Hdeleted; [reflexivity | discriminate].
Defined.

Lemma C3_owned_reader_is_verified :
  Downscale.is_lambda_managed_instance Scenario.busy_owned_reader Scenario.older_reader = true.
Proof.
  apply (proj1 (C3_is_lambda_managed_instance_fail_closed
                  Scenario.busy_owned_reader Scenario.older_reader)).
  eexists _, _, _. split_and!; [vm_compute; reflexivity..|].
  intros key value Hin. apply list_elem_of_In in Hin. simpl in Hin.
  destruct Hin as [[= <- <-]|[[= <- <-]|[]]]; vm_compute; reflexivity.
Defined.

Lemma C4_zones_of_two_none_one :
  let cfg := Scenario.up ["a"; "b"; "c"] ["X"; "Y"] in
  describe_db_instances Scenario.two_none_one
  = Return [Scenario.instance "aurora-writer" "available" (Some 20250101000000%Z) "a" true;
            Scenario.instance "reader-1" "available" (Some 20250102000000%Z) "a" false;
            Scenario.instance "reader-2" "available" (Some 20250103000000%Z) "a" false;
            Scenario.instance "reader-3" "available" (Some 20250104000000%Z) "c" false]
  ∧ AutoscaleUp.sorted_azs_of [("a", 2); ("b", 0); ("c", 1)] ≡ₚ ["a"; "b"; "c"].
Proof.
  intros cfg. split; [reflexivity|].
  exact (proj1 (C4_candidate_order cfg Scenario.two_none_one (Scenario.fresh "ENABLED")
                  _ eq_refl)).
Defined.


Lemma C6_uneven_pool_is_below_threshold :
  Downscale.collect_cpu_values ["reader-1"; "reader-2"] Scenario.uneven_results []
  = Return [float_of_int 30; float_of_int 0; float_of_int 0; float_of_int 0]
  ∧ mean_of_means Scenario.uneven_results ≠ mean (flat_union Scenario.uneven_results).
Proof.
  assert (answers_queries ["reader-1"; "reader-2"] Scenario.uneven_results) as Hids.
  { repeat constructor; simpl; lia. }
  destruct (C6_pool_average_is_flat_mean Scenario.down Scenario.uneven_pool (Some "ENABLED")
              _ _ Scenario.uneven_results eq_refl eq_refl Hids ltac:(discriminate))
    as (Hcollect & _ & _ & _ & Hdiffer).
  split; [exact Hcollect | exact Hdiffer].
Defined.

Lemma refusal_is_false :
  (AutoscaleUp.check_capacity Scenario.two_none_one "r6i.32xlarge" "a"
     (Scenario.fresh "ENABLED")).1 = Return false.
Proof.
  refine (proj1 (proj1 (proj2 (check_capacity_absorbs_client_errors
                                 Scenario.two_none_one "r6i.32xlarge" "a"
                                 (Scenario.fresh "ENABLED")))
                   Scenario.insufficient eq_refl eq_refl _)).
  vm_compute. reflexivity.
Defined.

Lemma C9_empty_snapshot_disables :
  schedule (Downscale.check_and_disable_eventbridge Scenario.down Scenario.busy_owned_reader
              [] (Scenario.fresh "ENABLED")).2 = Some "DISABLED".
Proof.
  refine (proj2 (proj1 (proj2 (C9_scheduler_reconciliation Scenario.down
                                 (Scenario.up ["a"; "b"; "c"] [])
                                 Scenario.busy_owned_reader [] (Scenario.fresh "ENABLED")))
                   "ENABLED" eq_refl eq_refl eq_refl _) eq_refl).
  discriminate.
Defined.

Lemma C10_owned_reader_and_disabled_schedule :
  verified_owned Cases.around_fifth Cases.fleet ≠ []
  ∧ ∃ response s',
      Downscale.invoke (Cases.threshold Cases.fifth) Cases.around_fifth (Some "ENABLED")
      = (Return response, s')
      ∧ reconcile_calls (trace s') = [[]; []]
      ∧ schedule s' = Some "DISABLED".
Proof.
  split; [vm_compute; discriminate|].
  assert (exits_before_listing (Cases.threshold Cases.fifth) Cases.around_fifth) as Hexit.
  { eapply (average_at_or_above_threshold _ _ _ _
              [ {| Id := 0; Values := [Cases.tenth; Cases.fifth; Cases.three_tenths] |} ]).
    - reflexivity.
    - vm_compute. discriminate.
    - reflexivity.
    - repeat constructor; simpl; lia.
    - discriminate.
    - vm_compute. reflexivity. }
  destruct (C10_early_exit_reconciles_empty_snapshot (Cases.threshold Cases.fifth)
              Cases.around_fifth
              (Some "ENABLED") Hexit) as (response & s' & Hrun & _ & Hcalls & _ & Hdisabled).
  exists response, s'. split_and!; [exact Hrun | exact Hcalls |].
  apply Hdisabled; [reflexivity | reflexivity | by eexists].
Defined.

(** * Further properties *)

(** ** The exits of the scale-down handler *)

Lemma collect_cpu_values_no_readers (results : list MetricDataResult) (acc values : list float) :
  Downscale.collect_cpu_values [] results acc = Return values → values = acc.
Proof.
  revert acc. induction results as [|result results IH]; intros acc; simpl.
  - by intros [= <-].
  - destruct (Values result); [apply IH|done].
Qed.

Lemma latest_reader_of_cons (inst : DBInstance) (l : list DBInstance) :
  is_Some (Downscale.latest_reader_of (inst :: l)).
Proof.
  unfold Downscale.latest_reader_of.
  destruct (sorted _ (inst :: l)) as [|x l'] eqn:Hsorted.
  - by apply sorted_nil_inv in Hsorted.
  - destruct (last (x :: l')) eqn:Hlast; [by eexists|].
    by apply last_None in Hlast.
Qed.

Lemma candidate_owned (w : World) (listing : list DBInstance) (latest : DBInstance) :
  Downscale.latest_reader_of (Downscale.lambda_readers_of listing) = Some latest →
  Downscale.is_lambda_managed_instance w (DBInstanceIdentifier latest) = true →
  latest ∈ verified_owned w listing.
Proof.
  intros Hlatest Hverified. apply latest_reader_of_latest in Hlatest as [Hin _].
  unfold Downscale.lambda_readers_of in Hin. apply list_elem_of_filter in Hin as [(? & Hstatus & _) ?].
  apply list_elem_of_filter. split_and!; try done. by rewrite Hstatus.
Qed.

Section exits.
Context (cfg : Downscale.Config) (w : World) (state : option string).

(** What the handler does once it has its candidate. *)
Lemma invoke_candidate (listing : list DBInstance) (latest : DBInstance) :
  candidate cfg w listing latest →
  let id := DBInstanceIdentifier latest in
  ∃ response s',
    Downscale.invoke cfg w state = (Return response, s')
    ∧ (Downscale.is_lambda_managed_instance w id = false →
       response = Downscale.response 403 "Instance deletion blocked - missing required tags"
       ∧ deletions (trace s') = []
       ∧ reconcile_calls (trace s') = [listing; listing])
    ∧ (Downscale.is_lambda_managed_instance w id = true →
       deletions (trace s') = [id]
       ∧ reconcile_calls (trace s') = [listing]
       ∧ schedule s' = state
       ∧ (GetSchedule ∉ trace s')
       ∧ (delete_db_instance w id = Return tt →
          response = Downscale.response 200 ("Successfully deleted " +:+ id))
       ∧ (∀ e, delete_db_instance w id = Raise e →
          response = Downscale.response 500
                       ("Failed to delete instance " +:+ id +:+ ": " +:+ str e))).
Proof.
  intros ((cluster & others & results & values & Hcluster & Hmetrics & Hcollect
           & Hvalues & Hmean) & Hlisting & Hlatest) id.
  unfold Downscale.invoke, Downscale.lambda_handler, Downscale.lambda_handler_try.
  steps. rewrite Hcluster. steps. unfold reader_members in *.
  destruct (_ <$> filter _ cluster) as [|reader readers].
  { apply collect_cpu_values_no_readers in Hcollect. done. }
  steps. rewrite Hmetrics. steps. rewrite Hcollect. steps.
  destruct values as [|value values]; [done|]. steps.
  fold (mean (value :: values)).
  rewrite Hmean.
  steps. rewrite Hlisting. steps.
  destruct (Downscale.lambda_readers_of listing) as [|first rest] eqn:Hreaders; [done|].
  steps. rewrite Hlatest. steps. fold id.
  destruct (Downscale.is_lambda_managed_instance w id) eqn:Hverified; steps.
  - pose proof (candidate_owned w listing latest) as Howned.
    rewrite Hreaders in Howned. specialize (Howned Hlatest Hverified).
    assert (reconcile_run cfg w listing state = (state, [])) as Hrun.
    { unfold reconcile_run. destruct (verified_owned w listing); [|done].
      by apply elem_of_nil in Howned. }
    assert (∀ subject, GetSchedule ∉ notify_events cfg w subject) as Hnotify.
    { intros subject. unfold notify_events. destruct (_ || _); [set_solver|].
      destruct (publish w subject); set_solver. }
    destruct (delete_db_instance w id) as [[]|e]; steps; exit_path; rewrite Hrun;
      (split; [done|]); intros _; split_and!; try done;
      cbn [snd app]; pose proof (Hnotify "Aurora Auto-Scaler: Successful Deletion");
      pose proof (Hnotify "Aurora Auto-Scaler: Deletion Error"); set_solver.
  - exit_path. by split.
Qed.

(** The exits without a candidate. *)
Lemma invoke_no_candidate :
  (∃ listing latest, candidate cfg w listing latest)
  ∨ ∃ response s',
      Downscale.invoke cfg w state = (Return response, s')
      ∧ deletions (trace s') = []
      ∧ ((Downscale.statusCode response = 500
          ∧ reconcile_calls (trace s') = [[]]
          ∧ schedule s' = (disable_run cfg w state).1
          ∧ GetSchedule ∈ trace s')
         ∨ (Downscale.statusCode response = 200
            ∧ reconcile_calls (trace s') = [[]; []]
            ∧ schedule s' = (disable_run cfg w (disable_run cfg w state).1).1)
         ∨ (Downscale.statusCode response = 200
            ∧ ∃ listing,
                describe_db_instances w = Return listing
                ∧ Downscale.lambda_readers_of listing = []
                ∧ reconcile_calls (trace s') = [listing; listing])).
Proof.
  pose proof (disable_run_queries cfg w state) as Hquery.
  unfold Downscale.invoke, Downscale.lambda_handler, Downscale.lambda_handler_try.
  steps.
  destruct (describe_db_clusters w) as [[|cluster ?]|e] eqn:Hcluster; steps.
  1, 3: right; exit_path; rewrite ?reconcile_run_nil;
        (split; [done|]); left; split_and!; try done; set_solver.
  destruct (_ <$> filter _ cluster) as [|reader readers] eqn:Hreaders; steps.
  { right. exit_path. split; [done|]. right. left. done. }
  destruct (get_metric_data w _) as [results|e] eqn:Hmetrics; steps.
  2: { right. exit_path. rewrite ?reconcile_run_nil.
       split; [done|]. left. split_and!; try done. set_solver. }
  destruct (Downscale.collect_cpu_values _ _ _) as [[|value values]|e] eqn:Hcollect; steps.
  { right. exit_path. split; [done|]. right. left. done. }
  2: { right. exit_path. rewrite ?reconcile_run_nil.
       split; [done|]. left. split_and!; try done. set_solver. }
  fold (mean (value :: values)).
  destruct (float_ge _ _) eqn:Hle; steps.
  { right. exit_path. split; [done|]. right. left. done. }
  assert (below_threshold cfg w) as Hidle.
  { exists cluster, l, results, (value :: values). unfold reader_members.
    rewrite Hreaders. split_and!; done. }
  destruct (describe_db_instances w) as [listing|e] eqn:Hlisting; steps.
  2: { right. exit_path. rewrite ?reconcile_run_nil.
       split; [done|]. left. split_and!; try done. set_solver. }
  destruct (Downscale.lambda_readers_of listing) as [|first rest] eqn:Hcandidates; steps.
  { right. exit_path. split; [done|]. right. right. split; [done|]. by exists listing. }
  destruct (latest_reader_of_cons first rest) as [latest Hlatest].
  left. exists listing, latest. split_and!; try done. by rewrite Hcandidates.
Qed.

End exits.

(** ** What the scale-down handler deletes *)

(** [X1] The handler requests at most one deletion per invocation, and
    only with an idle pool and of the instance that step 6 selects from
    the listing: one that carries the naming prefix, is available, reports
    a creation time that no other such instance exceeds, and passes the
    tag verification. *)
Theorem scale_down_deletion_is_guarded
    (cfg : Downscale.Config) (w : World) (state : option string)
    (response : Downscale.Response) (s' : State) (id : string) :
  Downscale.invoke cfg w state = (Return response, s') →
  id ∈ deletions (trace s') →
  deletions (trace s') = [id]
  ∧ Downscale.is_lambda_managed_instance w id = true
  ∧ below_threshold cfg w
  ∧ ∃ listing latest,
      describe_db_instances w = Return listing
      ∧ latest ∈ listing
      ∧ DBInstanceIdentifier latest = id
      ∧ String.prefix "lambda-aurora-reader" id = true
      ∧ DBInstanceStatus latest = "available"
      ∧ is_Some (InstanceCreateTime latest)
      ∧ ∀ inst, inst ∈ Downscale.lambda_readers_of listing →
          (default 0 (InstanceCreateTime inst) ≤ default 0 (InstanceCreateTime latest))%Z.
Proof.
  intros Hrun Hin.
  destruct (invoke_no_candidate cfg w state)
    as [(listing & latest & Hcandidate)|(response' & s'' & Hrun' & Hnone & _)].
  2: { rewrite Hrun in Hrun'. injection Hrun' as <- <-. rewrite Hnone in Hin.
       by apply elem_of_nil in Hin. }
  destruct (invoke_candidate cfg w state listing latest Hcandidate)
    as (response' & s'' & Hrun' & Hblocked & Hverified).
  rewrite Hrun in Hrun'. injection Hrun' as <- <-.
  destruct (Downscale.is_lambda_managed_instance w (DBInstanceIdentifier latest)) eqn:Hv.
  2: { destruct (Hblocked eq_refl) as (_ & Hnone & _). rewrite Hnone in Hin.
       by apply elem_of_nil in Hin. }
  destruct (Hverified eq_refl) as (Hdeleted & _). rewrite Hdeleted in Hin |- *.
  apply list_elem_of_singleton in Hin as ->.
  destruct Hcandidate as (Hidle & Hlisting & Hlatest).
  destruct (latest_reader_of_latest _ _ Hlatest) as [Hmember Hmax].
  pose proof Hmember as Hfilter. unfold Downscale.lambda_readers_of in Hfilter.
  apply list_elem_of_filter in Hfilter as [(? & ? & ?) ?].
  split_and!; try done. by exists listing, latest.
Qed.

(** [X2] The handler answers 403 exactly when the instance that step 6
    selects fails the tag verification; it then requests no deletion, of
    that instance or of an older one, and reconciles twice with the
    listing. *)
Theorem scale_down_blocks_on_latest_candidate
    (cfg : Downscale.Config) (w : World) (state : option string)
    (response : Downscale.Response) (s' : State) :
  Downscale.invoke cfg w state = (Return response, s') →
  (Downscale.statusCode response = 403 ↔
     ∃ listing latest,
       candidate cfg w listing latest
       ∧ Downscale.is_lambda_managed_instance w (DBInstanceIdentifier latest) = false)
  ∧ (Downscale.statusCode response = 403 →
     deletions (trace s') = []
     ∧ ∃ listing, describe_db_instances w = Return listing
                  ∧ reconcile_calls (trace s') = [listing; listing]).
Proof.
  intros Hrun.
  assert (Downscale.statusCode response = 403 →
          ∃ listing latest,
            candidate cfg w listing latest
            ∧ Downscale.is_lambda_managed_instance w (DBInstanceIdentifier latest) = false)
    as Hblocked.
  { intros Hcode.
    destruct (invoke_no_candidate cfg w state)
      as [(listing & latest & Hcandidate)|(response' & s'' & Hrun' & Hnone & Hexit)].
    - exists listing, latest. split; [done|].
      destruct (invoke_candidate cfg w state listing latest Hcandidate)
        as (response' & s'' & Hrun' & _ & Hverified).
      rewrite Hrun in Hrun'. injection Hrun' as <- <-.
      destruct (Downscale.is_lambda_managed_instance w (DBInstanceIdentifier latest));
        [|done].
      destruct (Hverified eq_refl) as (_ & _ & _ & _ & Hdone & Hfailed).
      destruct (delete_db_instance w (DBInstanceIdentifier latest)) as [[]|e].
      + by rewrite (Hdone eq_refl) in Hcode.
      + by rewrite (Hfailed e eq_refl) in Hcode.
    - rewrite Hrun in Hrun'. injection Hrun' as <- <-.
      destruct Hexit as [(Hcode' & _)|[(Hcode' & _)|(Hcode' & _)]]; congruence. }
  assert (∀ listing latest,
            candidate cfg w listing latest →
            Downscale.is_lambda_managed_instance w (DBInstanceIdentifier latest) = false →
            Downscale.statusCode response = 403
            ∧ deletions (trace s') = []
            ∧ reconcile_calls (trace s') = [listing; listing]) as Hforward.
  { intros listing latest Hcandidate Hv.
    destruct (invoke_candidate cfg w state listing latest Hcandidate)
      as (response' & s'' & Hrun' & Hresult & _).
    rewrite Hrun in Hrun'. injection Hrun' as <- <-.
    by destruct (Hresult Hv) as (-> & ? & ?). }
  split.
  - split; [done|]. intros (listing & latest & Hcandidate & Hv).
    by destruct (Hforward listing latest Hcandidate Hv).
  - intros (listing & latest & Hcandidate & Hv)%Hblocked.
    destruct (Hforward listing latest Hcandidate Hv) as (_ & ? & ?).
    split; [done|]. exists listing. split; [|done]. by destruct Hcandidate as (_ & ? & _).
Qed.

(** [X3] When a deletion was requested, the one reconciliation of the
    invocation is that of the [finally] block, with the listing taken
    before the deletion: the instance is in it as available and verified,
    so that the schedule is neither queried nor changed. *)
Theorem scale_down_deletion_leaves_schedule
    (cfg : Downscale.Config) (w : World) (state : option string)
    (response : Downscale.Response) (s' : State) :
  Downscale.invoke cfg w state = (Return response, s') →
  deletions (trace s') ≠ [] →
  schedule s' = state
  ∧ (GetSchedule ∉ trace s')
  ∧ ∃ listing, describe_db_instances w = Return listing
               ∧ reconcile_calls (trace s') = [listing].
Proof.
  intros Hrun Hdeleted.
  destruct (invoke_no_candidate cfg w state)
    as [(listing & latest & Hcandidate)|(response' & s'' & Hrun' & Hnone & _)].
  2: { rewrite Hrun in Hrun'. by injection Hrun' as <- <-. }
  destruct (invoke_candidate cfg w state listing latest Hcandidate)
    as (response' & s'' & Hrun' & Hblocked & Hverified).
  rewrite Hrun in Hrun'. injection Hrun' as <- <-.
  destruct (Downscale.is_lambda_managed_instance w (DBInstanceIdentifier latest)).
  2: { by destruct (Hblocked eq_refl) as (_ & ? & _). }
  destruct (Hverified eq_refl) as (_ & Hcalls & Hschedule & Hquiet & _).
  split_and!; try done. exists listing. split; [|done]. by destruct Hcandidate as (_ & ? & _).
Qed.

(** [X4] An error exit that requested no deletion (cluster lookup,
    metrics query, a metric id out of range, fleet listing) reconciles
    once, with the empty snapshot: the schedule is queried and, when it
    exists and the scheduler answers, left disabled. *)
Theorem scale_down_error_exit_disables
    (cfg : Downscale.Config) (w : World) (state : option string)
    (response : Downscale.Response) (s' : State) :
  Downscale.invoke cfg w state = (Return response, s') →
  Downscale.statusCode response = 500 →
  deletions (trace s') = [] →
  reconcile_calls (trace s') = [[]]
  ∧ GetSchedule ∈ trace s'
  ∧ (get_schedule_fault w = None → update_schedule_fault w = None → is_Some state →
     schedule s' = Some "DISABLED").
Proof.
  intros Hrun Hcode Hnone.
  destruct (invoke_no_candidate cfg w state)
    as [(listing & latest & Hcandidate)|(response' & s'' & Hrun' & _ & Hexit)].
  - destruct (invoke_candidate cfg w state listing latest Hcandidate)
      as (response' & s'' & Hrun' & Hblocked & Hverified).
    rewrite Hrun in Hrun'. injection Hrun' as <- <-.
    destruct (Downscale.is_lambda_managed_instance w (DBInstanceIdentifier latest)).
    + destruct (Hverified eq_refl) as (Hdeleted & _). congruence.
    + destruct (Hblocked eq_refl) as (-> & _). done.
  - rewrite Hrun in Hrun'. injection Hrun' as <- <-.
    destruct Hexit as [(_ & Hcalls & Hschedule & Hquery)|[(? & _)|(? & _)]]; try congruence.
    split_and!; try done. intros. rewrite Hschedule. by apply disable_run_works.
Qed.

Lemma collect_cpu_values_stray (readers : list string) (results : list MetricDataResult)
    (acc : list float) (result : MetricDataResult) :
  result ∈ results → Values result ≠ [] → (length readers ≤ Id result)%nat →
  Downscale.collect_cpu_values readers results acc
  = Raise (Exception "list index out of range").
Proof.
  intros Hin Hvalues Hid. revert acc.
  induction results as [|first results IH]; intros acc; [by apply elem_of_nil in Hin|].
  simpl. apply elem_of_cons in Hin as [<-|Hin].
  - destruct (Values result); [done|].
    by rewrite (lookup_ge_None_2 readers (Id result)).
  - destruct (Values first); [by apply IH|].
    destruct (readers !! Id first); [by apply IH|done].
Qed.

(** [X5] A telemetry result that carries samples under an id that names
    none of the readers queried makes the handler give up with the
    internal-error result: nothing is deleted, and the one reconciliation
    is that of the [finally] block, with the empty snapshot. *)
Theorem scale_down_stray_metric_id
    (cfg : Downscale.Config) (w : World) (state : option string)
    (cluster : list DBClusterMember) (others : list (list DBClusterMember))
    (results : list MetricDataResult) (result : MetricDataResult) :
  describe_db_clusters w = Return (cluster :: others) →
  reader_members cluster ≠ [] →
  get_metric_data w (reader_members cluster) = Return results →
  result ∈ results → Values result ≠ [] →
  (length (reader_members cluster) ≤ Id result)%nat →
  ∃ s',
    Downscale.invoke cfg w state
    = (Return (Downscale.response 500
                 "Unexpected error in lambda_handler: list index out of range"), s')
    ∧ deletions (trace s') = []
    ∧ reconcile_calls (trace s') = [[]].
Proof.
  intros Hcluster Hreaders Hmetrics Hin Hvalues Hid.
  pose proof (collect_cpu_values_stray _ _ [] _ Hin Hvalues Hid) as Hcollect.
  unfold Downscale.invoke, Downscale.lambda_handler, Downscale.lambda_handler_try.
  steps. rewrite Hcluster. steps. unfold reader_members in *.
  destruct (_ <$> filter _ cluster) as [|reader readers]; [done|]. steps.
  rewrite Hmetrics. steps. rewrite Hcollect. steps.
  eexists. split; [reflexivity|]. cbn [trace]. calls. done.
Qed.

Ltac concrete_run Hrun :=
  match goal with
  | |- context [Downscale.invoke ?cfg ?w ?state] =>
      let response := fresh "response" in
      let e := fresh "e" in
      let s' := fresh "s'" in
      let Hvalue := fresh in
      destruct (Downscale.invoke cfg w state) as [[response|e] s'] eqn:Hrun;
      [pose proof Hrun as Hvalue; vm_compute in Hvalue; injection Hvalue as <- <-
      |vm_compute in Hrun; discriminate]
  end.

Lemma scale_down_deletes_newer_reader :
  deletions (trace (Downscale.invoke (Cases.threshold Cases.tenth) Cases.on_the_threshold
                      (Some "ENABLED")).2)
  = [Cases.newer_reader]
  ∧ Downscale.is_lambda_managed_instance Cases.on_the_threshold Cases.newer_reader = true.
Proof.
  concrete_run Hrun.
  destruct (scale_down_deletion_is_guarded _ _ _ _ _ Cases.newer_reader Hrun)
    as (Hdeleted & Hverified & _).
  - apply list_elem_of_In. left. reflexivity.
  - split; [exact Hdeleted | exact Hverified].
Defined.

Lemma scale_down_blocked_by_newer_reader :
  Downscale.is_lambda_managed_instance Cases.on_the_threshold_untagged Scenario.older_reader
  = true
  ∧ ∃ response s',
      Downscale.invoke (Cases.threshold Cases.tenth) Cases.on_the_threshold_untagged
        (Some "ENABLED") = (Return response, s')
      ∧ Downscale.statusCode response = 403
      ∧ deletions (trace s') = [].
Proof.
  split; [vm_compute; reflexivity|].
  concrete_run Hrun.
  eexists _, _. split; [reflexivity|]. split; [reflexivity|].
  exact (proj1 (proj2 (scale_down_blocks_on_latest_candidate _ _ _ _ _ Hrun) eq_refl)).
Defined.

Lemma scale_down_keeps_schedule_on_deletion :
  schedule (Downscale.invoke Scenario.down Cases.idle_pool (Some "ENABLED")).2
  = Some "ENABLED".
Proof.
  concrete_run Hrun.
  refine (proj1 (scale_down_deletion_leaves_schedule _ _ _ _ _ Hrun _)).
  discriminate.
Defined.

Lemma scale_down_disables_when_metrics_fail :
  schedule (Downscale.invoke Scenario.down Cases.metrics_down (Some "ENABLED")).2
  = Some "DISABLED".
Proof.
  concrete_run Hrun.
  refine (proj2 (proj2 (scale_down_error_exit_disables _ _ _ _ _ Hrun eq_refl eq_refl))
            eq_refl eq_refl _).
  by eexists.
Defined.

Lemma scale_down_gives_up_on_stray_id :
  ∃ s',
    Downscale.invoke Scenario.down Cases.stray_metric_id (Some "ENABLED")
    = (Return (Downscale.response 500
                 "Unexpected error in lambda_handler: list index out of range"), s')
    ∧ deletions (trace s') = []
    ∧ reconcile_calls (trace s') = [[]].
Proof.
  eapply (scale_down_stray_metric_id Scenario.down Cases.stray_metric_id (Some "ENABLED")
            _ _ _ {| Id := 7; Values := [float_of_int 1] |}).
  - reflexivity.
  - vm_compute. discriminate.
  - reflexivity.
  - apply list_elem_of_In. left. reflexivity.
  - discriminate.
  - vm_compute. lia.
Defined.

(** ** Tags and the verifier *)

Lemma tags_dict_snoc (tag_list : list (string * string)) (tag : string * string) :
  Downscale.tags_dict (tag_list ++ [tag]) = <[tag.1 := tag.2]> (Downscale.tags_dict tag_list).
Proof. unfold Downscale.tags_dict. by rewrite foldl_snoc. Qed.

(** A key that is listed more than once has the value of its last entry. *)
Lemma tags_dict_last (tag_list : list (string * string)) (key : string) :
  Downscale.tags_dict tag_list !! key
  = snd <$> last (filter (λ tag, tag.1 = key) tag_list).
Proof.
  induction tag_list as [|tag tag_list IH] using rev_ind; [done|].
  rewrite tags_dict_snoc, filter_app, filter_cons, filter_nil.
  destruct (decide (tag.1 = key)) as [<-|Hne].
  - by rewrite lookup_insert_eq, last_snoc.
  - by rewrite lookup_insert_ne, app_nil_r.
Qed.

Lemma tags_dict_distinct (tag_list : list (string * string)) (key value : string) :
  NoDup tag_list.*1 →
  Downscale.tags_dict tag_list !! key = Some value ↔ (key, value) ∈ tag_list.
Proof.
  induction tag_list as [|[k v] tag_list IH] using rev_ind; intros Hdistinct.
  - rewrite elem_of_nil. by split.
  - rewrite fmap_app in Hdistinct. apply NoDup_app in Hdistinct as (Hrest & Hfresh & _).
    rewrite tags_dict_snoc, elem_of_app, list_elem_of_singleton. simpl.
    destruct (decide (k = key)) as [->|Hne].
    + rewrite lookup_insert_eq. split.
      * intros [= ->]. by right.
      * intros [Hin|[= ->]]; [|done]. destruct (Hfresh key).
        -- apply list_elem_of_fmap. by exists (key, value).
        -- simpl. set_solver.
    + rewrite lookup_insert_ne by done. rewrite IH by done. naive_solver.
Qed.

(** [X6] Of the tags of an instance only those under the two required
    keys count for the verification, and of several entries under one key
    the last listed: the verifier accepts exactly when, for each required
    key, the last tag under that key has the required value. *)
Theorem verifier_reads_last_required_tags
    (w : World) (id arn : string) (others : list string)
    (tag_list : list (string * string)) :
  describe_db_instance w id = Return (arn :: others) →
  list_tags_for_resource w arn = Return tag_list →
  Downscale.is_lambda_managed_instance w id = true ↔
    ∀ key value, (key, value) ∈ Downscale.REQUIRED_TAGS_FOR_DELETION →
      snd <$> last (filter (λ tag, tag.1 = key) tag_list) = Some value.
Proof.
  intros Hfound Htags. rewrite is_lambda_managed_instance_true. split.
  - intros (arn' & others' & tag_list' & Hfound' & Htags' & Hall) key value Hin.
    assert (arn' = arn) as -> by congruence.
    assert (tag_list' = tag_list) as -> by congruence.
    rewrite <- tags_dict_last. by apply Hall.
  - intros Hall. exists arn, others, tag_list. split_and!; try done.
    intros key value Hin. rewrite tags_dict_last. by apply Hall.
Qed.

(** [X7] An instance that still carries, under distinct keys, the tags
    with which the scale-up handler creates its readers passes the
    verification of the scale-down handler, whatever the descriptive
    values and whatever other tags it has. *)
Theorem created_reader_is_verified
    (w : World) (id arn : string) (others : list string)
    (tag_list : list (string * string))
    (created_at instance_type availability_zone cluster_identifier : string) :
  describe_db_instance w id = Return (arn :: others) →
  list_tags_for_resource w arn = Return tag_list →
  NoDup tag_list.*1 →
  reader_tags created_at instance_type availability_zone cluster_identifier ⊆ tag_list →
  Downscale.is_lambda_managed_instance w id = true.
Proof.
  intros Hfound Htags Hdistinct Hcontains. rewrite is_lambda_managed_instance_true.
  exists arn, others, tag_list. split_and!; try done.
  intros key value Hin. apply tags_dict_distinct; [done|]. apply Hcontains.
  unfold reader_tags. apply elem_of_app. left.
  apply list_elem_of_In in Hin. simpl in Hin.
  destruct Hin as [[= <- <-]|[[= <- <-]|[]]]; set_solver.
Qed.

Lemma verifier_takes_last_duplicate :
  let w := Cases.account Cases.members Cases.fleet Cases.idle
             (λ _, Return [("ManagedBy", "aurora-autoscaler"); ("AutoScaler", "lambda-managed");
                           ("Owner", "dba"); ("ManagedBy", "terraform")])
             Scenario.nowhere Cases.created in
  Downscale.is_lambda_managed_instance w Cases.newer_reader = false.
Proof.
  intros w. apply not_true_is_false.
  rewrite (verifier_reads_last_required_tags w Cases.newer_reader _ _ _ eq_refl eq_refl).
  intros Hall. specialize (Hall "ManagedBy" "aurora-autoscaler").
  vm_compute in Hall. discriminate Hall. left.
Defined.

Lemma created_reader_passes :
  Downscale.is_lambda_managed_instance
    (Cases.account Cases.members Cases.fleet Cases.idle
       (λ _, Return (("Team", "data") ::
                     reader_tags "2025-07-15 09:00:00 UTC" "r6i.32xlarge" "c" "aurora-cluster"))
       Scenario.nowhere Cases.created)
    Cases.newer_reader = true.
Proof.
  eapply (created_reader_is_verified _ _ _ _ _ "2025-07-15 09:00:00 UTC" "r6i.32xlarge" "c"
            "aurora-cluster").
  - reflexivity.
  - reflexivity.
  - vm_compute. repeat constructor; set_solver.
  - set_solver.
Defined.

(** ** The choice among candidates *)

Lemma last_filter_keeps {A : Type} (P : A → Prop) `{!∀ x, Decision (P x)}
    (l : list A) (x : A) :
  last l = Some x → P x → last (filter P l) = Some x.
Proof.
  intros [l' ->]%last_Some HP.
  rewrite filter_app, filter_cons, filter_nil, decide_True by done.
  apply last_snoc.
Qed.

(** [X8] Among the instances of the latest creation time the handler
    selects the one that the listing holds last; it selects none only
    from an empty list of candidates. *)
Theorem latest_reader_is_last_listed (lambda_readers : list DBInstance) :
  (∀ latest,
     Downscale.latest_reader_of lambda_readers = Some latest →
     last (filter (λ inst, default 0%Z (InstanceCreateTime inst)
                           = default 0%Z (InstanceCreateTime latest)) lambda_readers)
     = Some latest
     ∧ ∀ inst, inst ∈ lambda_readers →
         (default 0 (InstanceCreateTime inst) ≤ default 0 (InstanceCreateTime latest))%Z)
  ∧ (Downscale.latest_reader_of lambda_readers = None ↔ lambda_readers = []).
Proof.
  split.
  - intros latest Hlatest. split; [|by apply latest_reader_of_latest].
    unfold Downscale.latest_reader_of in Hlatest.
    rewrite <- (sorted_stable (λ x, default 0%Z (InstanceCreateTime x))).
    by apply last_filter_keeps.
  - split; [|by intros ->].
    destruct lambda_readers as [|inst rest]; [done|].
    intros Hnone. destruct (latest_reader_of_cons inst rest) as [? ?]. congruence.
Qed.

Lemma latest_reader_of_equal_times :
  let first := Scenario.instance "lambda-aurora-reader-a" "available" (Some 5%Z) "a" false in
  let second := Scenario.instance "lambda-aurora-reader-b" "available" (Some 5%Z) "b" false in
  let third := Scenario.instance "lambda-aurora-reader-c" "available" (Some 3%Z) "c" false in
  last (filter (λ inst, default 0%Z (InstanceCreateTime inst) = 5%Z) [first; second; third])
  = Some second.
Proof.
  intros first second third.
  exact (proj1 (proj1 (latest_reader_is_last_listed [first; second; third]) second eq_refl)).
Defined.

(** ** The scheduler calls *)

(** [X9] Reconciliation returns normally whatever the scheduler does.  It
    changes the schedule only to disable one that exists; a failing query
    or update leaves the schedule as it was; a missing schedule is met
    with one WARNING entry and no notification, any other failure with an
    ERROR entry. *)
Theorem reconciliation_absorbs_scheduler_failures
    (cfg : Downscale.Config) (w : World) (snapshot : list DBInstance) (s : State) :
  let ran := Downscale.check_and_disable_eventbridge cfg w snapshot s in
  let traced := drop (length (trace s)) (trace ran.2) in
  ran.1 = Return tt
  ∧ instances ran.2 = instances s
  ∧ (schedule ran.2 = schedule s
     ∨ is_Some (schedule s) ∧ schedule ran.2 = Some "DISABLED")
  ∧ (is_Some (get_schedule_fault w) ∨ is_Some (update_schedule_fault w) →
     schedule ran.2 = schedule s)
  ∧ (verified_owned w snapshot = [] → get_schedule_fault w = None → schedule s = None →
     traced = [Reconcile snapshot; GetSchedule;
               Log WARNING ("EventBridge schedule '" +:+ EVENTBRIDGE_SCHEDULE_NAME +:+
                            "' not found. It may have been deleted manually.")])
  ∧ (verified_owned w snapshot = [] →
     ∀ e, get_schedule_fault w = Some e → isinstance_ResourceNotFoundException e = false →
       Log ERROR ("Failed to disable EventBridge schedule '" +:+ EVENTBRIDGE_SCHEDULE_NAME
                  +:+ "': " +:+ str e) ∈ traced).
Proof.
  intros ran traced. subst traced ran. rewrite check_and_disable_eventbridge_run.
  cbn [fst snd schedule trace instances]. rewrite drop_app_length.
  unfold reconcile_run, disable_run, disable_failed_events.
  destruct (verified_owned w snapshot) as [|owned ?]; simpl.
  2: { split_and!; try done; by left. }
  destruct (get_schedule_fault w) as [e|] eqn:Hget; simpl.
  { split_and!; try done; [by left|].
    intros _ e' [= <-] ->. set_solver. }
  destruct (schedule s) as [current_state|] eqn:Hschedule; simpl.
  2: { split_and!; try done. by left. }
  destruct (String.eqb current_state "DISABLED"); simpl.
  { split_and!; try done; by left. }
  destruct (update_schedule_fault w) as [e|] eqn:Hupdate; simpl.
  - split_and!; try done; by left.
  - split_and!; try done.
    + right. split; [by eexists|done].
    + intros [[? [=]]|[? [=]]].
Qed.

Lemma reconciliation_without_schedule :
  trace (Downscale.check_and_disable_eventbridge Scenario.down Scenario.no_readers []
           {| schedule := None; trace := []; instances := [] |}).2
  = [Reconcile []; GetSchedule;
     Log WARNING ("EventBridge schedule '" +:+ EVENTBRIDGE_SCHEDULE_NAME +:+
                  "' not found. It may have been deleted manually.")].
Proof.
  exact (proj1 (proj2 (proj2 (proj2 (proj2
           (reconciliation_absorbs_scheduler_failures Scenario.down Scenario.no_readers []
              {| schedule := None; trace := []; instances := [] |})))))
           eq_refl eq_refl eq_refl).
Defined.

(** [X10] With a schedule that exists and a scheduler that answers, each
    of the two rules overrides the other: enabling after a reconciliation
    that found nothing owned leaves the schedule enabled, and such a
    reconciliation after enabling leaves it disabled.  Without a schedule
    the enabling rule changes nothing and logs the error. *)
Theorem enabling_and_disabling_compose
    (cfg : Downscale.Config) (cfg_up : AutoscaleUp.Config) (w : World)
    (snapshot : list DBInstance) (s : State) :
  get_schedule_fault w = None → update_schedule_fault w = None →
  verified_owned w snapshot = [] →
  let disable := Downscale.check_and_disable_eventbridge cfg w snapshot in
  let enable := AutoscaleUp.enable_eventbridge_rule cfg_up w in
  (is_Some (schedule s) →
   schedule (enable (disable s).2).2 = Some "ENABLED"
   ∧ schedule (disable (enable s).2).2 = Some "DISABLED")
  ∧ (schedule s = None →
     enable s = (Return tt,
                 add_events s [GetSchedule;
                               Log ERROR ("Failed to enable EventBridge Scheduler: " +:+
                                          str ResourceNotFoundException)])).
Proof.
  intros Hget Hupdate Hnone disable enable. subst disable enable.
  rewrite !check_and_disable_eventbridge_run, !enable_eventbridge_rule_run.
  cbn [fst snd schedule trace instances].
  unfold reconcile_run, disable_run, AutoscaleUpRun.enable_run. rewrite Hnone, Hget, Hupdate.
  split.
  - intros [current_state ->].
    destruct (String.eqb current_state "DISABLED") eqn:Hdisabled;
      destruct (String.eqb current_state "ENABLED") eqn:Henabled;
      simpl; rewrite ?Hdisabled, ?Henabled; simpl; try done.
    apply String.eqb_eq in Hdisabled, Henabled. congruence.
  - intros Hmissing. rewrite Hmissing. unfold add_events. by rewrite Hmissing.
Qed.

Lemma enabling_and_disabling_on_scenario :
  schedule (AutoscaleUp.enable_eventbridge_rule (Scenario.up ["a"] [])
              Scenario.no_readers
              (Downscale.check_and_disable_eventbridge Scenario.down Scenario.no_readers []
                 (Scenario.fresh "ENABLED")).2).2 = Some "ENABLED".
Proof.
  refine (proj1 (proj1 (enabling_and_disabling_compose Scenario.down (Scenario.up ["a"] [])
                          Scenario.no_readers [] (Scenario.fresh "ENABLED")
                          eq_refl eq_refl eq_refl) _)).
  by eexists.
Defined.

(** ** The distribution analyzer *)

Lemma readers_per_az_get (cfg : AutoscaleUp.Config) (fleet : list DBInstance)
    (d : dict nat) (zone : string) :
  dict_contains (foldl (AutoscaleUp.count_reader cfg) d fleet) zone = dict_contains d zone.
Proof.
  apply eq_true_iff_eq. unfold is_true.
  by rewrite !dict_contains_keys, readers_per_az_keys.
Qed.

(** [X11] With distinct configured zones the analyzer returns, and leaves
    the state alone; its result has the configured zones as keys, in
    their order, and under each the number of listed instances of the
    cluster in that zone that are no writer and whose status is neither
    "deleting" nor, as the source spells it, "insufficient activity";
    other zones are no keys. *)
Theorem readers_per_az_is_the_count
    (cfg : AutoscaleUp.Config) (w : World) (s : State) (fleet : list DBInstance) :
  describe_db_instances w = Return fleet →
  NoDup (AutoscaleUp.AVAILABILITY_ZONES cfg) →
  ∃ readers_per_az,
    AutoscaleUp.get_aurora_readers_per_az cfg w s = (Return readers_per_az, s)
    ∧ dict_keys readers_per_az = AutoscaleUp.AVAILABILITY_ZONES cfg
    ∧ ∀ zone,
        dict_get readers_per_az zone
        = if decide (zone ∈ AutoscaleUp.AVAILABILITY_ZONES cfg)
          then Some (length (filter (counted cfg zone) fleet))
          else None.
Proof.
  intros Hfleet Hdistinct. eexists. split; [by apply get_aurora_readers_per_az_run|].
  split; [by rewrite readers_per_az_keys, dict_fromkeys_keys|].
  intros zone.
  pose proof (readers_per_az_get cfg fleet
                (dict_fromkeys (AutoscaleUp.AVAILABILITY_ZONES cfg) 0) zone) as Hcontains.
  pose proof (readers_per_az_counts cfg fleet
                (dict_fromkeys (AutoscaleUp.AVAILABILITY_ZONES cfg) 0) zone) as Hcount.
  unfold dict_contains in Hcontains, Hcount. rewrite dict_fromkeys_get in Hcontains, Hcount.
  destruct (decide (zone ∈ AutoscaleUp.AVAILABILITY_ZONES cfg)).
  - destruct (dict_get _ zone) as [n|]; [|done]. simpl in Hcount. by rewrite Hcount.
  - by destruct (dict_get _ zone).
Qed.

Lemma readers_per_az_of_two_none_one :
  ∃ readers_per_az,
    AutoscaleUp.get_aurora_readers_per_az (Scenario.up ["a"; "b"; "c"] [])
      Scenario.two_none_one (Scenario.fresh "ENABLED")
    = (Return readers_per_az, Scenario.fresh "ENABLED")
    ∧ dict_get readers_per_az "a" = Some 2
    ∧ dict_get readers_per_az "d" = None.
Proof.
  destruct (readers_per_az_is_the_count (Scenario.up ["a"; "b"; "c"] [])
              Scenario.two_none_one (Scenario.fresh "ENABLED") _ eq_refl)
    as (readers_per_az & Hrun & _ & Hget).
  - vm_compute. repeat constructor; set_solver.
  - exists readers_per_az. split; [exact Hrun|]. split; rewrite Hget; vm_compute; reflexivity.
Defined.

(** [X12] When the fleet cannot be listed the analyzer logs the error and
    raises it again, and the handler turns it into the internal-error
    result: nothing is probed or created, and the schedule is left
    alone. *)
Theorem scale_up_listing_failure_is_fatal
    (cfg : AutoscaleUp.Config) (w : World) (s : State) (e : exn) :
  describe_db_instances w = Raise e →
  AutoscaleUp.get_aurora_readers_per_az cfg w s
  = (Raise e, add_events s [Log ERROR ("Error getting Aurora readers: " +:+ str e)])
  ∧ ∃ s',
      AutoscaleUp.lambda_handler cfg w s
      = (Return (AutoscaleUp.error ("Unexpected error in Aurora AutoScaler: " +:+ str e)), s')
      ∧ schedule s' = schedule s
      ∧ ∀ ev, ev ∈ drop (length (trace s)) (trace s') →
          match ev with
          | Log ERROR _ | Publish _ => True
          | _ => False
          end.
Proof.
  intros Hfleet.
  assert (AutoscaleUp.get_aurora_readers_per_az cfg w s
          = (Raise e, add_events s [Log ERROR ("Error getting Aurora readers: " +:+ str e)]))
    as Hrun.
  { unfold AutoscaleUp.get_aurora_readers_per_az. run. by rewrite Hfleet. }
  split; [done|].
  unfold AutoscaleUp.lambda_handler. run. rewrite Hrun. run.
  rewrite scaleup_notify_run. run.
  eexists. split; [reflexivity|]. split; [done|]. cbn [trace].
  rewrite <- !app_assoc, drop_app_length. cbn [app].
  intros ev Hin. repeat (apply elem_of_cons in Hin as [->|Hin]; [done|]).
  unfold AutoscaleUpRun.notify_events in Hin.
  destruct (_ || _); [by apply elem_of_nil in Hin|].
  apply elem_of_cons in Hin as [->|Hin]; [done|].
  destruct (publish w _); [by apply elem_of_nil in Hin|].
  by apply list_elem_of_singleton in Hin as ->.
Qed.

Lemma scale_up_gives_up_without_listing :
  ∃ s',
    AutoscaleUp.lambda_handler (Scenario.up ["a"; "b"; "c"] []) Cases.listing_down
      (Scenario.fresh "DISABLED")
    = (Return (AutoscaleUp.error
                 ("Unexpected error in Aurora AutoScaler: "
                  +:+ str (ClientError "AccessDenied" "DescribeDBInstances"
                             "Not authorized."))), s')
    ∧ schedule s' = Some "DISABLED".
Proof.
  destruct (proj2 (scale_up_listing_failure_is_fatal (Scenario.up ["a"; "b"; "c"] [])
                     Cases.listing_down (Scenario.fresh "DISABLED") _ eq_refl))
    as (s' & Hrun & Hschedule & _).
  by exists s'.
Defined.

(** ** The release of the trial reservation *)

(** [X13] The probe asks for the release of every reservation that it
    obtains, at once, and for no other; when the release fails with a
    ClientError it answers [false], although the reservation was
    granted. *)
Theorem check_capacity_releases_what_it_reserves
    (w : World) (instance_type availability_zone : string) (s : State) :
  let ran := AutoscaleUp.check_capacity w instance_type availability_zone s in
  let traced := drop (length (trace s)) (trace ran.2) in
  schedule ran.2 = schedule s
  ∧ (∀ reservation_id,
       create_capacity_reservation w instance_type availability_zone = Return reservation_id →
       ∃ logged,
         traced = CreateCapacityReservation instance_type availability_zone
                  :: CancelCapacityReservation reservation_id :: logged
         ∧ (∀ id, CancelCapacityReservation id ∉ logged)
         ∧ (∀ e, cancel_capacity_reservation w reservation_id = Raise e →
                 isinstance_ClientError e = true → ran.1 = Return false))
  ∧ (∀ e,
       create_capacity_reservation w instance_type availability_zone = Raise e →
       ∀ id, CancelCapacityReservation id ∉ traced).
Proof.
  intros ran traced. subst traced ran.
  unfold AutoscaleUp.check_capacity. destruct s as [state t insts]. run.
  destruct (create_capacity_reservation w instance_type availability_zone)
    as [reservation_id|e]; run.
  - destruct (cancel_capacity_reservation w reservation_id) as [[]|e] eqn:Hcancel; run.
    + rewrite <- !app_assoc, drop_app_length. cbn [app].
      split_and!; try done. intros ? [= <-]. exists []. split_and!; try done; [set_solver|].
      intros; congruence.
    + destruct (isinstance_ClientError e) eqn:He; [destruct (contains _ _)|]; run;
        rewrite <- ?app_assoc, drop_app_length; cbn [app];
        (split_and!; try done); intros ? [= <-]; eexists; (split; [reflexivity|]);
        split; try set_solver; intros; congruence.
  - destruct (isinstance_ClientError e) eqn:He; [destruct (contains _ _)|]; run;
      rewrite <- ?app_assoc, ?drop_app_length; cbn [app];
      split_and!; try done; intros; set_solver.
Qed.

Lemma probe_fails_when_release_is_denied :
  (AutoscaleUp.check_capacity Cases.release_denied "r6i.32xlarge" "a"
     (Scenario.fresh "DISABLED")).1 = Return false.
Proof.
  destruct (proj1 (proj2 (check_capacity_releases_what_it_reserves Cases.release_denied
                            "r6i.32xlarge" "a" (Scenario.fresh "DISABLED")))
              _ eq_refl) as (logged & _ & _ & Hfalse).
  exact (Hfalse _ eq_refl eq_refl).
Defined.

(** ** What the handlers never do *)

Section keeps.
Context (allowed : Event → Prop) (target : string).

Lemma toward_refl (state : option string) : toward target state state.
Proof. by left. Qed.

Lemma toward_trans (a b c : option string) :
  toward target a b → toward target b c → toward target a c.
Proof.
  unfold toward. intros [->|[Ha ->]] [->|[Hb ->]]; auto.
Qed.

Lemma extends_refl (s : State) : extends allowed target s s.
Proof. split; [exists []; by rewrite app_nil_r|apply toward_refl]. Qed.

Lemma extends_trans (s1 s2 s3 : State) :
  extends allowed target s1 s2 → extends allowed target s2 s3 →
  extends allowed target s1 s3.
Proof.
  intros [(evs1 & Ht1 & Hp1) Hq1] [(evs2 & Ht2 & Hp2) Hq2]. split.
  - exists (evs1 ++ evs2). rewrite Ht2, Ht1, <- app_assoc. split; [done|].
    by apply Forall_app.
  - by eapply toward_trans.
Qed.

Lemma keeps_ret {A : Type} (a : A) : keeps allowed target (mret a : M A).
Proof. intros s. apply extends_refl. Qed.

Lemma keeps_raise {A : Type} (e : exn) : keeps allowed target (raise e : M A).
Proof. intros s. apply extends_refl. Qed.

Lemma keeps_call {A : Type} (answer : outcome A) : keeps allowed target (call answer).
Proof. intros s. apply extends_refl. Qed.

Lemma keeps_get_instances : keeps allowed target get_instances.
Proof. intros s. apply extends_refl. Qed.

Lemma keeps_set_instances (l : list DBInstance) : keeps allowed target (set_instances l).
Proof. intros s. split; [exists []; simpl; by rewrite app_nil_r|apply toward_refl]. Qed.

Lemma keeps_emit (ev : Event) : allowed ev → keeps allowed target (emit ev).
Proof.
  intros Hev s. split; [|apply toward_refl].
  exists [ev]. split; [done|]. by constructor.
Qed.

Lemma keeps_log (level : Level) (message : string) :
  allowed (Log level message) → keeps allowed target (log level message).
Proof. apply keeps_emit. Qed.

Lemma keeps_bind_post {A B : Type} (m : M A) (f : A → M B) (post : A → Prop) :
  keeps allowed target m →
  (∀ s a, (m s).1 = Return a → post a) →
  (∀ a, post a → keeps allowed target (f a)) →
  keeps allowed target (m ≫= f).
Proof.
  intros Hm Hpost Hf s. specialize (Hm s). specialize (Hpost s).
  unfold mbind, M_bind. destruct (m s) as [[a|e] s1]; simpl in *; [|done].
  eapply extends_trans; [exact Hm|]. by apply Hf, Hpost.
Qed.

Lemma keeps_bind {A B : Type} (m : M A) (f : A → M B) :
  keeps allowed target m → (∀ a, keeps allowed target (f a)) →
  keeps allowed target (m ≫= f).
Proof. intros Hm Hf. apply (keeps_bind_post m f (λ _, True)); auto. Qed.

Lemma keeps_try_except {A : Type} (body : M A) (catches : exn → bool)
    (handler : exn → M A) :
  keeps allowed target body → (∀ e, keeps allowed target (handler e)) →
  keeps allowed target (try_except body catches handler).
Proof.
  intros Hbody Hhandler s. specialize (Hbody s). unfold try_except.
  destruct (body s) as [[a|e] s1]; simpl in *; [done|].
  destruct (catches e); [|done].
  eapply extends_trans; [exact Hbody|]. apply Hhandler.
Qed.

Lemma keeps_try_finally {A : Type} (body : M A) (final : M unit) :
  keeps allowed target body → keeps allowed target final →
  keeps allowed target (try_finally body final).
Proof.
  intros Hbody Hfinal s. specialize (Hbody s). unfold try_finally.
  destruct (body s) as [r s1]; simpl in *. specialize (Hfinal s1).
  destruct (final s1) as [[[]|e] s2]; simpl in *; by eapply extends_trans.
Qed.

Lemma keeps_for_each {A R : Type} (l : list A) (body : A → M (option R)) :
  (∀ x, keeps allowed target (body x)) → keeps allowed target (for_each l body).
Proof.
  intros Hbody. induction l as [|x l IH]; simpl; [apply keeps_ret|].
  apply keeps_bind; [done|]. intros [v|]; [apply keeps_ret | done].
Qed.

Lemma keeps_get_schedule (w : World) :
  allowed GetSchedule → keeps allowed target (get_schedule w).
Proof.
  intros Hev. unfold get_schedule. apply keeps_bind; [by apply keeps_emit|]. intros _.
  destruct (get_schedule_fault w); [apply keeps_raise|].
  intros s. destruct (schedule s); apply extends_refl.
Qed.

Lemma keeps_update_schedule (w : World) :
  allowed (UpdateSchedule target) → keeps allowed target (update_schedule w target).
Proof.
  intros Hev. unfold update_schedule. apply keeps_bind; [by apply keeps_emit|]. intros _.
  destruct (update_schedule_fault w); [apply keeps_raise|].
  intros s. destruct (schedule s) as [current|] eqn:Hs; [|apply extends_refl].
  split; [exists []; simpl; by rewrite app_nil_r|].
  right. simpl. rewrite Hs. split; [by eexists|done].
Qed.

End keeps.

Ltac keeps_step :=
  lazymatch goal with
  | |- keeps _ _ (mbind _ _) => apply keeps_bind; [|intros ?]
  | |- keeps _ _ (mret _) => apply keeps_ret
  | |- keeps _ _ (try_except _ _ _) => apply keeps_try_except; [|intros ?]
  | |- keeps _ _ (try_finally _ _) => apply keeps_try_finally
  | |- keeps _ _ (for_each _ _) => apply keeps_for_each; intros ?
  | |- keeps _ _ (call _) => apply keeps_call
  | |- keeps _ _ (raise _) => apply keeps_raise
  | |- keeps _ _ (emit _) => apply keeps_emit; try done
  | |- keeps _ _ (log _ _) => apply keeps_log; try done
  | |- keeps _ _ get_instances => apply keeps_get_instances
  | |- keeps _ _ (set_instances _) => apply keeps_set_instances
  | |- keeps _ _ (get_schedule _) => apply keeps_get_schedule; try done
  | |- keeps _ _ (update_schedule _ _) => apply keeps_update_schedule; try done
  | |- keeps _ _ (match ?x with _ => _ end) => destruct x
  | |- keeps _ _ (let _ := _ in _) => cbv zeta
  end.

Section scale_down_keeps.
Context (cfg : Downscale.Config) (w : World).

Lemma notify_keeps (subject : string) :
  keeps scale_down_event "DISABLED" (Downscale.notify cfg w subject).
Proof. unfold Downscale.notify. repeat keeps_step. Qed.

Lemma check_and_disable_eventbridge_keeps (snapshot : list DBInstance) :
  keeps scale_down_event "DISABLED" (Downscale.check_and_disable_eventbridge cfg w snapshot).
Proof.
  unfold Downscale.check_and_disable_eventbridge.
  repeat first [apply notify_keeps | keeps_step].
Qed.

Lemma lambda_handler_keeps : keeps scale_down_event "DISABLED" (Downscale.lambda_handler cfg w).
Proof.
  unfold Downscale.lambda_handler, Downscale.lambda_handler_try.
  repeat first [apply notify_keeps | apply check_and_disable_eventbridge_keeps | keeps_step].
Qed.

End scale_down_keeps.

Lemma prefix_app (p rest : string) : String.prefix p (p +:+ rest) = true.
Proof.
  induction p as [|c p IH]; simpl; [by destruct rest|].
  destruct (Ascii.ascii_dec c c); [done|congruence].
Qed.

Section scale_up_keeps.
Context (cfg : AutoscaleUp.Config) (w : World).

Lemma scaleup_notify_keeps (subject : string) :
  keeps scale_up_event "ENABLED" (AutoscaleUp.notify cfg w subject).
Proof. unfold AutoscaleUp.notify. repeat keeps_step. Qed.

Lemma enable_eventbridge_rule_keeps :
  keeps scale_up_event "ENABLED" (AutoscaleUp.enable_eventbridge_rule cfg w).
Proof.
  unfold AutoscaleUp.enable_eventbridge_rule.
  repeat first [apply scaleup_notify_keeps | keeps_step].
Qed.

Lemma check_capacity_keeps (instance_type az : string) :
  keeps scale_up_event "ENABLED" (AutoscaleUp.check_capacity w instance_type az).
Proof. unfold AutoscaleUp.check_capacity. repeat keeps_step. Qed.

Lemma create_reader_instance_keeps (instance_type az : string) :
  keeps scale_up_event "ENABLED" (AutoscaleUp.create_reader_instance cfg w instance_type az).
Proof.
  unfold AutoscaleUp.create_reader_instance.
  apply (keeps_bind_post _ _ _ _
           (λ id, String.prefix "lambda-aurora-reader" id = true)).
  - intros s. apply extends_refl.
  - by intros s id [= <-].
  - intros id Hid.
    repeat first [apply scaleup_notify_keeps | apply enable_eventbridge_rule_keeps
                 | keeps_step].
    split; [done|apply prefix_app].
Qed.

Lemma try_candidate_keeps (instance_type az : string) :
  keeps scale_up_event "ENABLED" (AutoscaleUp.try_candidate cfg w instance_type az).
Proof.
  unfold AutoscaleUp.try_candidate.
  repeat first [apply check_capacity_keeps | apply create_reader_instance_keeps
               | keeps_step].
Qed.

Lemma scaleup_lambda_handler_keeps :
  keeps scale_up_event "ENABLED" (AutoscaleUp.lambda_handler cfg w).
Proof.
  unfold AutoscaleUp.lambda_handler, AutoscaleUp.place_reader,
    AutoscaleUp.get_aurora_readers_per_az.
  repeat first [apply scaleup_notify_keeps | apply try_candidate_keeps | keeps_step].
Qed.

End scale_up_keeps.

(** [X14] The scale-up handler only ever adds capacity.  Whatever the
    configuration and whatever the AWS calls answer, an invocation
    requests no deletion, updates the schedule to no state but ENABLED,
    creates instances only under the naming prefix that the scale-down
    handler filters on and with a class that starts with "db.", and
    leaves the schedule as it found it or, when there is one, ENABLED. *)
Theorem scale_up_only_adds (cfg : AutoscaleUp.Config) (w : World) (state : option string) :
  let s' := (AutoscaleUp.invoke cfg w state).2 in
  deletions (trace s') = []
  ∧ (∀ new_state, UpdateSchedule new_state ∈ trace s' → new_state = "ENABLED")
  ∧ (∀ identifier instance_class az,
       CreateDBInstance identifier instance_class az ∈ trace s' →
       String.prefix "lambda-aurora-reader" identifier = true
       ∧ String.prefix "db." instance_class = true)
  ∧ (schedule s' = state ∨ is_Some state ∧ schedule s' = Some "ENABLED").
Proof.
  intros s'.
  destruct (scaleup_lambda_handler_keeps cfg w
              {| schedule := state; trace := []; instances := [] |})
    as [(evs & Htrace & Hevs) Hschedule].
  fold (AutoscaleUp.invoke cfg w state) in Htrace, Hschedule. fold s' in Htrace, Hschedule.
  simpl in Htrace, Hschedule. rewrite Htrace. rewrite Forall_forall in Hevs.
  split_and!; [| |by intros ??? Hin; apply (Hevs _ Hin)|done].
  - clear Htrace. induction evs as [|ev evs IH]; [done|].
    assert (Hev := Hevs ev (list_elem_of_here _ _)).
    destruct ev; try done; apply IH; intros; apply Hevs; by right.
  - intros new_state Hin. apply (Hevs _ Hin).
Qed.

(** [X15] The scale-down handler only ever removes capacity.  Whatever
    the configuration and whatever the AWS calls answer, an invocation
    creates no instance, reserves no capacity, updates the schedule to no
    state but DISABLED, and leaves the schedule as it found it or, when
    there is one, DISABLED. *)
Theorem scale_down_only_removes (cfg : Downscale.Config) (w : World) (state : option string) :
  let s' := (Downscale.invoke cfg w state).2 in
  probes (trace s') = []
  ∧ (∀ identifier instance_class az,
       (CreateDBInstance identifier instance_class az ∉ trace s'))
  ∧ (∀ new_state, UpdateSchedule new_state ∈ trace s' → new_state = "DISABLED")
  ∧ (schedule s' = state ∨ is_Some state ∧ schedule s' = Some "DISABLED").
Proof.
  intros s'.
  destruct (lambda_handler_keeps cfg w
              {| schedule := state; trace := []; instances := [] |})
    as [(evs & Htrace & Hevs) Hschedule].
  fold (Downscale.invoke cfg w state) in Htrace, Hschedule. fold s' in Htrace, Hschedule.
  simpl in Htrace, Hschedule. rewrite Htrace. rewrite Forall_forall in Hevs.
  split_and!; [|by intros ??? Hin; apply (Hevs _ Hin)| |done].
  - clear Htrace. induction evs as [|ev evs IH]; [done|].
    assert (Hev := Hevs ev (list_elem_of_here _ _)).
    destruct ev; try done; apply IH; intros; apply Hevs; by right.
  - intros new_state Hin. apply (Hevs _ Hin).
Qed.

(** ** What an invocation of the scale-up handler provisions *)

Section attempts.
Context (cfg : AutoscaleUp.Config) (w : World).

Lemma declines_refl (s : State) : declines w s s.
Proof. split; [done|]. exists []. by rewrite app_nil_r. Qed.

Lemma declines_trans (s1 s2 s3 : State) :
  declines w s1 s2 → declines w s2 s3 → declines w s1 s3.
Proof.
  intros [Hs1 (evs1 & Ht1 & Hq1)] [Hs2 (evs2 & Ht2 & Hq2)].
  split; [congruence|]. exists (evs1 ++ evs2).
  rewrite Ht2, Ht1, <- app_assoc. split; [done|]. by apply Forall_app.
Qed.

Lemma declines_places (s1 s2 s3 : State) (r : AutoscaleUp.Response) :
  declines w s1 s2 → places cfg w s2 s3 r → places cfg w s1 s3 r.
Proof.
  intros [Hs (evs & Ht & Hq)]
    (instance_type & zone & created & identifier & reservation_id & before
     & -> & Hreserve & Hcancel & Hcreate & Hbefore & Htrace & Hschedule).
  exists instance_type, zone, created, identifier, reservation_id, (evs ++ before).
  rewrite <- Hs. split_and!; try done.
  - by apply Forall_app.
  - rewrite Htrace, Ht. by rewrite <- !app_assoc.
Qed.

Lemma declines_add_events (s : State) (evs : list Event) :
  Forall (quiet_event w) evs → declines w s (add_events s evs).
Proof. intros Hevs. split; [done|]. by exists evs. Qed.

Lemma notify_events_quiet (subject : string) :
  Forall (quiet_event w) (AutoscaleUpRun.notify_events cfg w subject).
Proof.
  unfold AutoscaleUpRun.notify_events. destruct (_ || _); [done|].
  destruct (publish w subject); by repeat constructor.
Qed.

Lemma check_capacity_attempt (instance_type zone : string) (s : State) :
  ∃ o evs,
    AutoscaleUp.check_capacity w instance_type zone s = (o, add_events s evs)
    ∧ Forall (quiet_event w) evs
    ∧ (o = Return true →
       ∃ reservation_id,
         create_capacity_reservation w instance_type zone = Return reservation_id
         ∧ cancel_capacity_reservation w reservation_id = Return tt).
Proof.
  unfold AutoscaleUp.check_capacity. destruct s as [state t insts]. run.
  destruct (create_capacity_reservation w instance_type zone) as [reservation_id|e]; run.
  - destruct (cancel_capacity_reservation w reservation_id) as [[]|e] eqn:Hcancel; run.
    + eexists _, [_; _]. rewrite <- app_assoc. cbn [app].
      split_and!; [done|by repeat constructor|]. intros _. by exists reservation_id.
    + destruct (isinstance_ClientError e); [destruct (contains _ _)|]; run;
        rewrite <- ?app_assoc; cbn [app].
      * eexists _, [_; _]. split_and!; [done|by repeat constructor|done].
      * eexists _, [_; _; _]. split_and!; [done|by repeat constructor|done].
      * eexists _, [_; _]. split_and!; [done|by repeat constructor|done].
  - destruct (isinstance_ClientError e); [destruct (contains _ _)|]; run;
      rewrite <- ?app_assoc; cbn [app].
    + eexists _, [_]. split_and!; [done|by repeat constructor|done].
    + eexists _, [_; _]. split_and!; [done|by repeat constructor|done].
    + eexists _, [_]. split_and!; [done|by repeat constructor|done].
Qed.

Lemma create_reader_instance_attempt (instance_type zone : string) (s : State) :
  ∃ identifier,
    match create_db_instance w identifier ("db." +:+ instance_type) zone with
    | Return created =>
        AutoscaleUp.create_reader_instance cfg w instance_type zone s
        = (Return (Some created),
           {| schedule := (AutoscaleUpRun.enable_run cfg w (schedule s)).1;
              trace := trace s
                ++ CreateDBInstance identifier ("db." +:+ instance_type) zone
                   :: AutoscaleUpRun.notify_events cfg w
                        "Aurora Reader Created with Secure Tagging"
                   ++ (AutoscaleUpRun.enable_run cfg w (schedule s)).2;
              instances := instances s |})
    | Raise e =>
        ∃ evs,
          AutoscaleUp.create_reader_instance cfg w instance_type zone s
          = (Return None, add_events s evs)
          ∧ Forall (quiet_event w) evs
    end.
Proof.
  unfold AutoscaleUp.create_reader_instance, AutoscaleUp.generate_unique_db_identifier.
  destruct s as [state t insts]. run.
  exists ("lambda-aurora-reader-" +:+ timestamp_and_uuid w (length t)).
  destruct (create_db_instance w _ _ _) as [created|e] eqn:Hcreate; run.
  - rewrite scaleup_notify_run. run. rewrite enable_eventbridge_rule_run. run.
    do 2 f_equal. same_trace.
  - rewrite scaleup_notify_run. run.
    eexists (_ :: _ :: _). split; [do 2 f_equal; same_trace|].
    constructor; [by eexists|]. constructor; [done|]. apply notify_events_quiet.
Qed.

Lemma try_candidate_attempt (instance_type zone : string) :
  attempt cfg w (AutoscaleUp.try_candidate cfg w instance_type zone).
Proof.
  intros s. unfold AutoscaleUp.try_candidate. run.
  destruct (check_capacity_attempt instance_type zone s) as (o & evs & -> & Hevs & Hprobe).
  destruct o as [[|]|e]; [|run; by apply declines_add_events..]. cbv beta iota.
  destruct (Hprobe eq_refl) as (reservation_id & Hreserve & Hcancel).
  destruct (create_reader_instance_attempt instance_type zone (add_events s evs))
    as (identifier & Hcreate).
  destruct (create_db_instance w identifier _ zone) as [created|e] eqn:Hanswer.
  - rewrite Hcreate. run.
    exists instance_type, zone, created, identifier, reservation_id, evs.
    split_and!; try done. by rewrite <- app_assoc.
  - destruct Hcreate as (evs' & -> & Hevs'). cbv beta iota.
    rewrite add_events_app. by apply declines_add_events, Forall_app.
Qed.

Lemma for_each_attempt {A : Type} (l : list A)
    (body : A → M (option AutoscaleUp.Response)) :
  (∀ x, attempt cfg w (body x)) → attempt cfg w (for_each l body).
Proof.
  intros Hbody. induction l as [|x l IH]; intros s; simpl; [apply declines_refl|].
  specialize (Hbody x s). run.
  destruct (body x s) as [[[r|]|e] s1]; try done.
  specialize (IH s1). destruct (for_each l body s1) as [[[r|]|e] s2].
  - by eapply declines_places.
  - by eapply declines_trans.
  - by eapply declines_trans.
Qed.

Lemma lambda_handler_attempt (s : State) :
  ∃ response s',
    AutoscaleUp.lambda_handler cfg w s = (Return response, s')
    ∧ (places cfg w s s' response
       ∨ AutoscaleUp.statusCode response ≠ 200 ∧ declines w s s').
Proof.
  assert (∀ s0 s1 evs, declines w s0 s1 → Forall (quiet_event w) evs →
                       declines w s0 (add_events s1 evs)) as Hmore.
  { intros s0 s1 evs H0 Hevs. eapply declines_trans; [exact H0|].
    by apply declines_add_events. }
  unfold AutoscaleUp.lambda_handler, AutoscaleUp.get_aurora_readers_per_az,
    AutoscaleUp.place_reader.
  destruct s as [state t insts]. run.
  destruct (describe_db_instances w) as [fleet|e]; run.
  2:{ rewrite scaleup_notify_run. eexists _, _. split; [done|]. right. split; [done|].
      split; [done|]. eexists. cbn [add_events trace].
      split; [rewrite <- !app_assoc; cbn [app]; reflexivity|].
      repeat (constructor; [done|]). apply notify_events_quiet. }
  set (s := {| schedule := state; trace := t; instances := insts |}).
  set (zones := AutoscaleUp.sorted_azs_of _).
  pose proof (for_each_attempt zones
    (λ az, AutoscaleUp.try_candidate cfg w (AutoscaleUp.PREFERRED_INSTANCE_TYPE cfg) az)
    (λ az, try_candidate_attempt _ az) s) as Hpreferred.
  destruct (for_each zones _ s) as [[[r|]|e] s1]; run.
  - eexists _, _. split; [done|]. by left.
  - assert (attempt cfg w
      (if String.eqb (AutoscaleUp.FALLBACK_STRATEGY cfg) "instance-priority"
       then for_each (AutoscaleUp.INSTANCE_TYPES_PRIORITY cfg) (λ instance_type,
              for_each zones (λ az, AutoscaleUp.try_candidate cfg w instance_type az))
       else for_each zones (λ az,
              for_each (AutoscaleUp.INSTANCE_TYPES_PRIORITY cfg) (λ instance_type,
                AutoscaleUp.try_candidate cfg w instance_type az)))) as Hfallback.
    { destruct (String.eqb _ _); apply for_each_attempt; intros ?;
        apply for_each_attempt; intros ?; apply try_candidate_attempt. }
    specialize (Hfallback s1). destruct (if String.eqb _ _ then _ else _) as [[[r|]|e] s2].
    + run. eexists _, _. split; [done|]. left. by eapply declines_places.
    + run. rewrite scaleup_notify_run. eexists _, _. split; [done|]. right.
      split; [done|]. pose proof (declines_trans _ _ _ Hpreferred Hfallback) as Hboth.
      destruct Hboth as [Hs (evs & Ht & Hq)]. split; [done|].
      eexists. cbn [add_events trace]. rewrite Ht.
      split; [rewrite <- !app_assoc; cbn [app]; reflexivity|].
      apply Forall_app. split; [done|].
      repeat (constructor; [done|]). apply notify_events_quiet.
    + run. rewrite scaleup_notify_run. eexists _, _. split; [done|]. right.
      split; [done|]. pose proof (declines_trans _ _ _ Hpreferred Hfallback) as Hboth.
      destruct Hboth as [Hs (evs & Ht & Hq)]. split; [done|].
      eexists. cbn [add_events trace]. rewrite Ht.
      split; [rewrite <- !app_assoc; cbn [app]; reflexivity|].
      apply Forall_app. split; [done|].
      repeat (constructor; [done|]). apply notify_events_quiet.
  - rewrite scaleup_notify_run. eexists _, _. split; [done|]. right.
    split; [done|]. destruct Hpreferred as [Hs (evs & Ht & Hq)]. split; [done|].
    eexists. cbn [add_events trace]. rewrite Ht.
    split; [rewrite <- !app_assoc; cbn [app]; reflexivity|].
    apply Forall_app. split; [done|].
    repeat (constructor; [done|]). apply notify_events_quiet.
Qed.

End attempts.

Lemma enable_run_creates_nothing (cfg : AutoscaleUp.Config) (w : World)
    (state : option string) (subject identifier instance_class zone : string) :
  CreateDBInstance identifier instance_class zone
  ∉ AutoscaleUpRun.notify_events cfg w subject ++ (AutoscaleUpRun.enable_run cfg w state).2.
Proof.
  assert (∀ subject, CreateDBInstance identifier instance_class zone
                     ∉ AutoscaleUpRun.notify_events cfg w subject) as Hnotify.
  { intros subject'. unfold AutoscaleUpRun.notify_events.
    destruct (_ || _); [by intros ?%elem_of_nil|].
    destruct (publish w subject'); set_solver. }
  intros [Hin|Hin]%elem_of_app; [by eapply Hnotify|]. revert Hin.
  unfold AutoscaleUpRun.enable_run, AutoscaleUpRun.enable_failed_events.
  repeat case_match; set_solver.
Qed.

(** [X16] What the success response of the scale-up handler means.  When
    an invocation returns 200 for a class and a zone, the capacity probe
    of that class in that zone went through (reservation made and
    released), RDS accepted the creation of one instance of that class in
    that zone and its answer is the one reported; every creation requested
    before it was rejected and the scheduler had not been called; nothing
    is created after it; the scheduler is then queried, and if it works
    and the schedule exists, the schedule is ENABLED when the handler
    returns. *)
Theorem scale_up_success_is_one_reader
    (cfg : AutoscaleUp.Config) (w : World) (state : option string)
    (instance_type zone : string) (created : option string) (s' : State) :
  AutoscaleUp.invoke cfg w state
  = (Return (AutoscaleUp.success instance_type zone created), s') →
  ∃ identifier reservation_id before after,
    trace s' = before ++ CreateDBInstance identifier ("db." +:+ instance_type) zone :: after
    ∧ create_capacity_reservation w instance_type zone = Return reservation_id
    ∧ cancel_capacity_reservation w reservation_id = Return tt
    ∧ create_db_instance w identifier ("db." +:+ instance_type) zone = Return created
    ∧ Forall (quiet_event w) before
    ∧ (∀ other instance_class az, (CreateDBInstance other instance_class az ∉ after))
    ∧ GetSchedule ∈ after
    ∧ (get_schedule_fault w = None → update_schedule_fault w = None → is_Some state →
       schedule s' = Some "ENABLED").
Proof.
  unfold AutoscaleUp.invoke. intros Hrun.
  destruct (lambda_handler_attempt cfg w {| schedule := state; trace := []; instances := [] |})
    as (response & s1 & Hrun' & [Hplaces|[Hcode _]]);
    rewrite Hrun in Hrun'; injection Hrun' as <- <-; [|done].
  destruct Hplaces as (? & ? & ? & identifier & reservation_id & before
                       & [= <- <- <-] & Hreserve & Hcancel & Hcreate & Hbefore
                       & Htrace & Hschedule).
  cbn [trace schedule app] in Htrace, Hschedule.
  eexists identifier, reservation_id, before, _.
  split_and!; [exact Htrace|done..| | |].
  - intros. apply enable_run_creates_nothing.
  - apply elem_of_app. right. unfold AutoscaleUpRun.enable_run.
    repeat case_match; apply list_elem_of_here.
  - intros Hget Hupdate [current ->]. rewrite Hschedule.
    unfold AutoscaleUpRun.enable_run. rewrite Hget, Hupdate.
    destruct (String.eqb current "ENABLED") eqn:Heq; [|done].
    apply String.eqb_eq in Heq. by subst.
Qed.

Lemma scale_up_places_reader_in_c :
  ∃ identifier before after,
    trace (AutoscaleUp.invoke (Scenario.up ["a"; "b"; "c"] []) Cases.room_in_c
             (Some "DISABLED")).2
    = before ++ CreateDBInstance identifier "db.r6i.32xlarge" "c" :: after
    ∧ Forall (quiet_event Cases.room_in_c) before.
Proof.
  destruct (AutoscaleUp.invoke (Scenario.up ["a"; "b"; "c"] []) Cases.room_in_c
              (Some "DISABLED")) as [response s'] eqn:Hrun.
  pose proof Hrun as Hvalue. vm_compute in Hvalue. injection Hvalue as <- Hs'.
  destruct (scale_up_success_is_one_reader _ _ _ _ _ _ _ Hrun)
    as (identifier & reservation_id & before & after & Htrace & _ & _ & _ & Hbefore & _).
  by exists identifier, before, after.
Defined.

(** [X17] An invocation of the scale-up handler that does not return 200
    has provisioned nothing and has left the scheduler alone: every
    creation that it requested was rejected by RDS, the scheduler was
    neither queried nor updated, and the schedule is as it was. *)
Theorem scale_up_failure_leaves_scheduler
    (cfg : AutoscaleUp.Config) (w : World) (state : option string)
    (response : AutoscaleUp.Response) (s' : State) :
  AutoscaleUp.invoke cfg w state = (Return response, s') →
  AutoscaleUp.statusCode response ≠ 200 →
  schedule s' = state
  ∧ (GetSchedule ∉ trace s')
  ∧ (∀ new_state, (UpdateSchedule new_state ∉ trace s'))
  ∧ (∀ identifier instance_class zone,
       CreateDBInstance identifier instance_class zone ∈ trace s' →
       ∃ e, create_db_instance w identifier instance_class zone = Raise e).
Proof.
  unfold AutoscaleUp.invoke. intros Hrun Hcode.
  destruct (lambda_handler_attempt cfg w {| schedule := state; trace := []; instances := [] |})
    as (response' & s1 & Hrun' & [Hplaces|[_ Hdeclines]]);
    rewrite Hrun in Hrun'; injection Hrun' as <- <-.
  { by destruct Hplaces as (? & ? & ? & ? & ? & ? & -> & _). }
  destruct Hdeclines as [Hschedule (evs & Htrace & Hquiet)].
  cbn [trace schedule app] in Htrace, Hschedule. rewrite Htrace.
  rewrite Forall_forall in Hquiet.
  split_and!; [done|intros Hin|intros ? Hin|intros ??? Hin]; exact (Hquiet _ Hin).
Qed.

Lemma scale_up_without_capacity_leaves_scheduler :
  schedule (AutoscaleUp.invoke (Scenario.up ["a"; "b"; "c"] ["X"; "Y"])
              Scenario.two_none_one (Some "DISABLED")).2 = Some "DISABLED".
Proof.
  destruct (AutoscaleUp.invoke (Scenario.up ["a"; "b"; "c"] ["X"; "Y"])
              Scenario.two_none_one (Some "DISABLED")) as [response s'] eqn:Hrun.
  pose proof Hrun as Hvalue. vm_compute in Hvalue. injection Hvalue as <- Hs'.
  refine (proj1 (scale_up_failure_leaves_scheduler _ _ _ _ _ Hrun _)).
  discriminate.
Defined.

(** ** Fallback zone by zone *)

Lemma by_zone_lookup (fallbacks zones : list string) (i k : nat) (class zone : string) :
  fallbacks !! i = Some class → zones !! k = Some zone →
  (zones ≫= λ az, (λ instance_type, (instance_type, az)) <$> fallbacks)
    !! (length fallbacks * k + i) = Some (class, zone).
Proof.
  revert k. induction zones as [|z zones IH]; intros k Hi Hk; [done|].
  rewrite bind_cons. destruct k as [|k]; simpl in Hk.
  - injection Hk as ->. rewrite Nat.mul_0_r, Nat.add_0_l.
    rewrite lookup_app_l by (rewrite length_fmap; by eapply lookup_lt_Some).
    by rewrite list_lookup_fmap, Hi.
  - rewrite lookup_app_r by (rewrite length_fmap; lia).
    rewrite length_fmap.
    replace (length fallbacks * S k + i - length fallbacks)
      with (length fallbacks * k + i) by lia.
    by apply IH.
Qed.

(** [X18] The fallback under any strategy other than "instance-priority".
    Whatever FALLBACK_STRATEGY holds, be it "az-priority", a misspelling or
    the empty string, if it is not "instance-priority" the handler probes
    the preferred class in every zone and then goes zone by zone, in
    ascending order of reader count, trying every fallback class in
    configured order before it moves to the next zone; it probes all of
    these candidates when it reports 503 or when nothing has capacity. *)
Theorem fallback_goes_zone_by_zone
    (cfg : AutoscaleUp.Config) (w : World) (s : State) (fleet : list DBInstance) :
  describe_db_instances w = Return fleet →
  AutoscaleUp.FALLBACK_STRATEGY cfg ≠ "instance-priority" →
  let readers_per_az :=
    foldl (AutoscaleUp.count_reader cfg)
          (dict_fromkeys (AutoscaleUp.AVAILABILITY_ZONES cfg) 0) fleet in
  let zones := AutoscaleUp.sorted_azs_of readers_per_az in
  let fallbacks := AutoscaleUp.INSTANCE_TYPES_PRIORITY cfg in
  let by_zone :=
    (pair (AutoscaleUp.PREFERRED_INSTANCE_TYPE cfg) <$> zones)
    ++ (zones ≫= λ az, (λ instance_type, (instance_type, az)) <$> fallbacks) in
  let ran := AutoscaleUp.lambda_handler cfg w s in
  let tried := probes (drop (length (trace s)) (trace ran.2)) in
  tried `prefix_of` by_zone
  ∧ (no_capacity w → tried = by_zone)
  ∧ (∀ response, ran.1 = Return response →
       AutoscaleUp.statusCode response = 503 → tried = by_zone)
  ∧ (∀ i k class zone,
       fallbacks !! i = Some class → zones !! k = Some zone →
       by_zone !! (length zones + length fallbacks * k + i) = Some (class, zone)).
Proof.
  intros Hfleet Hstrategy readers_per_az zones fallbacks by_zone ran tried.
  destruct (lambda_handler_follows cfg w s fleet Hfleet)
    as (response & s' & evs & Hrun & Htrace & Hprefix & _ & Hfailure & Hno).
  assert (placement_plan (AutoscaleUp.FALLBACK_STRATEGY cfg)
            (AutoscaleUp.PREFERRED_INSTANCE_TYPE cfg) fallbacks zones = by_zone) as Hplan.
  { unfold placement_plan.
    destruct (String.eqb_spec (AutoscaleUp.FALLBACK_STRATEGY cfg) "instance-priority"); done. }
  fold readers_per_az zones fallbacks in Hprefix, Hfailure, Hno.
  rewrite Hplan in Hprefix, Hfailure, Hno.
  assert (tried = probes evs) as ->.
  { unfold tried, ran. rewrite Hrun. cbn [snd]. by rewrite Htrace, drop_app_length. }
  split_and!; try done.
  - intros r Hr. unfold ran in Hr. rewrite Hrun in Hr. by injection Hr as <-.
  - intros i k class zone Hi Hk. unfold by_zone.
    rewrite lookup_app_r by (rewrite length_fmap; lia). rewrite length_fmap.
    replace (length zones + length fallbacks * k + i - length zones)
      with (length fallbacks * k + i) by lia.
    by apply by_zone_lookup.
Qed.

Lemma zone_by_zone_on_two_none_one :
  probes (trace (AutoscaleUp.lambda_handler Cases.by_zone Scenario.two_none_one
                   (Scenario.fresh "DISABLED")).2)
  = [("r6i.32xlarge", "b"); ("r6i.32xlarge", "c"); ("r6i.32xlarge", "a");
     ("r6i.16xlarge", "b"); ("r5.8xlarge", "b");
     ("r6i.16xlarge", "c"); ("r5.8xlarge", "c");
     ("r6i.16xlarge", "a"); ("r5.8xlarge", "a")].
Proof.
  refine (proj1 (proj2 (fallback_goes_zone_by_zone Cases.by_zone Scenario.two_none_one
                          (Scenario.fresh "DISABLED") _ eq_refl _)) _).
  - discriminate.
  - intros instance_type zone. by eexists.
Defined.

(** ** The configured lists *)

Lemma split_cons (sep : Ascii.ascii) (value : string) :
  ∃ head tail, split sep value = head :: tail.
Proof.
  destruct value as [|c rest]; simpl; [by eexists _, _|].
  destruct (Ascii.eqb c sep); [by eexists _, _|].
  destruct (split sep rest); by eexists _, _.
Qed.

Lemma split_length (sep : Ascii.ascii) (value : string) :
  length (split sep value) = S (occurrences sep value).
Proof.
  induction value as [|c rest IH]; simpl; [done|].
  destruct (Ascii.eqb c sep); simpl; [by rewrite IH|].
  destruct (split_cons sep rest) as (head & tail & Hsplit).
  rewrite Hsplit in IH |- *. done.
Qed.

Lemma join_cons (sep : Ascii.ascii) (part next : string) (rest : list string) :
  join sep (part :: next :: rest) = part +:+ String sep (join sep (next :: rest)).
Proof. done. Qed.

Lemma join_split (sep : Ascii.ascii) (value : string) :
  join sep (split sep value) = value.
Proof.
  induction value as [|c rest IH]; simpl; [done|].
  destruct (split_cons sep rest) as (head & tail & Hsplit). rewrite Hsplit in IH |- *.
  destruct (Ascii.eqb_spec c sep) as [->|Hne].
  - by rewrite join_cons, IH.
  - destruct tail as [|next tail]; [simpl in *; by rewrite IH|].
    rewrite join_cons in IH |- *. by rewrite <- IH.
Qed.

Lemma split_parts (sep : Ascii.ascii) (value part : string) :
  part ∈ split sep value → occurrences sep part = 0.
Proof.
  revert part. induction value as [|c rest IH]; simpl; intros part Hin.
  - by apply list_elem_of_singleton in Hin as ->.
  - destruct (Ascii.eqb c sep) eqn:Hc.
    + apply elem_of_cons in Hin as [->|Hin]; [done|by apply IH].
    + destruct (split_cons sep rest) as (head & tail & Hsplit). rewrite Hsplit in IH, Hin.
      apply elem_of_cons in Hin as [->|Hin].
      * simpl. rewrite Hc. apply IH. by left.
      * apply IH. by right.
Qed.

(** [X19] The fallback classes and the zones are the value of their
    environment variable cut at every comma and at nothing else: there is
    one entry more than there are commas, so never an empty list (a
    variable set to the empty string gives one entry, the empty name), no
    entry holds a comma, and the entries joined by commas are the value
    again, so that blanks around a comma stay in the names. *)
Theorem configured_lists_are_cut_at_commas (value : string) (parts : list string) :
  parts = INSTANCE_TYPES_PRIORITY_of (Some value)
  ∨ parts = AVAILABILITY_ZONES_of (Some value) →
  length parts = S (occurrences comma value)
  ∧ (∀ part, part ∈ parts → occurrences comma part = 0)
  ∧ join comma parts = value.
Proof.
  unfold INSTANCE_TYPES_PRIORITY_of, AVAILABILITY_ZONES_of. simpl default.
  intros [->| ->];
    (split_and!; [apply split_length|apply split_parts|apply join_split]).
Qed.

Lemma blanks_stay_in_zone_names :
  length [" eu-central-1a"; " eu-central-1b "; EmptyString] = 3
  ∧ join comma [" eu-central-1a"; " eu-central-1b "; EmptyString]
    = " eu-central-1a, eu-central-1b ,".
Proof.
  destruct (configured_lists_are_cut_at_commas " eu-central-1a, eu-central-1b ,"
              [" eu-central-1a"; " eu-central-1b "; EmptyString] (or_intror eq_refl))
    as (Hlength & _ & Hjoin).
  split; [exact Hlength|exact Hjoin].
Defined.
